(** * Agora-Logos news aggregation core: a shallow embedding

    The development follows the JavaScript sources of the `logos` service:

    - [Js]            the fragment of JavaScript values and built-ins the code relies on
                      (strings as UTF-16 code units, truthiness, [ToString], [trim],
                      [parseInt], 32-bit integer wrap-around);
    - [NewsErrors]    news/errors/NewsErrors.js, the error taxonomy;
    - [ArticleData]   news/ArticleData.js, the article normalizer;
    - [Providers]     news/providers/{GNews,NewsAPI,Guardian}Provider.js;
    - [NewsClient]    news/NewsClient.js, registry, query cache and pagination.

    JavaScript numbers are modelled by [Z]: the model is exact as long as the
    integers involved stay below 2^53, which is where doubles stop being exact. *)

From Stdlib Require Import ZArith List String Ascii Bool Lia.
From Stdlib Require Import Decimal DecimalString DecimalPos.
From stdpp Require Import gmap list.

Import ListNotations.
Set Warnings "-register-all".
Set Default Proof Using "Type".
Local Open Scope Z_scope.
Local Open Scope list_scope.

(* ===================================================================== *)
(** * JavaScript values and built-ins                                     *)
(* ===================================================================== *)

Module Js.

(** A JavaScript string is a sequence of UTF-16 code units. *)
Definition jsstring : Type := list Z.

(** String literals of the source (all of them are ASCII). *)
Definition lit (s : string) : jsstring :=
  List.map (fun a => Z.of_N (N_of_ascii a)) (list_ascii_of_string s).

(** The values that reach the code: JSON data decoded from a provider's
    response or from the query string, and [undefined] for absent fields. *)
Inductive JsVal : Type :=
| JUndefined
| JNull
| JBool (b : bool)
| JNum (n : Z)
| JStr (s : jsstring)
| JArr (elems : list JsVal)
| JObj (fields : list (jsstring * JsVal)).

Definition jsstring_eqb (a b : jsstring) : bool :=
  bool_decide (a = b).

(** [v === 'literal'] *)
Definition is_str (v : JsVal) (s : jsstring) : bool :=
  match v with JStr t => jsstring_eqb t s | _ => false end.

(** [typeof v === 'string'] and [typeof v === 'object'] (arrays and [null]
    have type 'object'). *)
Definition is_string (v : JsVal) : bool :=
  match v with JStr _ => true | _ => false end.

Definition typeof_object (v : JsVal) : bool :=
  match v with JNull | JArr _ | JObj _ => true | _ => false end.

(** ToBoolean: what [!v], [v || d] and [if (v)] test. *)
Definition truthy (v : JsVal) : bool :=
  match v with
  | JUndefined | JNull => false
  | JBool b => b
  | JNum n => negb (n =? 0)
  | JStr s => match s with [] => false | _ => true end
  | JArr _ | JObj _ => true
  end.

(** [a || b] *)
Definition or_else (a b : JsVal) : JsVal := if truthy a then a else b.

(** Property read [v.k] on a value that is neither [null] nor [undefined].
    Objects are association lists in insertion order; the names read by the
    code are not defined on primitives or arrays. *)
Fixpoint assoc (k : jsstring) (fields : list (jsstring * JsVal)) : JsVal :=
  match fields with
  | [] => JUndefined
  | (k', v) :: rest => if jsstring_eqb k k' then v else assoc k rest
  end.

Definition get (v : JsVal) (k : string) : JsVal :=
  match v with
  | JObj fields => assoc (lit k) fields
  | _ => JUndefined
  end.

Definition is_Some_b {A} (o : option A) : bool :=
  match o with Some _ => true | None => false end.

(** [v?.k]: also defined, as [undefined], on [null] and [undefined]. *)
Definition get_opt (v : JsVal) (k : string) : JsVal := get v k.

Definition nullish (v : JsVal) : bool :=
  match v with JUndefined | JNull => true | _ => false end.

(** Decimal rendering of an integer, as [String(n)] does. *)
Definition decimal (n : Z) : jsstring :=
  lit (NilZero.string_of_int (Z.to_int n)).

Fixpoint join (sep : jsstring) (parts : list jsstring) : jsstring :=
  match parts with
  | [] => []
  | [p] => p
  | p :: rest => p ++ sep ++ join sep rest
  end.

Definition has_field (k : jsstring) (fields : list (jsstring * JsVal)) : bool :=
  existsb (fun kv => jsstring_eqb k (fst kv)) fields.

(** ToString, [None] when the conversion raises a TypeError. An object
    converts through [Object.prototype.toString] unless a field of its own
    named toString hides it: decoded data is never callable, and the
    conversion then fails. Arrays join their elements with commas, [null]
    and [undefined] elements rendering as the empty string. *)
Fixpoint to_string (v : JsVal) : option jsstring :=
  match v with
  | JUndefined => Some (lit "undefined")
  | JNull => Some (lit "null")
  | JBool true => Some (lit "true")
  | JBool false => Some (lit "false")
  | JNum n => Some (decimal n)
  | JStr s => Some s
  | JArr elems =>
      option_map (join (lit ","))
        ((fix each (l : list JsVal) : option (list jsstring) :=
            match l with
            | [] => Some []
            | x :: r =>
                match (if nullish x then Some [] else to_string x), each r with
                | Some s, Some ss => Some (s :: ss)
                | _, _ => None
                end
            end) elems)
  | JObj fields =>
      if has_field (lit "toString") fields then None
      else Some (lit "[object Object]")
  end.

(** The text of a value that converts. *)
Definition shown (v : JsVal) : jsstring :=
  match to_string v with Some s => s | None => [] end.

(** ** White space *)

(** The code units matched by [\s] and stripped by [trim]: WhiteSpace and
    LineTerminator of the language specification. *)
Definition is_ws (c : Z) : bool :=
  existsb (Z.eqb c)
    [9; 10; 11; 12; 13; 32; 160; 5760; 8232; 8233; 8239; 8287; 12288; 65279]
  || ((8192 <=? c) && (c <=? 8202)).

Fixpoint drop_ws (s : jsstring) : jsstring :=
  match s with
  | [] => []
  | c :: r => if is_ws c then drop_ws r else s
  end.

(** [s.trim()] *)
Definition trim (s : jsstring) : jsstring :=
  rev (drop_ws (rev (drop_ws s))).

(** [s.replace(/\s+/g, ' ')]: every maximal run of white space becomes one
    space. [in_run] tells that the previous code unit was white space. *)
Fixpoint collapse_from (in_run : bool) (s : jsstring) : jsstring :=
  match s with
  | [] => []
  | c :: r =>
      if is_ws c
      then (if in_run then collapse_from true r else 32 :: collapse_from true r)
      else c :: collapse_from false r
  end.

Definition collapse_ws (s : jsstring) : jsstring := collapse_from false s.

(** [s.replace(/[\r\n\t]/g, ' ')] *)
Definition replace_crlftab (s : jsstring) : jsstring :=
  List.map (fun c => if (c =? 13) || (c =? 10) || (c =? 9) then 32 else c) s.

(** [s.substring(0, n)] for [0 <= n] *)
Definition substring0 (n : nat) (s : jsstring) : jsstring := firstn n s.

(** ** 32-bit integers *)

(** ToInt32: the wrap-around applied by [<<] and [&]. *)
Definition to_int32 (z : Z) : Z :=
  (z + 2 ^ 31) mod 2 ^ 32 - 2 ^ 31.

(** [a << 5] *)
Definition shl5 (a : Z) : Z := to_int32 (Z.shiftl (to_int32 a) 5).

(** [a & a] *)
Definition and_self (a : Z) : Z := Z.land (to_int32 a) (to_int32 a).

(** ** parseInt *)

Definition digit_value (radix : Z) (c : Z) : option Z :=
  let d :=
    if (48 <=? c) && (c <=? 57) then Some (c - 48)
    else if (97 <=? c) && (c <=? 122) then Some (c - 97 + 10)
    else if (65 <=? c) && (c <=? 90) then Some (c - 65 + 10)
    else None in
  match d with
  | Some v => if v <? radix then Some v else None
  | None => None
  end.

(** Reads the longest prefix of digits; [acc] is [Some] once a digit was read. *)
Fixpoint read_digits (radix : Z) (acc : option Z) (s : jsstring) : option Z :=
  match s with
  | [] => acc
  | c :: r =>
      match digit_value radix c with
      | Some d =>
          read_digits radix
            (Some (match acc with Some a => a * radix + d | None => d end)) r
      | None => acc
      end
  end.

(** [parseInt(s)] on a string, without a radix argument: leading white space
    is skipped, a sign is read, a [0x]/[0X] prefix selects radix 16, and the
    longest prefix of digits is the value. [None] is [NaN]. *)
Definition parseInt_string (s : jsstring) : option Z :=
  let s1 := drop_ws s in
  let '(sign, s2) :=
    match s1 with
    | 45 :: r => (-1, r)
    | 43 :: r => (1, r)
    | _ => (1, s1)
    end in
  let '(radix, s3) :=
    match s2 with
    | 48 :: 120 :: r => (16, r)
    | 48 :: 88 :: r => (16, r)
    | _ => (10, s2)
    end in
  match read_digits radix None s3 with
  | Some n => Some (sign * n)
  | None => None
  end.

(** [parseInt(v)]: the argument is first converted with ToString; the outer
    [None] is the TypeError of a failed conversion. *)
Definition parseInt (v : JsVal) : option (option Z) :=
  option_map parseInt_string (to_string v).

(** ** Searching in strings *)

(** [s.startsWith(p)] *)
Fixpoint starts_with (p s : jsstring) : bool :=
  match p, s with
  | [], _ => true
  | _ :: _, [] => false
  | a :: p', b :: s' => (a =? b) && starts_with p' s'
  end.

(** [s.includes(needle)] *)
Fixpoint includes_str (needle s : jsstring) : bool :=
  starts_with needle s
  || match s with
     | [] => false
     | _ :: r => includes_str needle r
     end.

(** The code units the regular expression dot does not match. *)
Definition is_line_terminator (c : Z) : bool :=
  (c =? 10) || (c =? 13) || (c =? 8232) || (c =? 8233).

(** A regular expression of the shape [/prefix(.+?)suffix/], tried at the
    start of [s]: the capture, once it holds one code unit, grows one code
    unit at a time until the suffix follows, and gives up on a line
    terminator or at the end of the string. *)
Fixpoint lazy_capture (suffix acc s : jsstring) : option jsstring :=
  if starts_with suffix s then Some acc
  else match s with
       | [] => None
       | c :: r =>
           if is_line_terminator c then None
           else lazy_capture suffix (acc ++ [c]) r
       end.

Definition capture_at (prefix suffix s : jsstring) : option jsstring :=
  if starts_with prefix s then
    match skipn (length prefix) s with
    | [] => None
    | c :: r => if is_line_terminator c then None else lazy_capture suffix [c] r
    end
  else None.

(** [s.match(/prefix(.+?)suffix/)]: the capture of the leftmost match. *)
Fixpoint capture (prefix suffix s : jsstring) : option jsstring :=
  match capture_at prefix suffix s with
  | Some c => Some c
  | None => match s with
            | [] => None
            | _ :: r => capture prefix suffix r
            end
  end.

End Js.

Import Js.

(* ===================================================================== *)
(** * news/errors/NewsErrors.js                                           *)
(* ===================================================================== *)

Module NewsErrors.

(** Everything the code throws: the classes of NewsErrors.js, the plain
    [Error] the older providers raise, and the [TypeError] of the runtime. *)
Inductive Exn : Type :=
| Error (msg : jsstring)
| TypeError (msg : jsstring)
| NewsError (msg : jsstring) (status : Z)
| ValidationError (msg : jsstring)
| ProviderNotFoundError (providerName : JsVal) (availableProviders : list jsstring)
| ProviderConfigurationError (msg : jsstring)
| NoProvidersAvailableError
| RateLimitError (providerName : jsstring) (resetTime : option jsstring)
| ExternalAPIError (providerName : jsstring) (originalError : Exn)
| ArticleNotFoundError (articleId : jsstring)
| InvalidQueryError (query : JsVal) (reason : jsstring).

(** [error.message], as each constructor passes it to [super]. *)
Fixpoint message (e : Exn) : jsstring :=
  match e with
  | Error m | TypeError m | NewsError m _ | ValidationError m
  | ProviderConfigurationError m => m
  | ProviderNotFoundError name available =>
      match available with
      | [] => lit "Provider '" ++ shown name ++ lit "' not found"
      | _ => lit "Provider '" ++ shown name
             ++ lit "' not found. Available providers: "
             ++ join (lit ", ") available
      end
  | NoProvidersAvailableError =>
      lit "No news providers are configured. Please set API keys in environment variables."
  | RateLimitError name reset =>
      match reset with
      | Some t => lit "Rate limit exceeded for " ++ name ++ lit ". Resets at " ++ t
      | None => lit "Rate limit exceeded for " ++ name
      end
  | ExternalAPIError name original =>
      lit "External API error from " ++ name ++ lit ": " ++ message original
  | ArticleNotFoundError i => lit "Article with ID '" ++ i ++ lit "' not found"
  | InvalidQueryError query reason =>
      reason ++ lit ": '" ++ shown query ++ lit "'"
  end.

(** The TypeError of a conversion to string that fails. *)
Definition cannot_convert : Exn :=
  TypeError (lit "Cannot convert object to primitive value").

(** [new SomeError(..., v, ...)] where the constructor interpolates [v] into
    its message: the construction itself raises when [v] does not convert. *)
Definition interpolating (v : JsVal) (e : Exn) : Exn :=
  match to_string v with Some _ => e | None => cannot_convert end.

(** [error.statusCode]; [undefined] on errors that are not news errors. *)
Definition statusCode (e : Exn) : option Z :=
  match e with
  | Error _ | TypeError _ => None
  | NewsError _ s => Some s
  | ValidationError _ | InvalidQueryError _ _ => Some 400
  | ProviderNotFoundError _ _ | ArticleNotFoundError _ => Some 404
  | ProviderConfigurationError _ | NoProvidersAvailableError => Some 503
  | RateLimitError _ _ => Some 429
  | ExternalAPIError _ _ => Some 502
  end.

(** [error.isNewsError] *)
Definition isNewsError (e : Exn) : bool :=
  match statusCode e with Some _ => true | None => false end.

(** [error instanceof ValidationError] *)
Definition isValidationError (e : Exn) : bool :=
  match e with ValidationError _ | InvalidQueryError _ _ => true | _ => false end.

(** [error instanceof ExternalAPIError] *)
Definition isExternalAPIError (e : Exn) : bool :=
  match e with ExternalAPIError _ _ => true | _ => false end.

(** [error.name], the name of the class of the error. *)
Definition name (e : Exn) : jsstring :=
  match e with
  | Error _ => lit "Error"
  | TypeError _ => lit "TypeError"
  | NewsError _ _ => lit "NewsError"
  | ValidationError _ => lit "ValidationError"
  | ProviderNotFoundError _ _ => lit "ProviderNotFoundError"
  | ProviderConfigurationError _ => lit "ProviderConfigurationError"
  | NoProvidersAvailableError => lit "NoProvidersAvailableError"
  | RateLimitError _ _ => lit "RateLimitError"
  | ExternalAPIError _ _ => lit "ExternalAPIError"
  | ArticleNotFoundError _ => lit "ArticleNotFoundError"
  | InvalidQueryError _ _ => lit "InvalidQueryError"
  end.

(** The object [NewsError.toJSON] returns. *)
Record ErrorBody : Type := {
  success : bool;
  error : jsstring;
  type : jsstring;
  eb_statusCode : option Z
}.

Definition toJSON (e : Exn) : ErrorBody :=
  {| success := false; error := message e; type := name e;
     eb_statusCode := statusCode e |}.

(** [createNewsError(message, defaultStatusCode)] *)
Definition createNewsError (msg : jsstring) (defaultStatusCode : Z) : Exn :=
  if includes_str (lit "Invalid sortBy") msg
     || includes_str (lit "Invalid searchIn") msg
     || includes_str (lit "Invalid category") msg
  then ValidationError msg
  else if includes_str (lit "not properly configured") msg
          || includes_str (lit "API key") msg
          || includes_str (lit "not configured") msg
  then ProviderConfigurationError msg
  else
    let rest :=
      if includes_str (lit "rate limit") msg || includes_str (lit "quota exceeded") msg
      then RateLimitError (lit "unknown provider") None
      else NewsError msg defaultStatusCode in
    if includes_str (lit "not found") msg then
      match capture (lit "Provider '") (lit "' not found") msg with
      | Some providerName => ProviderNotFoundError (JStr providerName) []
      | None => rest
      end
    else rest.

(** What [newsErrorHandler] sends: [res.status(code).json(body)]. *)
Definition newsErrorHandler (e : Exn) : option Z * ErrorBody :=
  if isNewsError e then (statusCode e, toJSON e)
  else
    let newsError := createNewsError (message e) 500 in
    (statusCode newsError, toJSON newsError).

(** A computation that returns or throws. *)
Inductive Result (A : Type) : Type :=
| Ok (a : A)
| Throw (e : Exn).
Arguments Ok {A} a.
Arguments Throw {A} e.

Definition bind {A B} (r : Result A) (k : A -> Result B) : Result B :=
  match r with
  | Ok a => k a
  | Throw e => Throw e
  end.

(** [try { body } catch (error) { throw handler(error) }] *)
Definition try_catch {A} (body : Result A) (handler : Exn -> Exn) : Result A :=
  match body with
  | Ok a => Ok a
  | Throw e => Throw (handler e)
  end.

(** [items.map(f)] where [f] may throw: the first failure aborts the loop. *)
Fixpoint mapM {A B} (f : A -> Result B) (l : list A) : Result (list B) :=
  match l with
  | [] => Ok []
  | x :: r =>
      bind (f x) (fun y => bind (mapM f r) (fun ys => Ok (y :: ys)))
  end.

(** [items.filter(p)] where [p] may throw. *)
Fixpoint filterM {A} (p : A -> Result bool) (l : list A) : Result (list A) :=
  match l with
  | [] => Ok []
  | x :: r =>
      bind (p x) (fun keep =>
      bind (filterM p r) (fun ys => Ok (if keep then x :: ys else ys)))
  end.

End NewsErrors.

Import NewsErrors.

Declare Scope result_scope.
Delimit Scope result_scope with result.
Notation "'let!' x ':=' c1 'in' c2" := (bind c1 (fun x => c2))
  (at level 10, x name, c1 at level 100, c2 at level 200) : result_scope.

(* ===================================================================== *)
(** * news/ArticleData.js                                                 *)
(* ===================================================================== *)

Module ArticleData.

Record Source : Type := { name : jsstring; src_url : option jsstring }.

(** [new Date(s)]: the date object built from the string, unvalidated. *)
Inductive DateValue : Type := NewDate (s : jsstring).

Record Article : Type := {
  title : jsstring;
  description : jsstring;
  content : jsstring;
  url : option jsstring;
  urlToImage : option jsstring;
  publishedAt : option DateValue;
  source : Source;
  provider : JsVal;
  id : jsstring;
  createdAt : jsstring
}.

(** [s || d] on strings *)
Definition str_or (s d : jsstring) : jsstring :=
  match s with [] => d | _ => s end.

(** [u || null] on a string or [null] *)
Definition or_null (u : option jsstring) : option jsstring :=
  match u with
  | Some [] => None
  | _ => u
  end.

Definition _sanitizeString (str : JsVal) : jsstring :=
  match str with
  | JStr s =>
      if negb (truthy str) then []
      else substring0 5000 (replace_crlftab (collapse_ws (trim s)))
  | _ => []
  end.

Definition _validateDate (date : JsVal) : option DateValue :=
  match date with
  | JStr s => if negb (truthy date) then None else Some (NewDate s)
  | _ => None
  end.

(** The value of [this.url + this.provider] *)
Inductive Prim : Type := PStr (s : jsstring) | PInt (n : Z) | PNaN.

(** [url + provider], for a provider that converts to a string: string
    concatenation as soon as one operand is (or converts to) a string,
    numeric addition otherwise, [null] counting as 0. *)
Definition add_url_provider (u : option jsstring) (p : JsVal) : Prim :=
  match u, p with
  | Some s, _ => PStr (s ++ shown p)
  | None, JStr s => PStr (lit "null" ++ s)
  | None, (JArr _ | JObj _) => PStr (lit "null" ++ shown p)
  | None, JNum n => PInt n
  | None, JBool b => PInt (if b then 1 else 0)
  | None, JNull => PInt 0
  | None, JUndefined => PNaN
  end.

Definition prim_to_string (p : Prim) : jsstring :=
  match p with
  | PStr s => s
  | PInt n => decimal n
  | PNaN => lit "NaN"
  end.

(** [this.url + this.provider + this.title] *)
Definition id_text (u : option jsstring) (p : JsVal) (t : jsstring) : jsstring :=
  prim_to_string (add_url_provider u p) ++ t.

(** The reducer of [_generateId]: [a = ((a << 5) - a) + b.charCodeAt(0); return a & a] *)
Definition hash_step (a b : Z) : Z := and_self ((shl5 a - a) + b).

(** [text.split('').reduce(hash_step, 0)] *)
Definition hash (text : jsstring) : Z := fold_left hash_step text 0.

(** [_generateId], for a provider that converts to a string. *)
Definition _generateId (u : option jsstring) (p : JsVal) (t : jsstring) : jsstring :=
  shown p ++ lit "_" ++ decimal (Z.abs (hash (id_text u p t))).

Section WithUrlParser.

(** [new URL(s)] succeeds: the WHATWG URL parser accepts [s] as an absolute URL. *)
Variable url_parses : jsstring -> bool.

Definition _validateUrl (u : JsVal) : option jsstring :=
  match u with
  | JStr s =>
      if negb (truthy u) then None
      else if url_parses s then Some s else None
  | _ => None
  end.

Definition _normalizeSource (src : JsVal) : Source :=
  if negb (truthy src) || negb (typeof_object src)
  then {| name := lit "Unknown"; src_url := None |}
  else {| name := str_or (_sanitizeString (get src "name")) (lit "Unknown");
          src_url := or_null (_validateUrl (get src "url")) |}.

(** [new ArticleData(data)] at time [now]. Two steps can throw: reading a
    property of [null] or [undefined], and, in [_generateId], converting a
    provider tag that has no string conversion. *)
Definition new (now : jsstring) (data : JsVal) : Result Article :=
  if nullish data
  then Throw (TypeError (lit "Cannot read properties of " ++ shown data
                         ++ lit " (reading 'title')"))
  else
    let title := str_or (_sanitizeString (get data "title")) (lit "No title available") in
    let url := _validateUrl (get data "url") in
    let provider := or_else (get data "provider") (JStr (lit "unknown")) in
    if negb (is_Some_b (to_string provider)) then Throw cannot_convert else
    Ok {| title := title;
          description := str_or (_sanitizeString (get data "description")) [];
          content := str_or (_sanitizeString (get data "content")) [];
          url := url;
          urlToImage := or_null (_validateUrl (get data "urlToImage"));
          publishedAt := _validateDate (get data "publishedAt");
          source := _normalizeSource (get data "source");
          provider := provider;
          id := _generateId url provider title;
          createdAt := now |}.

(** [article.toJSON()]: a plain object with the same ten fields. *)
Definition toJSON (a : Article) : Article :=
  {| title := title a; description := description a; content := content a;
     url := url a; urlToImage := urlToImage a; publishedAt := publishedAt a;
     source := source a; provider := provider a; id := id a;
     createdAt := createdAt a |}.

End WithUrlParser.

(** [article.getSummary()] *)
Definition getSummary (a : Article) : jsstring :=
  let text := str_or (content a) (description a) in
  match text with
  | [] => []
  | _ =>
      if (150 <? length text)%nat
      then substring0 150 text ++ lit "..."
      else text
  end.

(** The instance methods the class defines. *)
Definition methods : list string :=
  ["toJSON"; "getSummary"; "_sanitizeString"; "_validateUrl";
   "_normalizeSource"; "_generateId"; "_validateDate"]%string.

(** [article.isValid()]: the class defines no method of that name, on the
    instance or up its prototype chain. The property reads as [undefined]
    and calling it raises a TypeError. *)
Definition isValid (a : Article) : Result bool :=
  Throw (TypeError (lit "article.isValid is not a function")).

End ArticleData.

(* ===================================================================== *)
(** * news/enums.js                                                       *)
(* ===================================================================== *)

Module Enums.

(** [Object.values(SortBy)] and the like, in declaration order. *)
Definition SortBy : list jsstring :=
  [lit "relevance"; lit "date"; lit "publishedAt"].
Definition SearchInOptions : list jsstring :=
  [lit "title"; lit "description"; lit "content"].
Definition NewsCategory : list jsstring :=
  [lit "general"; lit "business"; lit "entertainment"; lit "health";
   lit "science"; lit "sports"; lit "technology"].

Definition GNEWS : jsstring := lit "gnews".
Definition NEWSAPI : jsstring := lit "newsapi".
Definition GUARDIAN : jsstring := lit "guardian".

(** [values.includes(v)] *)
Definition includes (values : list jsstring) (v : JsVal) : bool :=
  match v with
  | JStr s => existsb (jsstring_eqb s) values
  | _ => false
  end.

End Enums.

(** What a provider's [normalizeResponse] returns. *)
Record ProviderResponse : Type := {
  pr_status : jsstring;
  pr_totalResults : JsVal;
  pr_actualResults : option Z;
  pr_provider : jsstring;
  pr_articles : list ArticleData.Article
}.

(** An options object, as an association list. [undefined] entries are
    absent ones. *)
Definition Fields : Type := list (jsstring * JsVal).

(** [if (v !== undefined) params.k = v] *)
Definition set_if_defined (k : string) (v : JsVal) (params : Fields) : Fields :=
  match v with
  | JUndefined => params
  | _ => params ++ [(lit k, v)]
  end.

(** [if (v) params.append(k, v)] *)
Definition append_if_truthy (k : string) (v : JsVal) (params : Fields) : Fields :=
  if truthy v then params ++ [(lit k, v)] else params.

(** [const { k = d } = options] *)
Definition default_to (v d : JsVal) : JsVal :=
  match v with JUndefined => d | _ => v end.

(** [rawArticles.map(f)] on a value that must be an array. *)
Definition map_array {B} (recv : string) (f : JsVal -> Result B) (v : JsVal)
  : Result (list B) :=
  match v with
  | JArr elems => mapM f elems
  | _ => Throw (TypeError (lit recv ++ lit ".map is not a function"))
  end.

(** Reading a property of the response or of a raw article. *)
Definition read (v : JsVal) (k : string) : Result JsVal :=
  if nullish v
  then Throw (TypeError (lit "Cannot read properties of " ++ shown v
                         ++ lit " (reading '" ++ lit k ++ lit "')"))
  else Ok (get v k).

(* ===================================================================== *)
(** * news/providers/GNewsProvider.js                                     *)
(* ===================================================================== *)

Module GNewsProvider.
Section Provider.

Variable url_parses : jsstring -> bool.
Variable now : jsstring.
Variable apiKey : jsstring.
(** [this.client.search(query, params)] and [this.client.topHeadlines(params)]
    of the gnews library: a response, or a rejection. *)
Variable client_search : jsstring -> Fields -> Result JsVal.
Variable client_topHeadlines : Fields -> Result JsVal.

Definition name : jsstring := Enums.GNEWS.

Definition _validateOptions (sortBy searchIn category : JsVal) : Result unit :=
  if truthy sortBy && negb (Enums.includes Enums.SortBy sortBy)
  then Throw (ValidationError (lit "Invalid sortBy option. Must be one of: "
                               ++ join (lit ", ") Enums.SortBy))
  else if truthy searchIn && negb (Enums.includes Enums.SearchInOptions searchIn)
  then Throw (ValidationError (lit "Invalid searchIn option. Must be one of: "
                               ++ join (lit ", ") Enums.SearchInOptions))
  else if truthy category && negb (Enums.includes Enums.NewsCategory category)
  then Throw (ValidationError (lit "Invalid category option. Must be one of: "
                               ++ join (lit ", ") Enums.NewsCategory))
  else Ok tt.

Definition raw_of (article : JsVal) : JsVal :=
  let src := get article "source" in
  JObj [ (lit "title", get article "title");
         (lit "description", get article "description");
         (lit "content", get article "content");
         (lit "url", get article "url");
         (lit "urlToImage", get article "image");
         (lit "publishedAt", get article "publishedAt");
         (lit "source",
          JObj [ (lit "name", or_else (get_opt src "name") (JStr (lit "Unknown")));
                 (lit "url", or_else (get_opt src "url") JNull) ]);
         (lit "provider", JStr name) ].

Definition normalizeResponse (response : JsVal) : Result ProviderResponse :=
  (let! raw := read response "articles" in
   let rawArticles := or_else raw (JArr []) in
   let! articles :=
     map_array "rawArticles"
       (fun article =>
          let! _ := read article "title" in
          ArticleData.new url_parses now (raw_of article))
       rawArticles in
   Ok {| pr_status := lit "ok";
         pr_totalResults := or_else (get response "totalArticles") (JNum 0);
         pr_actualResults := Some (Z.of_nat (length articles));
         pr_provider := name;
         pr_articles := List.map ArticleData.toJSON articles |})%result.

Definition searchNews (query : jsstring) (options : Fields) : Result ProviderResponse :=
  if negb (truthy (JStr apiKey))
  then Throw (ProviderConfigurationError (lit "GNews provider is not properly configured"))
  else
    (let! _ := _validateOptions (assoc (lit "sortBy") options)
                                (assoc (lit "searchIn") options) JUndefined in
     try_catch
       (let searchParams :=
          set_if_defined "in" (assoc (lit "searchIn") options)
          (set_if_defined "sortby" (assoc (lit "sortBy") options)
          (set_if_defined "to" (assoc (lit "to") options)
          (set_if_defined "from" (assoc (lit "from") options)
          (set_if_defined "country" (assoc (lit "country") options)
          (set_if_defined "lang" (assoc (lit "lang") options)
          (set_if_defined "max" (assoc (lit "max") options) [])))))) in
        let! response := client_search query searchParams in
        normalizeResponse response)
       (fun error => ExternalAPIError (lit "GNews") error))%result.

Definition getTopHeadlines (options : Fields) : Result ProviderResponse :=
  if negb (truthy (JStr apiKey))
  then Throw (ProviderConfigurationError (lit "GNews provider is not properly configured"))
  else
    (let! _ := _validateOptions JUndefined JUndefined (assoc (lit "category") options) in
     try_catch
       (let headlineParams :=
          set_if_defined "country" (assoc (lit "country") options)
          (set_if_defined "lang" (assoc (lit "lang") options)
          (set_if_defined "max" (assoc (lit "max") options)
          (set_if_defined "category" (assoc (lit "category") options) []))) in
        let! response := client_topHeadlines headlineParams in
        normalizeResponse response)
       (fun error => ExternalAPIError (lit "GNews") error))%result.

End Provider.
End GNewsProvider.

(** What [await fetch(url)] produces: a rejection (network failure), or a
    response with its [ok] flag, status line and the outcome of [json()]. *)
Inductive FetchReply : Type :=
| FetchRejects (e : Exn)
| FetchResponds (ok : bool) (status : Z) (statusText : jsstring) (json : Result JsVal).

(** [if (!response.ok) throw new Error(...); const data = await response.json()] *)
Definition response_data (who : string) (reply : FetchReply) : Result JsVal :=
  match reply with
  | FetchRejects e => Throw e
  | FetchResponds ok status statusText json =>
      if negb ok
      then Throw (Error (lit who ++ lit " request failed: " ++ decimal status
                         ++ lit " " ++ statusText))
      else json
  end.

(* ===================================================================== *)
(** * news/providers/NewsAPIProvider.js                                   *)
(* ===================================================================== *)

Module NewsAPIProvider.
Section Provider.

Variable url_parses : jsstring -> bool.
Variable now : jsstring.
Variable apiKey : jsstring.
(** [fetch(baseUrl + path + '?' + params)] *)
Variable fetch : jsstring -> Fields -> FetchReply.

Definition name : jsstring := Enums.NEWSAPI.

Definition isReady : bool := truthy (JStr apiKey).

Definition _validateOptions (sortBy category : JsVal) : Result unit :=
  if truthy sortBy && negb (Enums.includes Enums.SortBy sortBy)
  then Throw (Error (lit "Invalid sortBy option. Must be one of: "
                     ++ join (lit ", ") Enums.SortBy))
  else if truthy category && negb (Enums.includes Enums.NewsCategory category)
  then Throw (Error (lit "Invalid category option. Must be one of: "
                     ++ join (lit ", ") Enums.NewsCategory))
  else Ok tt.

Definition _mapSortBy (sortBy : JsVal) : jsstring :=
  match sortBy with
  | JStr s =>
      if jsstring_eqb s (lit "relevance") then lit "relevancy"
      else if jsstring_eqb s (lit "date") then lit "publishedAt"
      else if jsstring_eqb s (lit "publishedAt") then lit "publishedAt"
      else lit "relevancy"
  | _ => lit "relevancy"
  end.

Definition raw_of (article : JsVal) : JsVal :=
  JObj [ (lit "title", get article "title");
         (lit "description", get article "description");
         (lit "content", get article "content");
         (lit "url", get article "url");
         (lit "urlToImage", get article "urlToImage");
         (lit "publishedAt", get article "publishedAt");
         (lit "source", get article "source");
         (lit "provider", JStr name) ].

Definition normalizeResponse (response : JsVal) : Result ProviderResponse :=
  (let! raw := read response "articles" in
   let rawArticles := or_else raw (JArr []) in
   let! mapped :=
     map_array "rawArticles"
       (fun article =>
          let! _ := read article "title" in
          ArticleData.new url_parses now (raw_of article))
       rawArticles in
   let! articles := filterM ArticleData.isValid mapped in
   Ok {| pr_status := lit "ok";
         pr_totalResults := JNum (Z.of_nat (length articles));
         pr_actualResults := None;
         pr_provider := name;
         pr_articles := List.map ArticleData.toJSON articles |})%result.

Definition searchNews (query : jsstring) (options : Fields) : Result ProviderResponse :=
  if negb isReady
  then Throw (Error (lit "NewsAPI provider is not properly configured"))
  else
    let max := default_to (assoc (lit "max") options) (JNum 20) in
    let lang := default_to (assoc (lit "lang") options) (JStr (lit "en")) in
    let from := assoc (lit "from") options in
    let to := assoc (lit "to") options in
    let sortBy := default_to (assoc (lit "sortBy") options) (JStr (lit "relevance")) in
    (let! _ := _validateOptions sortBy JUndefined in
     try_catch
       (let params :=
          append_if_truthy "to" to
          (append_if_truthy "from" from
             [ (lit "q", JStr query); (lit "pageSize", max); (lit "language", lang);
               (lit "sortBy", JStr (_mapSortBy sortBy)); (lit "apiKey", JStr apiKey) ]) in
        let! data := response_data "NewsAPI" (fetch (lit "/everything") params) in
        normalizeResponse data)
       (fun error => Error (lit "NewsAPI search failed: " ++ message error)))%result.

Definition getTopHeadlines (options : Fields) : Result ProviderResponse :=
  if negb isReady
  then Throw (Error (lit "NewsAPI provider is not properly configured"))
  else
    let category := assoc (lit "category") options in
    let max := default_to (assoc (lit "max") options) (JNum 20) in
    let country := default_to (assoc (lit "country") options) (JStr (lit "us")) in
    (let! _ := _validateOptions JUndefined category in
     try_catch
       (let params :=
          append_if_truthy "category" category
            [ (lit "pageSize", max); (lit "country", country);
              (lit "apiKey", JStr apiKey) ] in
        let! data := response_data "NewsAPI" (fetch (lit "/top-headlines") params) in
        normalizeResponse data)
       (fun error => Error (lit "NewsAPI top headlines failed: " ++ message error)))%result.

End Provider.
End NewsAPIProvider.

(* ===================================================================== *)
(** * news/providers/GuardianProvider.js                                  *)
(* ===================================================================== *)

Module GuardianProvider.
Section Provider.

Variable url_parses : jsstring -> bool.
Variable now : jsstring.
Variable apiKey : jsstring.
Variable fetch : jsstring -> Fields -> FetchReply.

Definition name : jsstring := Enums.GUARDIAN.

Definition isReady : bool := truthy (JStr apiKey).

Definition _validateOptions (sortBy category : JsVal) : Result unit :=
  if truthy sortBy && negb (Enums.includes Enums.SortBy sortBy)
  then Throw (Error (lit "Invalid sortBy option. Must be one of: "
                     ++ join (lit ", ") Enums.SortBy))
  else if truthy category && negb (Enums.includes Enums.NewsCategory category)
  then Throw (Error (lit "Invalid category option. Must be one of: "
                     ++ join (lit ", ") Enums.NewsCategory))
  else Ok tt.

Definition _mapSortBy (sortBy : JsVal) : jsstring :=
  match sortBy with
  | JStr s =>
      if jsstring_eqb s (lit "relevance") then lit "relevance"
      else if jsstring_eqb s (lit "date") then lit "newest"
      else if jsstring_eqb s (lit "publishedAt") then lit "newest"
      else lit "relevance"
  | _ => lit "relevance"
  end.

(** Applied to a category that passed validation and is not 'general'. *)
Definition _mapCategory (category : JsVal) : JsVal :=
  match category with
  | JStr s =>
      if jsstring_eqb s (lit "business") then JStr (lit "business")
      else if jsstring_eqb s (lit "entertainment") then JStr (lit "culture")
      else if jsstring_eqb s (lit "health") then JStr (lit "society")
      else if jsstring_eqb s (lit "science") then JStr (lit "science")
      else if jsstring_eqb s (lit "sports") then JStr (lit "sport")
      else if jsstring_eqb s (lit "technology") then JStr (lit "technology")
      else category
  | _ => category
  end.

Definition raw_of (article : JsVal) : JsVal :=
  let fields := get article "fields" in
  JObj [ (lit "title", or_else (get_opt fields "headline") (get article "webTitle"));
         (lit "description", or_else (get_opt fields "trailText") (JStr []));
         (lit "content", or_else (get_opt fields "body") (JStr []));
         (lit "url", get article "webUrl");
         (lit "urlToImage", get_opt fields "thumbnail");
         (lit "publishedAt", get article "webPublicationDate");
         (lit "source",
          JObj [ (lit "name", JStr (lit "The Guardian"));
                 (lit "url", JStr (lit "https://www.theguardian.com")) ]);
         (lit "provider", JStr name) ].

Definition normalizeResponse (response : JsVal) : Result ProviderResponse :=
  (let! inner := read response "response" in
   let rawArticles := or_else (get_opt inner "results") (JArr []) in
   let! mapped :=
     map_array "rawArticles"
       (fun article =>
          let! _ := read article "fields" in
          ArticleData.new url_parses now (raw_of article))
       rawArticles in
   let! articles := filterM ArticleData.isValid mapped in
   Ok {| pr_status := lit "ok";
         pr_totalResults := JNum (Z.of_nat (length articles));
         pr_actualResults := None;
         pr_provider := name;
         pr_articles := List.map ArticleData.toJSON articles |})%result.

Definition searchNews (query : jsstring) (options : Fields) : Result ProviderResponse :=
  if negb isReady
  then Throw (Error (lit "Guardian provider is not properly configured"))
  else
    let max := default_to (assoc (lit "max") options) (JNum 20) in
    let from := assoc (lit "from") options in
    let to := assoc (lit "to") options in
    let sortBy := default_to (assoc (lit "sortBy") options) (JStr (lit "relevance")) in
    (let! _ := _validateOptions sortBy JUndefined in
     try_catch
       (let params :=
          append_if_truthy "to-date" to
          (append_if_truthy "from-date" from
             [ (lit "q", JStr query); (lit "page-size", max);
               (lit "show-fields", JStr (lit "headline,trailText,body,thumbnail"));
               (lit "api-key", JStr apiKey);
               (lit "order-by", JStr (_mapSortBy sortBy)) ]) in
        let! data := response_data "Guardian" (fetch (lit "/search") params) in
        normalizeResponse data)
       (fun error => Error (lit "Guardian search failed: " ++ message error)))%result.

Definition getTopHeadlines (options : Fields) : Result ProviderResponse :=
  if negb isReady
  then Throw (Error (lit "Guardian provider is not properly configured"))
  else
    let category := assoc (lit "category") options in
    let max := default_to (assoc (lit "max") options) (JNum 20) in
    (let! _ := _validateOptions JUndefined category in
     try_catch
       (let params :=
          let base :=
            [ (lit "page-size", max);
              (lit "show-fields", JStr (lit "headline,trailText,body,thumbnail"));
              (lit "api-key", JStr apiKey);
              (lit "order-by", JStr (lit "newest")) ] in
          if truthy category && negb (is_str category (lit "general"))
          then base ++ [(lit "section", _mapCategory category)]
          else base in
        let! data := response_data "Guardian" (fetch (lit "/search") params) in
        normalizeResponse data)
       (fun error => Error (lit "Guardian top headlines failed: " ++ message error)))%result.

End Provider.
End GuardianProvider.

(* ===================================================================== *)
(** * news/NewsClient.js                                                  *)
(* ===================================================================== *)

Module NewsClient.

(** [{ ...fields, k: v }]: an existing key keeps its place. *)
Fixpoint obj_set (k : jsstring) (v : JsVal) (fields : Fields) : Fields :=
  match fields with
  | [] => [(k, v)]
  | (k', v') :: rest =>
      if jsstring_eqb k k' then (k, v) :: rest else (k', v') :: obj_set k v rest
  end.

(** [const { provider, page, limit, ...rest } = options]: the rest. *)
Definition rest_of (options : Fields) : Fields :=
  List.filter
    (fun kv => negb (jsstring_eqb (fst kv) (lit "provider")
                     || jsstring_eqb (fst kv) (lit "page")
                     || jsstring_eqb (fst kv) (lit "limit")))
    options.

(** [items.slice(s, e)] for [0 <= s] *)
Definition slice {A} (s e : Z) (items : list A) : list A :=
  firstn (Z.to_nat (e - s)) (skipn (Z.to_nat s) items).

(** [Math.ceil(a / b)] for [0 < b] *)
Definition ceil_div (a b : Z) : Z := - ((- a) / b).

(** A call of a provider method by the client: the record of what went
    upstream. A search call carries the cache key it was made for. *)
Inductive Call : Type :=
| SearchCall (key : jsstring) (provider : jsstring) (query : jsstring) (options : Fields)
| HeadlinesCall (provider : jsstring) (options : Fields).

Definition is_search_for (k : jsstring) (c : Call) : bool :=
  match c with
  | SearchCall k' _ _ _ => jsstring_eqb k k'
  | HeadlinesCall _ _ => false
  end.

Record Pagination : Type := {
  currentPage : Z;
  limit : Z;
  pg_totalResults : Z;
  pg_actualResults : Z;
  totalPages : Z;
  hasNextPage : bool;
  hasPreviousPage : bool;
  nextPage : option Z;
  previousPage : option Z;
  clientSidePagination : bool
}.

Section Client.

(** Articles are opaque to the client. *)
Variable A : Type.

(** [JSON.stringify({ query, provider, ...searchOptions })] *)
Variable stringify : jsstring -> jsstring -> Fields -> jsstring.

(** What a provider call resolves to, as the client reads it. *)
Record ProviderResult : Type := {
  r_provider : jsstring;
  r_articles : list A;
  r_totalResults : Z;
  r_actualResults : option Z
}.

(** A provider object. What the upstream answers may depend on everything
    that was asked before. *)
Record Provider : Type := {
  name : jsstring;
  apiKey : jsstring;
  p_searchNews : list Call -> jsstring -> Fields -> Result ProviderResult;
  p_getTopHeadlines : list Call -> Fields -> Result ProviderResult
}.

Record CacheEntry : Type := {
  articles : list A;
  totalArticles : Z;
  lastFetchSize : Z;
  hasMore : bool
}.

(** The client object, with the log of the provider calls made so far. *)
Record Client : Type := {
  providers : list (jsstring * Provider);
  defaultProvider : option jsstring;
  articleCache : gmap jsstring CacheEntry;
  calls : list Call
}.

Record Envelope : Type := {
  env_provider : jsstring;
  env_articles : list A;
  env_totalResults : Z;
  env_actualResults : option Z;
  pagination : Pagination
}.

(** [this.providers.get(name)] *)
Fixpoint providers_get (n : jsstring) (ps : list (jsstring * Provider)) : option Provider :=
  match ps with
  | [] => None
  | (n', p) :: rest => if jsstring_eqb n n' then Some p else providers_get n rest
  end.

(** [this.providers.set(name, provider)] *)
Fixpoint providers_set (n : jsstring) (p : Provider) (ps : list (jsstring * Provider))
  : list (jsstring * Provider) :=
  match ps with
  | [] => [(n, p)]
  | (n', p') :: rest =>
      if jsstring_eqb n n' then (n, p) :: rest else (n', p') :: providers_set n p rest
  end.

Definition getAvailableProviders (c : Client) : list jsstring :=
  List.map fst (providers c).

Definition _registerProvider (c : Client) (p : Provider) : Client :=
  if negb (truthy (JStr (apiKey p))) then c
  else
    {| providers := providers_set (name p) p (providers c);
       defaultProvider :=
         match defaultProvider c with
         | Some d => if truthy (JStr d) then Some d else Some (name p)
         | None => Some (name p)
         end;
       articleCache := articleCache c;
       calls := calls c |}.

Definition _getProvider (c : Client) (n : JsVal) : Result Provider :=
  let providerName :=
    or_else n (match defaultProvider c with Some d => JStr d | None => JNull end) in
  if negb (truthy providerName) then Throw NoProvidersAvailableError
  else
    match providerName with
    | JStr s =>
        match providers_get s (providers c) with
        | Some p => Ok p
        | None => Throw (ProviderNotFoundError providerName (getAvailableProviders c))
        end
    | _ =>
        Throw (interpolating providerName
                 (ProviderNotFoundError providerName (getAvailableProviders c)))
    end.

Definition setDefaultProvider (c : Client) (n : jsstring) : Result unit * Client :=
  match providers_get n (providers c) with
  | None => (Throw (ProviderNotFoundError (JStr n) (getAvailableProviders c)), c)
  | Some _ =>
      (Ok tt, {| providers := providers c; defaultProvider := Some n;
                 articleCache := articleCache c; calls := calls c |})
  end.

Definition clearCache (c : Client) : Client :=
  {| providers := providers c; defaultProvider := defaultProvider c;
     articleCache := ∅; calls := calls c |}.

Definition _createPaginatedResponse
    (arts : list A) (totalResults page lim : Z) (hasNext : bool) (provider : jsstring)
  : Envelope :=
  let actualResults := Z.of_nat (length arts) in
  let pages := if 0 <? totalResults then ceil_div totalResults lim else 1 in
  let hasPrev := 1 <? page in
  {| env_provider := provider;
     env_articles := arts;
     env_totalResults := totalResults;
     env_actualResults := Some actualResults;
     pagination :=
       {| currentPage := page;
          limit := lim;
          pg_totalResults := totalResults;
          pg_actualResults := actualResults;
          totalPages := pages;
          hasNextPage := hasNext;
          hasPreviousPage := hasPrev;
          nextPage := if hasNext then Some (page + 1) else None;
          previousPage := if hasPrev then Some (page - 1) else None;
          clientSidePagination := true |} |}.

(** [a || b || 0] on numbers *)
Definition num_or (a b : Z) : Z := if a =? 0 then b else a.

Definition _addPaginationMetadata
    (result : ProviderResult) (page lim : Z) : Envelope :=
  let len := Z.of_nat (length (r_articles result)) in
  let totalResults := num_or (r_totalResults result) len in
  let actualResults :=
    num_or (match r_actualResults result with Some n => n | None => 0 end) len in
  let pages := ceil_div totalResults lim in
  let hasNext := page <? pages in
  let hasPrev := 1 <? page in
  {| env_provider := r_provider result;
     env_articles := r_articles result;
     env_totalResults := r_totalResults result;
     env_actualResults := r_actualResults result;
     pagination :=
       {| currentPage := page;
          limit := lim;
          pg_totalResults := totalResults;
          pg_actualResults := actualResults;
          totalPages := pages;
          hasNextPage := hasNext;
          hasPreviousPage := hasPrev;
          nextPage := if hasNext then Some (page + 1) else None;
          previousPage := if hasPrev then Some (page - 1) else None;
          clientSidePagination := false |} |}.

(** [if (!query?.trim()) throw ...]: the trimmed query on success. *)
Definition check_query (query : JsVal) : Result jsstring :=
  let invalid :=
    Throw (InvalidQueryError (or_else query (JStr []))
             (lit "Search query is required and must be non-empty")) in
  match query with
  | JUndefined | JNull => invalid
  | JStr s => match trim s with [] => invalid | t => Ok t end
  | _ => Throw (TypeError (lit "query?.trim is not a function"))
  end.

(** [const n = parseInt(v)] *)
Definition parse_option (v : JsVal) : Result (option Z) :=
  match parseInt v with
  | Some n => Ok n
  | None => Throw cannot_convert
  end.

(** [if (isNaN(n) || n < 1) throw new InvalidQueryError(v, reason)], where
    [n] is [parseInt(v)] *)
Definition check_positive (n : option Z) (v : JsVal) (reason : string) : Result Z :=
  match n with
  | Some n => if n <? 1 then Throw (InvalidQueryError v (lit reason)) else Ok n
  | None => Throw (InvalidQueryError v (lit reason))
  end.

(** [const { page = 1, limit = 10 } = options] *)
Definition opt_page (options : Fields) : JsVal :=
  default_to (assoc (lit "page") options) (JNum 1).
Definition opt_limit (options : Fields) : JsVal :=
  default_to (assoc (lit "limit") options) (JNum 10).

(** A search request that passed validation and provider resolution. *)
Record Request : Type := {
  q_query : jsstring;
  q_page : Z;
  q_limit : Z;
  q_provider : Provider;
  q_options : Fields;
  q_key : jsstring
}.

(** Lines 89 to 114 of [searchNews]: everything up to the cache key. *)
Definition prepare (c : Client) (query : JsVal) (options : Fields) : Result Request :=
  (let! trimmed := check_query query in
   let searchOptions := rest_of options in
   let! pageParsed := parse_option (opt_page options) in
   let! limitParsed := parse_option (opt_limit options) in
   let! pageNum :=
     check_positive pageParsed (opt_page options) "Page must be a positive integer" in
   let! limitNum :=
     check_positive limitParsed (opt_limit options) "Limit must be between 1 or more" in
   let! newsProvider := _getProvider c (assoc (lit "provider") options) in
   Ok {| q_query := trimmed; q_page := pageNum; q_limit := limitNum;
         q_provider := newsProvider; q_options := searchOptions;
         q_key := stringify trimmed (name newsProvider) searchOptions |})%result.

Definition empty_entry : CacheEntry :=
  {| articles := []; totalArticles := 0; lastFetchSize := 0; hasMore := true |}.

Definition with_cache (c : Client) (m : gmap jsstring CacheEntry) (log : list Call) : Client :=
  {| providers := providers c; defaultProvider := defaultProvider c;
     articleCache := m; calls := log |}.

Definition is_gnews (p : Provider) : bool := jsstring_eqb (name p) (lit "gnews").

(** Lines 153 to 186 of [searchNews]: the slice of the cached articles and
    the page metadata. *)
Definition page_of (r : Request) (entry : CacheEntry) : Envelope :=
  let p := q_provider r in
  let startIndex := (q_page r - 1) * q_limit r in
  let endIndex := startIndex + q_limit r in
  let pageArticles := slice startIndex endIndex (articles entry) in
  let cached := Z.of_nat (length (articles entry)) in
  let '(totalResults, hasNext) :=
    if is_gnews p then (cached, endIndex <? cached)
    else if 0 <? totalArticles entry
    then (totalArticles entry, endIndex <? totalArticles entry)
    else
      let more := (endIndex <? cached) || hasMore entry in
      (if more then Z.max (cached * 2) (endIndex + q_limit r) else cached, more) in
  _createPaginatedResponse pageArticles totalResults (q_page r) (q_limit r)
    hasNext (name p).

(** [cache.articles.length === 0 && cache.hasMore] *)
Definition needs_fetch (entry : CacheEntry) : bool :=
  (length (articles entry) =? 0)%nat && hasMore entry.

(** [name === 'gnews' ? 10 : Math.max(endIndex, limitNum * 2)] *)
Definition fetchSize_of (r : Request) : Z :=
  let endIndex := (q_page r - 1) * q_limit r + q_limit r in
  if is_gnews (q_provider r) then 10 else Z.max endIndex (q_limit r * 2).

(** Lines 116 to 186 of [searchNews]: cache lookup, the fetch, then the page.
    The cache entry is an object shared with the map, so the assignments to
    its fields are updates of the map at the key. *)
Definition serve (c : Client) (r : Request) : Result Envelope * Client :=
  let p := q_provider r in
  let k := q_key r in
  let cache0 :=
    match articleCache c !! k with
    | Some _ => articleCache c
    | None => <[k := empty_entry]> (articleCache c)
    end in
  let entry0 := default empty_entry (cache0 !! k) in
  if needs_fetch entry0 then
    let fetchSize := fetchSize_of r in
    let opts := obj_set (lit "max") (JNum fetchSize) (q_options r) in
    let log := calls c ++ [SearchCall k (name p) (q_query r) opts] in
    match p_searchNews p (calls c) (q_query r) opts with
    | Throw e => (Throw e, with_cache c cache0 log)
    | Ok result =>
        let entry :=
          {| articles := r_articles result;
             totalArticles := r_totalResults result;
             lastFetchSize := fetchSize;
             hasMore :=
               if is_gnews p then false
               else fetchSize <=? Z.of_nat (length (r_articles result)) |} in
        (Ok (page_of r entry), with_cache c (<[k := entry]> cache0) log)
    end
  else (Ok (page_of r entry0), with_cache c cache0 (calls c)).

Definition searchNews (c : Client) (query : JsVal) (options : Fields)
  : Result Envelope * Client :=
  match prepare c query options with
  | Throw e => (Throw e, c)
  | Ok r => serve c r
  end.

Definition getTopHeadlines (c : Client) (options : Fields) : Result Envelope * Client :=
  let headlineOptions := rest_of options in
  match
    (let! pageParsed := parse_option (opt_page options) in
     let! limitParsed := parse_option (opt_limit options) in
     let! pageNum :=
       check_positive pageParsed (opt_page options) "Page must be a positive integer" in
     let! limitNum :=
       check_positive limitParsed (opt_limit options) "Limit must be 1 or more" in
     let! newsProvider := _getProvider c (assoc (lit "provider") options) in
     Ok (pageNum, limitNum, newsProvider))%result
  with
  | Throw e => (Throw e, c)
  | Ok (pageNum, limitNum, p) =>
      let offset := (pageNum - 1) * limitNum in
      let opts :=
        obj_set (lit "offset") (JNum offset)
          (obj_set (lit "max") (JNum limitNum) headlineOptions) in
      let c' := with_cache c (articleCache c) (calls c ++ [HeadlinesCall (name p) opts]) in
      match p_getTopHeadlines p (calls c) opts with
      | Throw e => (Throw e, c')
      | Ok result => (Ok (_addPaginationMetadata result pageNum limitNum), c')
      end
  end.

(** The operations a caller can apply to the client, and their effect on it.
    Operations run one after the other: a call that awaits its provider is
    not interleaved with other calls. *)
Inductive Op : Type :=
| OpSearch (query : JsVal) (options : Fields)
| OpHeadlines (options : Fields)
| OpSetDefault (n : jsstring)
| OpClearCache.

Definition exec (c : Client) (op : Op) : Client :=
  match op with
  | OpSearch query options => snd (searchNews c query options)
  | OpHeadlines options => snd (getTopHeadlines c options)
  | OpSetDefault n => snd (setDefaultProvider c n)
  | OpClearCache => clearCache c
  end.

Definition run (c : Client) (ops : list Op) : Client := fold_left exec ops c.

Definition is_clear (op : Op) : bool :=
  match op with OpClearCache => true | _ => false end.

(** An entry that [searchNews] will serve without asking the provider. *)
Definition populated (e : CacheEntry) : Prop := needs_fetch e = false.

(** The client before any registration. *)
Definition blank_client : Client :=
  {| providers := []; defaultProvider := None; articleCache := ∅; calls := [] |}.

(** The two methods of a provider object, as the client calls them. *)
Record Methods : Type := {
  m_searchNews : list Call -> jsstring -> Fields -> Result ProviderResult;
  m_getTopHeadlines : list Call -> Fields -> Result ProviderResult
}.

(** [new GNewsProvider(apiKey)] and [new NewsAPIProvider(apiKey)], for a
    non-empty key: the name and the key the constructors store. *)
Definition new_GNewsProvider (key : jsstring) (m : Methods) : Provider :=
  {| name := lit "gnews"; apiKey := key;
     p_searchNews := m_searchNews m; p_getTopHeadlines := m_getTopHeadlines m |}.

Definition new_NewsAPIProvider (key : jsstring) (m : Methods) : Provider :=
  {| name := lit "newsapi"; apiKey := key;
     p_searchNews := m_searchNews m; p_getTopHeadlines := m_getTopHeadlines m |}.

(** [_autoRegisterProviders] on the two environment variables it reads, an
    unset variable being the empty string. [gnews] and [newsapi] are the
    methods of the two provider classes for a given key. *)
Definition _autoRegisterProviders
    (GNEWS_API_KEY NEWSAPI_KEY : jsstring) (gnews newsapi : jsstring -> Methods)
    (c : Client) : Client :=
  let c1 :=
    if truthy (JStr GNEWS_API_KEY)
    then _registerProvider c (new_GNewsProvider GNEWS_API_KEY (gnews GNEWS_API_KEY))
    else c in
  if truthy (JStr NEWSAPI_KEY)
  then _registerProvider c1 (new_NewsAPIProvider NEWSAPI_KEY (newsapi NEWSAPI_KEY))
  else c1.

(** [new NewsClient()] *)
Definition constructor
    (GNEWS_API_KEY NEWSAPI_KEY : jsstring) (gnews newsapi : jsstring -> Methods)
  : Client :=
  _autoRegisterProviders GNEWS_API_KEY NEWSAPI_KEY gnews newsapi blank_client.

(** The provider calls made so far for the cache key [k]. *)
Definition fetches (k : jsstring) (c : Client) : list Call :=
  List.filter (is_search_for k) (calls c).

End Client.

Arguments r_provider {A} _.
Arguments r_articles {A} _.
Arguments r_totalResults {A} _.
Arguments r_actualResults {A} _.
Arguments name {A} _.
Arguments apiKey {A} _.
Arguments p_searchNews {A} _ _ _ _.
Arguments p_getTopHeadlines {A} _ _ _.
Arguments articles {A} _.
Arguments totalArticles {A} _.
Arguments lastFetchSize {A} _.
Arguments hasMore {A} _.
Arguments providers {A} _.
Arguments defaultProvider {A} _.
Arguments articleCache {A} _.
Arguments calls {A} _.
Arguments env_provider {A} _.
Arguments env_articles {A} _.
Arguments env_totalResults {A} _.
Arguments env_actualResults {A} _.
Arguments pagination {A} _.
Arguments q_query {A} _.
Arguments q_page {A} _.
Arguments q_limit {A} _.
Arguments q_provider {A} _.
Arguments q_options {A} _.
Arguments q_key {A} _.
Arguments providers_get {A} _ _.
Arguments getAvailableProviders {A} _.
Arguments _registerProvider {A} _ _.
Arguments _getProvider {A} _ _.
Arguments setDefaultProvider {A} _ _.
Arguments clearCache {A} _.
Arguments _createPaginatedResponse {A} _ _ _ _ _ _.
Arguments _addPaginationMetadata {A} _ _ _.
Arguments prepare {A} _ _ _ _.
Arguments is_gnews {A} _.
Arguments page_of {A} _ _.
Arguments needs_fetch {A} _.
Arguments fetchSize_of {A} _.
Arguments with_cache {A} _ _ _.
Arguments serve {A} _ _.
Arguments searchNews {A} _ _ _ _.
Arguments getTopHeadlines {A} _ _.
Arguments exec {A} _ _ _.
Arguments run {A} _ _ _.
Arguments fetches {A} _ _.
Arguments populated {A} _.
Arguments m_searchNews {A} _.
Arguments m_getTopHeadlines {A} _.
Arguments new_GNewsProvider {A} _ _.
Arguments new_NewsAPIProvider {A} _ _.
Arguments _autoRegisterProviders {A} _ _ _ _ _.
Arguments constructor {A} _ _ _ _.

End NewsClient.

(* ===================================================================== *)
(** * routes/news.js                                                      *)
(* ===================================================================== *)

Module NewsRoutes.
Import NewsClient.

Section Routes.

Variable A : Type.
Variable stringify : jsstring -> jsstring -> Fields -> jsstring.

(** The bodies the routes send with [res.json]. *)
Inductive Body : Type :=
| MissingQuery (error : jsstring)
| Failure (body : ErrorBody)
| SearchResults (query : jsstring) (options : Fields) (result : Envelope A)
| Headlines (options : Fields) (result : Envelope A)
| Providers (defaultProvider : option jsstring) (availableProviders : list jsstring).

(** A response: the status set with [res.status], 200 when the route sets
    none, and the body. *)
Definition Response : Type := (option Z * Body)%type.

(** [if (v) options.k = v], for each name in turn. *)
Fixpoint pick_truthy (names : list string) (query : Fields) : Fields :=
  match names with
  | [] => []
  | k :: rest =>
      let v := assoc (lit k) query in
      if truthy v then (lit k, v) :: pick_truthy rest query
      else pick_truthy rest query
  end.

Definition failed (e : Exn) : Response :=
  let '(code, body) := newsErrorHandler e in (code, Failure body).

(** [GET /search] on the parsed query string [req.query] *)
Definition search (c : Client A) (query : Fields) : Response * Client A :=
  let q := assoc (lit "q") query in
  if negb (truthy q)
  then ((Some 400, MissingQuery (lit "Search query (q) is required")), c)
  else
    match q with
    | JStr s =>
        match trim s with
        | [] => ((Some 400, MissingQuery (lit "Search query (q) is required")), c)
        | trimmed =>
            let options :=
              pick_truthy ["page"; "limit"; "country"; "lang"; "from"; "to";
                           "provider"; "sortBy"; "searchIn"]%string query in
            match searchNews stringify c (JStr trimmed) options with
            | (Ok result, c') => ((Some 200, SearchResults trimmed options result), c')
            | (Throw e, c') => (failed e, c')
            end
        end
    | _ => (failed (TypeError (lit "q.trim is not a function")), c)
    end.

(** [GET /headlines] *)
Definition headlines (c : Client A) (query : Fields) : Response * Client A :=
  let options :=
    pick_truthy ["page"; "limit"; "country"; "lang"; "provider"; "category"]%string
      query in
  match getTopHeadlines c options with
  | (Ok result, c') => ((Some 200, Headlines options result), c')
  | (Throw e, c') => (failed e, c')
  end.

(** [GET /providers] *)
Definition providers_route (c : Client A) : Response :=
  (Some 200, Providers (defaultProvider c) (getAvailableProviders c)).

End Routes.

Arguments MissingQuery {A} _.
Arguments Failure {A} _.
Arguments SearchResults {A} _ _ _.
Arguments Headlines {A} _ _.
Arguments Providers {A} _ _.
Arguments failed {A} _.
Arguments search {A} _ _ _.
Arguments headlines {A} _ _.
Arguments providers_route {A} _.

End NewsRoutes.

(* ===================================================================== *)
(** * Vocabulary of the specification                                     *)
(* ===================================================================== *)

Module Spec.

(** A raw payload "that is an object": an object or an array. *)
Definition is_object (v : JsVal) : bool :=
  match v with JObj _ | JArr _ => true | _ => false end.

(** The value parses as a well-formed absolute URL. *)
Definition parses (url_parses : jsstring -> bool) (v : JsVal) : bool :=
  match v with JStr s => url_parses s | _ => false end.

(** The value has a string conversion: every string, number, boolean,
    [null] and [undefined], an object without a toString field of its own,
    an array of such values. *)
Definition printable (v : JsVal) : bool := is_Some_b (to_string v).

Definition nonempty_string (v : JsVal) : bool :=
  match v with JStr (_ :: _) => true | _ => false end.

(** The polynomial in 31 that the id hash reduces to 32 bits: for code units
    c1 ... cn, c1 * 31^(n-1) + ... + cn. *)
Definition poly31 (text : jsstring) : Z :=
  fold_left (fun a b => 31 * a + b) text 0.

(** The text of a url that may be [null]. *)
Definition url_text (u : option jsstring) : jsstring :=
  match u with Some s => s | None => lit "null" end.

Definition blank_string (s : jsstring) : Prop := forallb is_ws s = true.

(** [trim] on the right only *)
Definition rtrim (s : jsstring) : jsstring := rev (drop_ws (rev s)).

(** The state of the white space scan after a prefix: was its last code
    unit white space? *)
Definition run_state (b : bool) (x : jsstring) : bool :=
  fold_left (fun _ ch => is_ws ch) x b.

(** Two titles that differ only in white space: at the ends, or in the
    length and content of an internal run. *)
Inductive ws_variant : jsstring -> jsstring -> Prop :=
| wv_refl t : ws_variant t t
| wv_leading ws t : blank_string ws -> ws_variant (ws ++ t) t
| wv_trailing ws t : blank_string ws -> ws_variant (t ++ ws) t
| wv_internal pre ws1 ws2 post :
    ws1 <> [] -> ws2 <> [] -> blank_string ws1 -> blank_string ws2 ->
    ws_variant (pre ++ ws1 ++ post) (pre ++ ws2 ++ post)
| wv_sym t1 t2 : ws_variant t1 t2 -> ws_variant t2 t1
| wv_trans t1 t2 t3 : ws_variant t1 t2 -> ws_variant t2 t3 -> ws_variant t1 t3.

(** An empty or white-space-only query, [null] and [undefined] included. *)
Definition blank (query : JsVal) : Prop :=
  query = JUndefined \/ query = JNull
  \/ exists s, query = JStr s /\ blank_string s.

(** The pagination block agrees with itself. *)
Definition consistent (p : NewsClient.Pagination) : Prop :=
  (0 < NewsClient.pg_totalResults p ->
   NewsClient.limit p * (NewsClient.totalPages p - 1) < NewsClient.pg_totalResults p
   /\ NewsClient.pg_totalResults p <= NewsClient.limit p * NewsClient.totalPages p)
  /\ NewsClient.hasPreviousPage p = (1 <? NewsClient.currentPage p)
  /\ (NewsClient.nextPage p = Some (NewsClient.currentPage p + 1)
      <-> NewsClient.hasNextPage p = true)
  /\ (NewsClient.hasNextPage p = false -> NewsClient.nextPage p = None).

End Spec.
Import Spec.

(* ===================================================================== *)
(** * Sample objects                                                      *)
(* ===================================================================== *)

Module Samples.
Import NewsClient.

(** A stand-in for [JSON.stringify] on the key object. *)
Definition stringify (q p : jsstring) (opts : Fields) : jsstring :=
  q ++ lit "|" ++ p ++ lit "|"
  ++ concat (List.map (fun kv => fst kv ++ lit "=" ++ shown (snd kv) ++ lit ";") opts).

Definition eight : list nat := [1; 2; 3; 4; 5; 6; 7; 8]%nat.

(** A provider named 'gnews' whose upstream holds eight articles and
    reports a thousand. *)
Definition gnews8 : Provider nat :=
  {| name := lit "gnews"; apiKey := lit "key";
     p_searchNews := fun _ _ _ =>
       Ok {| r_provider := lit "gnews"; r_articles := eight;
             r_totalResults := 1000; r_actualResults := Some 8 |};
     p_getTopHeadlines := fun _ _ =>
       Ok {| r_provider := lit "gnews"; r_articles := eight;
             r_totalResults := 0; r_actualResults := Some 8 |} |}.

Definition fresh : Client nat :=
  {| providers := []; defaultProvider := None; articleCache := ∅; calls := [] |}.

Definition client0 : Client nat := _registerProvider fresh gnews8.

Definition request0 : Request nat :=
  {| q_query := lit "climate"; q_page := 1; q_limit := 5; q_provider := gnews8;
     q_options := []; q_key := stringify (lit "climate") (lit "gnews") [] |}.

(** Page 1 of "climate", five per page, asked of the fresh client. *)
Definition first_page : Result (Envelope nat) * Client nat :=
  searchNews stringify client0 (JStr (lit "climate")) [(lit "limit", JNum 5)].

(** An upstream that answers every request with a 503. *)
Definition down (path : jsstring) (params : Fields) : FetchReply :=
  FetchResponds false 503 (lit "Service Unavailable") (Ok JNull).

(** A raw article with a well-formed url, in the shape of each provider. *)
Definition newsapi_body : JsVal :=
  JObj [(lit "articles",
         JArr [JObj [(lit "title", JStr (lit "Hello"));
                     (lit "url", JStr (lit "https://example.com/a"))]])].
Definition guardian_body : JsVal :=
  JObj [(lit "response",
         JObj [(lit "results",
                JArr [JObj [(lit "webTitle", JStr (lit "Hello"));
                            (lit "webUrl", JStr (lit "https://example.com/a"))]])])].

Definition raw1 : JsVal :=
  JObj [(lit "title", JStr (lit "  Hello   world "));
        (lit "url", JStr (lit "https://example.com/a"));
        (lit "provider", JStr (lit "gnews"))].
Definition raw2 : JsVal :=
  JObj [(lit "title", JStr (lit "Hello world"));
        (lit "url", JStr (lit "https://example.com/a"));
        (lit "provider", JStr (lit "gnews"))].

(** A URL parser that accepts what starts with "http". *)
Definition http_only (s : jsstring) : bool :=
  match s with
  | 104 :: 116 :: 116 :: 112 :: _ => true
  | _ => false
  end.

End Samples.

(* ===================================================================== *)
(** * More vocabulary                                                     *)
(* ===================================================================== *)

Module SpecMore.

(** A decimal digit *)
Definition is_digit (c : Z) : bool := (48 <=? c) && (c <=? 57).

(** The value of a run of decimal digits read after [acc]. *)
Fixpoint uint_val (acc : Z) (d : Decimal.uint) : Z :=
  match d with
  | Nil => acc
  | D0 l => uint_val (acc * 10 + 0) l
  | D1 l => uint_val (acc * 10 + 1) l
  | D2 l => uint_val (acc * 10 + 2) l
  | D3 l => uint_val (acc * 10 + 3) l
  | D4 l => uint_val (acc * 10 + 4) l
  | D5 l => uint_val (acc * 10 + 5) l
  | D6 l => uint_val (acc * 10 + 6) l
  | D7 l => uint_val (acc * 10 + 7) l
  | D8 l => uint_val (acc * 10 + 8) l
  | D9 l => uint_val (acc * 10 + 9) l
  end.

(** A sanitized text: no white space but single spaces, none of them first.
    [prev] tells that the previous code unit was a space, or that the text
    starts here. *)
Fixpoint single_spaced (prev : bool) (s : jsstring) : bool :=
  match s with
  | [] => true
  | c :: r =>
      if c =? 32 then negb prev && single_spaced true r
      else negb (is_ws c) && single_spaced false r
  end.

(** An option name that the headlines path passes on to the provider. *)
Definition forwarded (k : jsstring) : Prop :=
  k <> lit "max" /\ k <> lit "offset" /\ k <> lit "provider"
  /\ k <> lit "page" /\ k <> lit "limit".

End SpecMore.
Import SpecMore.

(* ===================================================================== *)
(** * More sample values                                                   *)
(* ===================================================================== *)

Module MoreSamples.
Import NewsClient Samples.

(** A provider whose upstream is unreachable. *)
Definition unreachable : Provider nat :=
  {| name := lit "newsapi"; apiKey := lit "key";
     p_searchNews := fun _ _ _ => Throw (Error (lit "socket hang up"));
     p_getTopHeadlines := fun _ _ => Throw (Error (lit "socket hang up")) |}.

Definition client1 : Client nat := _registerProvider fresh unreachable.

Definition request1 : Request nat :=
  {| q_query := lit "climate"; q_page := 1; q_limit := 10; q_provider := unreachable;
     q_options := []; q_key := stringify (lit "climate") (lit "newsapi") [] |}.

(** Provider methods that answer nothing. *)
Definition silent (key : jsstring) : Methods nat :=
  {| m_searchNews := fun _ _ _ =>
       Ok {| r_provider := key; r_articles := []; r_totalResults := 0;
             r_actualResults := None |};
     m_getTopHeadlines := fun _ _ =>
       Ok {| r_provider := key; r_articles := []; r_totalResults := 0;
             r_actualResults := None |} |}.

(** An article with a short content. *)
Definition brief : ArticleData.Article :=
  {| ArticleData.title := lit "Hello"; ArticleData.description := lit "A greeting";
     ArticleData.content := lit "Hello world"; ArticleData.url := None;
     ArticleData.urlToImage := None; ArticleData.publishedAt := None;
     ArticleData.source :=
       {| ArticleData.name := lit "Unknown"; ArticleData.src_url := None |};
     ArticleData.provider := JStr (lit "gnews"); ArticleData.id := lit "gnews_0";
     ArticleData.createdAt := lit "t0" |}.

(** A gnews response with one article. *)
Definition gnews_body : JsVal :=
  JObj [(lit "totalArticles", JNum 1); (lit "articles", JArr [raw2])].

(** An upstream that answers every request with an empty list. *)
Definition nothing (path : jsstring) (params : Fields) : FetchReply :=
  FetchResponds true 200 (lit "OK") (Ok (JObj [(lit "articles", JArr [])])).

(** A gnews library whose every search rejects. *)
Definition rejecting (query : jsstring) (params : Fields) : Result JsVal :=
  Throw (Error (lit "socket hang up")).

End MoreSamples.

(* ===================================================================== *)
(** * Facts about the built-ins                                           *)
(* ===================================================================== *)

Module JsFacts.

Lemma to_int32_range z : - 2 ^ 31 <= to_int32 z < 2 ^ 31.
Proof.
  unfold to_int32.
  pose proof (Z.mod_pos_bound (z + 2 ^ 31) (2 ^ 32) ltac:(lia)). lia.
Qed.

Lemma to_int32_decomp z : exists k, to_int32 z = z + k * 2 ^ 32.
Proof.
  unfold to_int32. exists (- ((z + 2 ^ 31) / 2 ^ 32)).
  rewrite Z.mod_eq by lia. lia.
Qed.

Lemma to_int32_cong x y k : x = y + k * 2 ^ 32 -> to_int32 x = to_int32 y.
Proof.
  intros ->. unfold to_int32.
  replace (y + k * 2 ^ 32 + 2 ^ 31) with (y + 2 ^ 31 + k * 2 ^ 32) by lia.
  by rewrite Z_mod_plus_full.
Qed.

Lemma and_self_int32 z : and_self z = to_int32 z.
Proof. unfold and_self. apply Z.land_diag. Qed.

Lemma drop_ws_blank s : blank_string s -> drop_ws s = [].
Proof.
  unfold blank_string. induction s as [|ch s IH]; [reflexivity|]. simpl.
  intros H. apply andb_prop in H as [-> H]. auto.
Qed.

Lemma trim_blank s : blank_string s -> trim s = [].
Proof. intros H. unfold trim. by rewrite (drop_ws_blank s H). Qed.

Lemma blank_app x y : blank_string x -> blank_string y -> blank_string (x ++ y).
Proof. unfold blank_string. intros Hx Hy. rewrite forallb_app, Hx, Hy. reflexivity. Qed.

Lemma blank_rev x : blank_string x -> blank_string (rev x).
Proof.
  unfold blank_string. rewrite !forallb_forall. intros H c Hc.
  apply H. by apply in_rev.
Qed.

Lemma drop_ws_app_blank ws t : blank_string ws -> drop_ws (ws ++ t) = drop_ws t.
Proof.
  unfold blank_string. induction ws as [|ch ws IH]; [reflexivity|]. simpl.
  intros H. apply andb_prop in H as [-> H]. auto.
Qed.

Lemma drop_ws_app_solid x y : forallb is_ws x = false -> drop_ws (x ++ y) = drop_ws x ++ y.
Proof.
  induction x as [|ch x IH]; [discriminate|]. simpl.
  destruct (is_ws ch); simpl; [auto|reflexivity].
Qed.

Lemma drop_ws_solid x : forallb is_ws x = false -> forallb is_ws (drop_ws x) = false.
Proof.
  induction x as [|ch x IH]; [discriminate|]. simpl.
  destruct (is_ws ch) eqn:Hc; simpl; [auto|]. by rewrite Hc.
Qed.

Lemma forallb_rev_false x : forallb is_ws x = false -> forallb is_ws (rev x) = false.
Proof.
  intros H. destruct (forallb is_ws (rev x)) eqn:Hr; [|reflexivity].
  apply blank_rev in Hr. rewrite rev_involutive in Hr. congruence.
Qed.

Lemma trim_rtrim s : trim s = rtrim (drop_ws s).
Proof. reflexivity. Qed.

Lemma rtrim_app_blank t ws : blank_string ws -> rtrim (t ++ ws) = rtrim t.
Proof.
  intros H. unfold rtrim. rewrite rev_app_distr.
  by rewrite drop_ws_app_blank by by apply blank_rev.
Qed.

Lemma rtrim_app_solid x y : forallb is_ws y = false -> rtrim (x ++ y) = x ++ rtrim y.
Proof.
  intros H. unfold rtrim. rewrite rev_app_distr.
  rewrite drop_ws_app_solid by by apply forallb_rev_false.
  by rewrite rev_app_distr, rev_involutive.
Qed.

Lemma trim_leading ws t : blank_string ws -> trim (ws ++ t) = trim t.
Proof. intros H. unfold trim. by rewrite drop_ws_app_blank. Qed.

Lemma trim_trailing t ws : blank_string ws -> trim (t ++ ws) = trim t.
Proof.
  intros H. rewrite !trim_rtrim.
  destruct (forallb is_ws t) eqn:Ht.
  - rewrite (drop_ws_blank (t ++ ws)) by by apply blank_app.
    by rewrite (drop_ws_blank t).
  - rewrite drop_ws_app_solid by done. by apply rtrim_app_blank.
Qed.

Lemma collapse_from_app x : forall b y,
  collapse_from b (x ++ y) = collapse_from b x ++ collapse_from (run_state b x) y.
Proof.
  induction x as [|ch x IH]; intros b y; [reflexivity|]. simpl.
  unfold run_state. simpl. fold (run_state (is_ws ch) x).
  destruct (is_ws ch); [destruct b|]; rewrite IH; reflexivity.
Qed.

Lemma collapse_run_blank ws : blank_string ws ->
  collapse_from true ws = [] /\ run_state true ws = true.
Proof.
  unfold blank_string, run_state. induction ws as [|ch ws IH]; [done|]. simpl.
  intros H. apply andb_prop in H as [-> H]. auto.
Qed.

Lemma collapse_blank b ws : ws <> [] -> blank_string ws ->
  collapse_from b ws = (if b then [] else [32]) /\ run_state b ws = true.
Proof.
  destruct ws as [|ch ws]; [done|]. intros _ H. unfold blank_string in H. simpl in H.
  apply andb_prop in H as [Hc H]. destruct (collapse_run_blank ws H) as [Hcol Hst].
  unfold run_state in *. simpl. rewrite Hc, Hcol, Hst. by destruct b.
Qed.

Lemma collapse_internal b pre ws1 ws2 post :
  ws1 <> [] -> ws2 <> [] -> blank_string ws1 -> blank_string ws2 ->
  collapse_from b (pre ++ ws1 ++ post) = collapse_from b (pre ++ ws2 ++ post).
Proof.
  intros N1 N2 B1 B2. rewrite !collapse_from_app.
  destruct (collapse_blank (run_state b pre) ws1 N1 B1) as [-> ->].
  by destruct (collapse_blank (run_state b pre) ws2 N2 B2) as [-> ->].
Qed.

(** What [_sanitizeString] computes before truncation does not see white
    space differences. *)
Lemma normal_form_ws_variant t1 t2 :
  ws_variant t1 t2 -> collapse_ws (trim t1) = collapse_ws (trim t2).
Proof.
  induction 1 as [t|ws t H|ws t H|pre ws1 ws2 post N1 N2 B1 B2|t1 t2 _ IH|t1 t2 t3 _ IH1 _ IH2].
  - reflexivity.
  - by rewrite trim_leading.
  - by rewrite trim_trailing.
  - destruct (forallb is_ws pre) eqn:Hpre.
    { rewrite !app_assoc.
      rewrite (trim_leading (pre ++ ws1)), (trim_leading (pre ++ ws2));
        [reflexivity | by apply blank_app | by apply blank_app]. }
    destruct (forallb is_ws post) eqn:Hpost.
    { rewrite (trim_trailing pre (ws1 ++ post)), (trim_trailing pre (ws2 ++ post));
        [reflexivity | by apply blank_app | by apply blank_app]. }
    rewrite !trim_rtrim, !drop_ws_app_solid by done.
    rewrite !app_assoc, !rtrim_app_solid by done.
    rewrite <- !app_assoc. unfold collapse_ws. by apply collapse_internal.
  - congruence.
  - congruence.
Qed.

End JsFacts.

(* ===================================================================== *)
(** * The article normalizer                                              *)
(* ===================================================================== *)

Module ArticleProps.
Import ArticleData JsFacts.

Lemma hash_step_poly a b : hash_step a b = to_int32 (31 * a + b).
Proof.
  unfold hash_step, shl5. rewrite and_self_int32, Z.shiftl_mul_pow2 by lia.
  destruct (to_int32_decomp a) as [k1 H1].
  destruct (to_int32_decomp (to_int32 a * 2 ^ 5)) as [k2 H2].
  apply (to_int32_cong _ _ (32 * k1 + k2)). rewrite H2, H1. lia.
Qed.

Lemma hash_fold text : forall x,
  fold_left hash_step text (to_int32 x)
  = to_int32 (fold_left (fun a b => 31 * a + b) text x).
Proof.
  induction text as [|ch text IH]; intros x; [reflexivity|]. simpl.
  rewrite hash_step_poly.
  destruct (to_int32_decomp x) as [k Hk].
  rewrite (to_int32_cong (31 * to_int32 x + ch) (31 * x + ch) (31 * k)) by lia.
  apply IH.
Qed.

(** The id hash is the polynomial in 31 over the code units, wrapped to a
    signed 32-bit integer. *)
Lemma hash_poly31 text : hash text = to_int32 (poly31 text).
Proof. unfold hash, poly31. apply (hash_fold text 0). Qed.

Lemma sanitize_pipeline s :
  _sanitizeString (JStr s)
  = substring0 5000 (replace_crlftab (collapse_ws (trim s))).
Proof. destruct s; reflexivity. Qed.

Lemma sanitize_ws_variant t1 t2 :
  ws_variant t1 t2 -> _sanitizeString (JStr t1) = _sanitizeString (JStr t2).
Proof.
  intros H. rewrite !sanitize_pipeline. by rewrite (normal_form_ws_variant t1 t2 H).
Qed.

Lemma sanitize_non_string v : is_string v = false -> _sanitizeString v = [].
Proof. by destruct v. Qed.

Section WithUrlParser.
Variable url_parses : jsstring -> bool.

Lemma provider_printable v :
  printable v = true -> is_Some_b (to_string (or_else v (JStr (lit "unknown")))) = true.
Proof. unfold or_else. by destruct (truthy v). Qed.

Lemma new_ok now data :
  nullish data = false -> printable (get data "provider") = true ->
  exists a, new url_parses now data = Ok a.
Proof.
  intros H Hp. unfold new. rewrite H, (provider_printable _ Hp). simpl. eauto.
Qed.

Lemma validateUrl_unparsed v :
  parses url_parses v = false -> _validateUrl url_parses v = None.
Proof.
  destruct v as [| | | |s| |]; try reflexivity. simpl. intros ->.
  by destruct s.
Qed.

(** C6. Normalizing a raw payload that is an object, tagged with a provider
    that converts to a string (the adapters pass their own name), never
    throws. In the article it returns, a url or urlToImage that does not
    parse as an absolute URL is null while a url that parses is kept, a
    publishedAt that is not a non-empty string is null, a source that is not
    an object is the default source, a title that is not a string is the
    placeholder, and a description or content that is not a string is empty. *)
Theorem normalize_never_throws now data :
  is_object data = true ->
  printable (get data "provider") = true ->
  exists a,
    new url_parses now data = Ok a
    /\ (parses url_parses (get data "url") = false -> url a = None)
    /\ (forall s, get data "url" = JStr s -> s <> [] -> url_parses s = true ->
        url a = Some s)
    /\ (parses url_parses (get data "urlToImage") = false -> urlToImage a = None)
    /\ (nonempty_string (get data "publishedAt") = false -> publishedAt a = None)
    /\ (is_object (get data "source") = false ->
        source a = {| name := lit "Unknown"; src_url := None |})
    /\ (is_string (get data "title") = false -> title a = lit "No title available")
    /\ (is_string (get data "description") = false -> description a = [])
    /\ (is_string (get data "content") = false -> content a = []).
Proof.
  intros Hobj Hprov.
  assert (Hn : nullish data = false) by by destruct data.
  unfold new. rewrite Hn, (provider_printable _ Hprov). simpl.
  eexists. split; [reflexivity|]. simpl.
  repeat split.
  - apply validateUrl_unparsed.
  - intros s -> Hs Hu. simpl. rewrite Hu. by destruct s.
  - intros H. by rewrite validateUrl_unparsed.
  - destruct (get data "publishedAt") as [| | | |[|]| |]; done.
  - unfold _normalizeSource.
    destruct (get data "source"); try done; simpl; intros _; by rewrite orb_true_r.
  - intros H. by rewrite sanitize_non_string.
  - intros H. by rewrite sanitize_non_string.
  - intros H. by rewrite sanitize_non_string.
Qed.

Lemma new_fields now data a :
  new url_parses now data = Ok a ->
  title a = str_or (_sanitizeString (get data "title")) (lit "No title available")
  /\ url a = _validateUrl url_parses (get data "url")
  /\ provider a = or_else (get data "provider") (JStr (lit "unknown"))
  /\ id a = _generateId (url a) (provider a) (title a)
  /\ to_string (provider a) = Some (shown (provider a)).
Proof.
  unfold new. destruct (nullish data); [discriminate|].
  destruct (to_string (or_else _ _)) as [text|] eqn:Hp; [|discriminate].
  intros [= <-]. simpl. unfold shown. rewrite Hp. auto.
Qed.

(** C7. The id depends on the normalized url, provider and title only: two
    normalizations that agree on the three agree on the id. For a provider
    name p it reads p, an underscore, and the absolute value of h in decimal,
    where h hashes the url (the text null when absent), p and the title put
    end to end: h is the polynomial in 31 over the code units, wrapped to a
    signed 32-bit integer. *)
Theorem id_deterministic :
  (forall now1 now2 d1 d2 a1 a2,
      new url_parses now1 d1 = Ok a1 ->
      new url_parses now2 d2 = Ok a2 ->
      url a1 = url a2 -> provider a1 = provider a2 -> title a1 = title a2 ->
      id a1 = id a2)
  /\ (forall now d a p,
      new url_parses now d = Ok a ->
      provider a = JStr p ->
      let h := hash (url_text (url a) ++ p ++ title a) in
      id a = p ++ lit "_" ++ decimal (Z.abs h)
      /\ h = to_int32 (poly31 (url_text (url a) ++ p ++ title a))
      /\ - 2 ^ 31 <= h < 2 ^ 31).
Proof.
  split.
  - intros now1 now2 d1 d2 a1 a2 H1 H2 Hu Hp Ht.
    apply new_fields in H1 as (_ & _ & _ & -> & _), H2 as (_ & _ & _ & -> & _).
    by rewrite Hu, Hp, Ht.
  - intros now d a p H Hp h. apply new_fields in H as (_ & _ & _ & Hid & _).
    assert (Htext : id_text (url a) (provider a) (title a)
                    = url_text (url a) ++ p ++ title a).
    { unfold id_text. rewrite Hp.
      destruct (url a); simpl; rewrite <- ?app_assoc; reflexivity. }
    split; [|split].
    + rewrite Hid. unfold _generateId. rewrite Htext, Hp. reflexivity.
    + apply hash_poly31.
    + unfold h. rewrite hash_poly31. apply to_int32_range.
Qed.

(** C10. Two raw payloads with the same url and provider, whose titles differ
    only in white space at the ends or in the runs of white space inside,
    normalize to the same title and so to the same id. *)
Theorem id_ignores_title_whitespace now1 now2 d1 d2 t1 t2 a1 a2 :
  get d1 "title" = JStr t1 ->
  get d2 "title" = JStr t2 ->
  ws_variant t1 t2 ->
  get d1 "url" = get d2 "url" ->
  get d1 "provider" = get d2 "provider" ->
  new url_parses now1 d1 = Ok a1 ->
  new url_parses now2 d2 = Ok a2 ->
  title a1 = title a2 /\ id a1 = id a2.
Proof.
  intros Ht1 Ht2 Hv Hu Hp H1 H2.
  apply new_fields in H1 as (T1 & U1 & P1 & -> & _), H2 as (T2 & U2 & P2 & -> & _).
  assert (Ht : title a1 = title a2).
  { rewrite T1, T2, Ht1, Ht2. by rewrite (sanitize_ws_variant t1 t2 Hv). }
  split; [exact Ht|]. rewrite Ht, U1, U2, P1, P2, Hu, Hp. reflexivity.
Qed.

End WithUrlParser.
End ArticleProps.

(* ===================================================================== *)
(** * The providers                                                       *)
(* ===================================================================== *)

Module ProviderProps.
Import Samples.

Section Any.
Variable url_parses : jsstring -> bool.
Variable now : jsstring.
Variable apiKey : jsstring.

(** GNews: whatever is raised after validation, by the transport or while
    normalizing, reaches the caller as an external-API error that carries it. *)
Lemma gnews_search_wraps client_search query options e :
  GNewsProvider.searchNews url_parses now apiKey client_search query options = Throw e ->
  (exists m, e = ProviderConfigurationError m)
  \/ (exists m, e = ValidationError m)
  \/ (exists original, e = ExternalAPIError (lit "GNews") original
                       /\ statusCode e = Some 502).
Proof using Type.
  unfold GNewsProvider.searchNews.
  destruct (negb _); [intros [= <-]; eauto|].
  unfold bind at 1.
  destruct (GNewsProvider._validateOptions _ _ _) as [[]|e'] eqn:Hv.
  - unfold try_catch. destruct (bind _ _); [discriminate|].
    intros [= <-]. right; right. eauto.
  - intros [= <-]. right; left. revert Hv. unfold GNewsProvider._validateOptions.
    repeat (destruct (_ && _); [intros [= <-]; eauto|]). discriminate.
Qed.

Lemma gnews_search_transport_failure client_search query options e :
  apiKey <> [] ->
  GNewsProvider._validateOptions (assoc (lit "sortBy") options)
    (assoc (lit "searchIn") options) JUndefined = Ok tt ->
  (forall params, client_search query params = Throw e) ->
  GNewsProvider.searchNews url_parses now apiKey client_search query options
  = Throw (ExternalAPIError (lit "GNews") e).
Proof using Type.
  intros Hk Hv Hc. unfold GNewsProvider.searchNews.
  destruct apiKey; [done|]. simpl. rewrite Hv. simpl. by rewrite Hc.
Qed.

Lemma gnews_headlines_transport_failure client_topHeadlines options e :
  apiKey <> [] ->
  GNewsProvider._validateOptions JUndefined JUndefined
    (assoc (lit "category") options) = Ok tt ->
  (forall params, client_topHeadlines params = Throw e) ->
  GNewsProvider.getTopHeadlines url_parses now apiKey client_topHeadlines options
  = Throw (ExternalAPIError (lit "GNews") e).
Proof using Type.
  intros Hk Hv Hc. unfold GNewsProvider.getTopHeadlines.
  destruct apiKey; [done|]. simpl. rewrite Hv. simpl. by rewrite Hc.
Qed.

(** Every adapter hands the normalizer an object tagged with its own name:
    on the payloads the providers build, normalization returns. *)
Lemma adapters_never_throw article :
  (exists a, ArticleData.new url_parses now (GNewsProvider.raw_of article) = Ok a)
  /\ (exists a, ArticleData.new url_parses now (NewsAPIProvider.raw_of article) = Ok a)
  /\ (exists a, ArticleData.new url_parses now (GuardianProvider.raw_of article) = Ok a).
Proof using Type.
  repeat split; apply ArticleProps.new_ok; vm_compute; reflexivity.
Qed.

(** NewsAPI and Guardian: every failure is a plain [Error]. *)
Lemma newsapi_search_plain fetch query options e :
  NewsAPIProvider.searchNews url_parses now apiKey fetch query options = Throw e ->
  exists m, e = Error m.
Proof using Type.
  unfold NewsAPIProvider.searchNews.
  destruct (negb _); [intros [= <-]; eauto|].
  unfold bind at 1.
  destruct (NewsAPIProvider._validateOptions _ _) as [[]|e'] eqn:Hv.
  - unfold try_catch. destruct (bind _ _); [discriminate|]. intros [= <-]. eauto.
  - intros [= <-]. revert Hv. unfold NewsAPIProvider._validateOptions.
    repeat (destruct (_ && _); [intros [= <-]; eauto|]). discriminate.
Qed.

Lemma guardian_search_plain fetch query options e :
  GuardianProvider.searchNews url_parses now apiKey fetch query options = Throw e ->
  exists m, e = Error m.
Proof using Type.
  unfold GuardianProvider.searchNews.
  destruct (negb _); [intros [= <-]; eauto|].
  unfold bind at 1.
  destruct (GuardianProvider._validateOptions _ _) as [[]|e'] eqn:Hv.
  - unfold try_catch. destruct (bind _ _); [discriminate|]. intros [= <-]. eauto.
  - intros [= <-]. revert Hv. unfold GuardianProvider._validateOptions.
    repeat (destruct (_ && _); [intros [= <-]; eauto|]). discriminate.
Qed.

Lemma isValid_undefined : existsb (String.eqb "isValid") ArticleData.methods = false.
Proof using Type. reflexivity. Qed.

Lemma filterM_isValid (l kept : list ArticleData.Article) :
  filterM ArticleData.isValid l = Ok kept -> l = [] /\ kept = [].
Proof using Type. destruct l as [|a l]; simpl; [by intros [= <-]|discriminate]. Qed.

(** The validity filter of NewsAPI and Guardian lets nothing through:
    a response that normalizes at all normalizes to no article. *)
Lemma newsapi_normalize_empty response res :
  NewsAPIProvider.normalizeResponse url_parses now response = Ok res ->
  pr_articles res = [].
Proof using Type.
  unfold NewsAPIProvider.normalizeResponse, bind.
  destruct (read _ _); [|discriminate].
  destruct (map_array _ _ _) as [mapped|]; [|discriminate].
  destruct (filterM _ mapped) as [kept|] eqn:Hf; [|discriminate].
  apply filterM_isValid in Hf as [_ ->].
  by intros [= <-].
Qed.

Lemma guardian_normalize_empty response res :
  GuardianProvider.normalizeResponse url_parses now response = Ok res ->
  pr_articles res = [].
Proof using Type.
  unfold GuardianProvider.normalizeResponse, bind.
  destruct (read _ _); [|discriminate].
  destruct (map_array _ _ _) as [mapped|]; [|discriminate].
  destruct (filterM _ mapped) as [kept|] eqn:Hf; [|discriminate].
  apply filterM_isValid in Hf as [_ ->].
  by intros [= <-].
Qed.

End Any.

(** C4. On a 503 from upstream, NewsAPI and Guardian raise, from both
    [searchNews] and [getTopHeadlines], a plain [Error] whose message names
    the provider and quotes the failure: it is no external-API error and it
    carries no status code. (GNews wraps the same failure, see
    [gnews_search_transport_failure].) *)
Theorem older_providers_raise_plain_errors :
  let newsapi_search :=
    NewsAPIProvider.searchNews http_only (lit "t0") (lit "key") down (lit "climate") [] in
  let newsapi_top :=
    NewsAPIProvider.getTopHeadlines http_only (lit "t0") (lit "key") down [] in
  let guardian_search :=
    GuardianProvider.searchNews http_only (lit "t0") (lit "key") down (lit "climate") [] in
  let guardian_top :=
    GuardianProvider.getTopHeadlines http_only (lit "t0") (lit "key") down [] in
  newsapi_search
  = Throw (Error (lit "NewsAPI search failed: NewsAPI request failed: 503 Service Unavailable"))
  /\ newsapi_top
  = Throw (Error (lit "NewsAPI top headlines failed: NewsAPI request failed: 503 Service Unavailable"))
  /\ guardian_search
  = Throw (Error (lit "Guardian search failed: Guardian request failed: 503 Service Unavailable"))
  /\ guardian_top
  = Throw (Error (lit "Guardian top headlines failed: Guardian request failed: 503 Service Unavailable"))
  /\ forall m, isExternalAPIError (Error m) = false /\ statusCode (Error m) = None.
Proof. vm_compute. repeat split. Qed.

(** C5. On a response holding one article with a well-formed url, the
    validity filter of NewsAPI and of Guardian raises a TypeError, because
    the article class has no [isValid]; the article itself normalizes, and
    its url is not null. *)
Theorem validity_filter_raises :
  NewsAPIProvider.normalizeResponse http_only (lit "t0") newsapi_body
  = Throw (TypeError (lit "article.isValid is not a function"))
  /\ GuardianProvider.normalizeResponse http_only (lit "t0") guardian_body
  = Throw (TypeError (lit "article.isValid is not a function"))
  /\ (exists a, ArticleData.new http_only (lit "t0")
                  (NewsAPIProvider.raw_of
                     (JObj [(lit "title", JStr (lit "Hello"));
                            (lit "url", JStr (lit "https://example.com/a"))])) = Ok a
                /\ ArticleData.url a = Some (lit "https://example.com/a")).
Proof. vm_compute. repeat split. eexists. split; reflexivity. Qed.

End ProviderProps.

(* ===================================================================== *)
(** * The aggregation client                                              *)
(* ===================================================================== *)

Module ClientProps.
Import NewsClient JsFacts.
Section Props.
Variable A : Type.
Variable stringify : jsstring -> jsstring -> Fields -> jsstring.

Lemma ceil_div_spec a b : 0 < b -> b * (ceil_div a b - 1) < a <= b * ceil_div a b.
Proof.
  intros Hb. unfold ceil_div.
  pose proof (Z.div_mod (- a) b ltac:(lia)) as Hdm.
  pose proof (Z.mod_pos_bound (- a) b Hb) as Hr.
  nia.
Qed.

Lemma check_positive_ok parsed v reason n :
  check_positive parsed v reason = Ok n -> parsed = Some n /\ 1 <= n.
Proof.
  unfold check_positive. destruct parsed as [m|]; [|discriminate].
  destruct (Z.ltb_spec m 1); [discriminate|]. intros [= ->]. split; [reflexivity|lia].
Qed.

Lemma prepare_ok (c : Client A) query options (r : Request A) :
  prepare stringify c query options = Ok r ->
  1 <= q_page r /\ 1 <= q_limit r.
Proof.
  unfold prepare, bind.
  destruct (check_query query); [|discriminate].
  destruct (parse_option (opt_page options)) as [pp|]; [|discriminate].
  destruct (parse_option (opt_limit options)) as [lp|]; [|discriminate].
  destruct (check_positive pp _ _) as [pg|] eqn:Hp; [|discriminate].
  destruct (check_positive lp _ _) as [lm|] eqn:Hl; [|discriminate].
  destruct (_getProvider _ _); [|discriminate].
  intros [= <-]. simpl.
  apply check_positive_ok in Hp, Hl. lia.
Qed.

Lemma created_consistent (arts : list A) total page lim hasNext prov :
  1 <= lim ->
  consistent (pagination (_createPaginatedResponse arts total page lim hasNext prov)).
Proof.
  intros Hl. unfold consistent; simpl. repeat split.
  - destruct (Z.ltb_spec 0 total); [|lia]. apply ceil_div_spec; lia.
  - destruct (Z.ltb_spec 0 total); [|lia]. apply ceil_div_spec; lia.
  - destruct hasNext; [reflexivity|discriminate].
  - intros ->. reflexivity.
  - intros ->. reflexivity.
Qed.

Lemma added_consistent (result : ProviderResult A) page lim :
  1 <= lim ->
  consistent (pagination (_addPaginationMetadata result page lim)).
Proof.
  intros Hl. unfold consistent; simpl. repeat split.
  - apply ceil_div_spec; lia.
  - apply ceil_div_spec; lia.
  - destruct (page <? _); [reflexivity|discriminate].
  - intros ->. reflexivity.
  - intros ->. reflexivity.
Qed.

Lemma page_of_shape (r : Request A) e :
  exists arts total hasNext,
    page_of r e = _createPaginatedResponse arts total (q_page r) (q_limit r) hasNext (name (q_provider r)).
Proof.
  unfold page_of.
  match goal with |- context [let '(_, _) := ?x in _] => destruct x end.
  eauto.
Qed.

Lemma serve_ok_shape (c : Client A) (r : Request A) env c' :
  serve c r = (Ok env, c') -> exists e, env = page_of r e.
Proof.
  unfold serve. destruct (needs_fetch _).
  - destruct (p_searchNews _ _ _ _); [|discriminate]. intros [= <- <-]. eauto.
  - intros [= <- <-]. eauto.
Qed.

(** C3. The pagination block of every envelope that [searchNews] or
    [getTopHeadlines] returns agrees with itself: when the total is positive
    the page count is the least number of pages of that limit that hold it,
    [hasPreviousPage] is [currentPage > 1], and [nextPage] is
    [currentPage + 1] exactly when [hasNextPage], null otherwise. *)
Theorem pagination_metadata_consistent :
  (forall (c : Client A) query options env c',
      searchNews stringify c query options = (Ok env, c') ->
      consistent (pagination env))
  /\ (forall (c : Client A) options env c',
      getTopHeadlines c options = (Ok env, c') ->
      consistent (pagination env)).
Proof.
  split.
  - intros c query options env c'. unfold searchNews.
    destruct (prepare _ _ _ _) as [r|] eqn:Hp; [|discriminate].
    intros Hs. apply prepare_ok in Hp as [_ Hl].
    apply serve_ok_shape in Hs as [e ->].
    destruct (page_of_shape r e) as (arts & total & hasNext & ->).
    by apply created_consistent.
  - intros c options env c'. unfold getTopHeadlines, bind.
    destruct (parse_option (opt_page options)) as [pp|]; [|discriminate].
    destruct (parse_option (opt_limit options)) as [lp|]; [|discriminate].
    destruct (check_positive pp _ _) as [pg|] eqn:Hp; [|discriminate].
    destruct (check_positive lp _ _) as [lm|] eqn:Hl; [|discriminate].
    destruct (_getProvider _ _) as [p|]; [|discriminate].
    destruct (p_getTopHeadlines _ _ _); [|discriminate].
    intros [= <- <-]. apply check_positive_ok in Hl as [_ Hl].
    by apply added_consistent.
Qed.

(** ** The query cache *)


Lemma with_cache_same (c : Client A) : with_cache c (articleCache c) (calls c) = c.
Proof. by destruct c. Qed.

(** A request whose entry needs no fetch is answered from the cache and
    leaves the client as it was. *)
Lemma serve_cached (c : Client A) r e :
  articleCache c !! q_key r = Some e -> populated e ->
  serve c r = (Ok (page_of r e), c).
Proof.
  intros He Hp. unfold serve. rewrite He. simpl. rewrite He. simpl.
  rewrite Hp. by rewrite with_cache_same.
Qed.

Lemma fetchSize_pos (r : Request A) : 1 <= q_page r -> 1 <= q_limit r -> 2 <= fetchSize_of r.
Proof. unfold fetchSize_of. destruct (is_gnews _); lia. Qed.

(** The entry left by a call that returned needs no fetch any more. *)
Lemma serve_ok_populates (c : Client A) r env c' :
  1 <= q_page r -> 1 <= q_limit r ->
  serve c r = (Ok env, c') ->
  exists e, articleCache c' !! q_key r = Some e /\ populated e /\ env = page_of r e.
Proof.
  intros Hpg Hl. pose proof (fetchSize_pos r Hpg Hl) as Hf. unfold serve.
  destruct (needs_fetch _) eqn:Hn.
  - destruct (p_searchNews _ _ _ _) as [res|]; [|discriminate].
    intros [= <- <-]. eexists. split; [apply lookup_insert_eq|]. split; [|reflexivity].
    unfold populated, needs_fetch. simpl.
    destruct (is_gnews _); [apply andb_false_r|].
    destruct (r_articles res); simpl; [|reflexivity].
    apply Z.leb_gt. lia.
  - intros [= <- <-]. simpl.
    destruct (articleCache c !! q_key r) as [e|] eqn:He.
    + rewrite He in Hn |- *. simpl in *. eauto.
    + rewrite lookup_insert_eq in Hn. discriminate.
Qed.

Lemma filter_search_snoc k (l : list Call) x :
  List.filter (is_search_for k) (l ++ [x])
  = List.filter (is_search_for k) l ++ (if is_search_for k x then [x] else []).
Proof. rewrite List.filter_app. reflexivity. Qed.

(** A request for another key leaves this key's entry and fetches alone. *)
Lemma serve_other_key (c : Client A) r k :
  q_key r <> k ->
  articleCache (serve c r).2 !! k = articleCache c !! k
  /\ fetches k (serve c r).2 = fetches k c.
Proof.
  intros Hk. unfold serve, fetches.
  assert (Hc0 : (match articleCache c !! q_key r with
                 | Some _ => articleCache c
                 | None => <[q_key r := empty_entry A]> (articleCache c)
                 end) !! k = articleCache c !! k).
  { destruct (articleCache c !! q_key r); [reflexivity|]. by rewrite lookup_insert_ne. }
  assert (Hlog : forall q o, List.filter (is_search_for k)
                   (calls c ++ [SearchCall (q_key r) (name (q_provider r)) q o])
                 = List.filter (is_search_for k) (calls c)).
  { intros. rewrite filter_search_snoc. simpl. unfold jsstring_eqb.
    rewrite bool_decide_eq_false_2; [apply app_nil_r | congruence]. }
  destruct (needs_fetch _).
  - destruct (p_searchNews _ _ _ _); simpl.
    + rewrite lookup_insert_ne by done. auto.
    + auto.
  - simpl. auto.
Qed.

Lemma searchNews_prepare (c : Client A) query options :
  searchNews stringify c query options
  = match prepare stringify c query options with
    | Throw e => (Throw e, c)
    | Ok r => serve c r
    end.
Proof. reflexivity. Qed.

Lemma getTopHeadlines_cache (c : Client A) options k :
  articleCache (getTopHeadlines c options).2 = articleCache c
  /\ fetches k (getTopHeadlines c options).2 = fetches k c.
Proof.
  unfold getTopHeadlines.
  destruct (bind _ _) as [[[pg lm] p]|]; [|auto].
  destruct (p_getTopHeadlines _ _ _); simpl; (split; [reflexivity|]);
    unfold fetches; simpl; rewrite filter_search_snoc; apply app_nil_r.
Qed.

(** No operation other than [clearCache] disturbs a populated entry, or
    fetches for its key. *)
Lemma exec_keeps_populated (c : Client A) op k e :
  is_clear op = false ->
  articleCache c !! k = Some e -> populated e ->
  articleCache (exec stringify c op) !! k = Some e
  /\ fetches k (exec stringify c op) = fetches k c.
Proof.
  intros Hop He Hp. destruct op as [query options|options|n|]; simpl; [| | |discriminate].
  - rewrite searchNews_prepare.
    destruct (prepare _ _ _ _) as [r|]; [|auto].
    destruct (decide (q_key r = k)) as [<-|Hne].
    + rewrite (serve_cached c r e He Hp). auto.
    + destruct (serve_other_key c r k Hne) as [-> ->]. auto.
  - destruct (getTopHeadlines_cache c options k) as [-> ->]. auto.
  - unfold setDefaultProvider. destruct (providers_get _ _); auto.
Qed.

Lemma run_keeps_populated ops : forall (c : Client A) k e,
  forallb (fun op => negb (is_clear op)) ops = true ->
  articleCache c !! k = Some e -> populated e ->
  articleCache (run stringify c ops) !! k = Some e
  /\ fetches k (run stringify c ops) = fetches k c.
Proof.
  induction ops as [|op ops IH]; intros c k e Hops He Hp; [auto|].
  simpl in Hops. apply andb_prop in Hops as [Hop Hops].
  apply negb_true_iff in Hop.
  destruct (exec_keeps_populated c op k e Hop He Hp) as [He' Hf'].
  destruct (IH (exec stringify c op) k e Hops He' Hp) as [He'' Hf''].
  unfold run in *. simpl. split; [exact He''|congruence].
Qed.

Lemma page_of_articles (r : Request A) e :
  env_articles (page_of r e)
  = slice ((q_page r - 1) * q_limit r) ((q_page r - 1) * q_limit r + q_limit r) (articles e).
Proof.
  unfold page_of.
  match goal with |- context [let '(_, _) := ?x in _] => destruct x end.
  reflexivity.
Qed.

(** C1. Once a call of [searchNews] has returned for a cache key, whatever
    operations follow short of [clearCache], no provider search is made for
    that key again and its cached sequence stays what it was; every later
    request for the key is answered by the slice of that sequence for its
    page, and leaves the client untouched. *)
Theorem populated_key_never_refetched (c : Client A) query options r env c1 :
  prepare stringify c query options = Ok r ->
  searchNews stringify c query options = (Ok env, c1) ->
  exists e,
    articleCache c1 !! q_key r = Some e
    /\ forall ops, forallb (fun op => negb (is_clear op)) ops = true ->
       let c2 := run stringify c1 ops in
       fetches (q_key r) c2 = fetches (q_key r) c1
       /\ articleCache c2 !! q_key r = Some e
       /\ forall query' options' r',
            prepare stringify c2 query' options' = Ok r' ->
            q_key r' = q_key r ->
            exists env',
              searchNews stringify c2 query' options' = (Ok env', c2)
              /\ env_articles env'
                 = slice ((q_page r' - 1) * q_limit r')
                         ((q_page r' - 1) * q_limit r' + q_limit r') (articles e).
Proof.
  intros Hprep Hs. rewrite searchNews_prepare, Hprep in Hs.
  destruct (prepare_ok _ _ _ _ Hprep) as [Hpg Hl].
  destruct (serve_ok_populates c r env c1 Hpg Hl Hs) as (e & He & Hp & _).
  exists e. split; [exact He|]. intros ops Hops c2.
  destruct (run_keeps_populated ops c1 (q_key r) e Hops He Hp) as [He2 Hf2].
  split; [exact Hf2|]. split; [exact He2|].
  intros query' options' r' Hprep' Hk.
  exists (page_of r' e). rewrite searchNews_prepare, Hprep'.
  rewrite <- Hk in He2. rewrite (serve_cached c2 r' e He2 Hp).
  split; [reflexivity|apply page_of_articles].
Qed.

(** ** The ceiling-capped provider *)

Lemma is_gnews_name (p : Provider A) : name p = lit "gnews" -> is_gnews p = true.
Proof. intros H. unfold is_gnews, jsstring_eqb. by apply bool_decide_eq_true_2. Qed.

Lemma page_of_gnews (r : Request A) e :
  is_gnews (q_provider r) = true ->
  hasNextPage (pagination (page_of r e))
    = ((q_page r - 1) * q_limit r + q_limit r <? Z.of_nat (length (articles e)))
  /\ env_totalResults (page_of r e) = Z.of_nat (length (articles e))
  /\ pg_totalResults (pagination (page_of r e)) = Z.of_nat (length (articles e)).
Proof. intros Hg. unfold page_of. rewrite Hg. simpl. auto. Qed.

(** The first request for a key whose entry is absent: one call goes to the
    provider and its answer becomes the entry. *)
Lemma serve_first (c : Client A) r res :
  articleCache c !! q_key r = None ->
  p_searchNews (q_provider r) (calls c) (q_query r)
    (obj_set (lit "max") (JNum (fetchSize_of r)) (q_options r)) = Ok res ->
  let e := {| articles := r_articles res;
              totalArticles := r_totalResults res;
              lastFetchSize := fetchSize_of r;
              hasMore := if is_gnews (q_provider r) then false
                         else fetchSize_of r <=? Z.of_nat (length (r_articles res)) |} in
  serve c r
  = (Ok (page_of r e),
     with_cache c (<[q_key r := e]> (<[q_key r := empty_entry A]> (articleCache c)))
       (calls c ++ [SearchCall (q_key r) (name (q_provider r)) (q_query r)
                      (obj_set (lit "max") (JNum (fetchSize_of r)) (q_options r))])).
Proof.
  intros Hnone Hres e. unfold serve. rewrite Hnone. simpl.
  rewrite lookup_insert_eq. simpl. rewrite Hres. reflexivity.
Qed.

(** C2. For the provider named gnews, [hasNextPage] holds exactly when the
    cached sequence is longer than the end index of the page, and
    [totalResults] is the cached count, whatever total the upstream
    reported. In particular, with five per page and a single fetch of eight
    articles: page 1 is the first five, with a next page and a total of 8;
    page 2 is the last three, without a next page, and the client, its call
    log included, is unchanged by it. *)
Theorem gnews_pages_from_cache :
  (forall (c : Client A) query options r env c1,
      prepare stringify c query options = Ok r ->
      name (q_provider r) = lit "gnews" ->
      searchNews stringify c query options = (Ok env, c1) ->
      exists e,
        articleCache c1 !! q_key r = Some e
        /\ (hasNextPage (pagination env) = true
            <-> (q_page r - 1) * q_limit r + q_limit r < Z.of_nat (length (articles e)))
        /\ env_totalResults env = Z.of_nat (length (articles e))
        /\ pg_totalResults (pagination env) = Z.of_nat (length (articles e)))
  /\ (forall (c : Client A) query options r upstream,
      prepare stringify c query options = Ok r ->
      name (q_provider r) = lit "gnews" ->
      q_page r = 1 -> q_limit r = 5 ->
      articleCache c !! q_key r = None ->
      p_searchNews (q_provider r) (calls c) (q_query r)
        (obj_set (lit "max") (JNum 10) (q_options r)) = Ok upstream ->
      length (r_articles upstream) = 8%nat ->
      exists env1 c1,
        searchNews stringify c query options = (Ok env1, c1)
        /\ env_articles env1 = firstn 5 (r_articles upstream)
        /\ length (env_articles env1) = 5%nat
        /\ hasNextPage (pagination env1) = true
        /\ env_totalResults env1 = 8
        /\ length (calls c1) = S (length (calls c))
        /\ forall query2 options2 r2,
             prepare stringify c1 query2 options2 = Ok r2 ->
             q_key r2 = q_key r ->
             name (q_provider r2) = lit "gnews" ->
             q_page r2 = 2 -> q_limit r2 = 5 ->
             exists env2,
               searchNews stringify c1 query2 options2 = (Ok env2, c1)
               /\ env_articles env2 = skipn 5 (r_articles upstream)
               /\ length (env_articles env2) = 3%nat
               /\ hasNextPage (pagination env2) = false
               /\ env_totalResults env2 = 8).
Proof.
  split.
  - intros c query options r env c1 Hprep Hname Hs.
    rewrite searchNews_prepare, Hprep in Hs.
    destruct (prepare_ok _ _ _ _ Hprep) as [Hpg Hl].
    destruct (serve_ok_populates c r env c1 Hpg Hl Hs) as (e & He & _ & ->).
    exists e. split; [exact He|].
    destruct (page_of_gnews r e (is_gnews_name _ Hname)) as (-> & -> & ->).
    split; [apply Z.ltb_lt|auto].
  - intros c query options r upstream Hprep Hname Hpg Hl Hnone Hup Hlen.
    pose proof (is_gnews_name _ Hname) as Hg.
    assert (Hfs : fetchSize_of r = 10) by (unfold fetchSize_of; by rewrite Hg).
    rewrite <- Hfs in Hup.
    pose proof (serve_first c r upstream Hnone Hup) as Hserve. simpl in Hserve.
    rewrite Hg in Hserve.
    set (e := {| articles := r_articles upstream; totalArticles := r_totalResults upstream;
                 lastFetchSize := fetchSize_of r; hasMore := false |}) in Hserve.
    eexists _, _. rewrite searchNews_prepare, Hprep. split; [exact Hserve|].
    destruct (page_of_gnews r e Hg) as (Hn & Ht & _).
    rewrite page_of_articles, Hn, Ht, Hpg, Hl. simpl articles. rewrite Hlen.
    change (slice _ _ ?l) with (firstn 5 l).
    split; [reflexivity|]. split.
    { rewrite length_firstn, Hlen. reflexivity. }
    split; [reflexivity|]. split; [reflexivity|]. split.
    { simpl. rewrite length_app. simpl. lia. }
    intros query2 options2 r2 Hprep2 Hk2 Hname2 Hpg2 Hl2.
    exists (page_of r2 e). rewrite searchNews_prepare, Hprep2.
    assert (He : articleCache
                   (with_cache c (<[q_key r := e]> (<[q_key r := empty_entry A]> (articleCache c)))
                      (calls c ++ [SearchCall (q_key r) (name (q_provider r)) (q_query r)
                         (obj_set (lit "max") (JNum (fetchSize_of r)) (q_options r))]))
                 !! q_key r2 = Some e).
    { simpl. rewrite Hk2. apply lookup_insert_eq. }
    rewrite (serve_cached _ r2 e He); [|unfold populated, needs_fetch; apply andb_false_r].
    split; [reflexivity|].
    destruct (page_of_gnews r2 e (is_gnews_name _ Hname2)) as (Hn2 & Ht2 & _).
    rewrite page_of_articles, Hn2, Ht2, Hpg2, Hl2. unfold e. simpl articles. rewrite Hlen.
    change (slice _ _ ?l) with (firstn 5 (skipn 5 l)).
    rewrite firstn_all2 by (rewrite length_skipn, Hlen; simpl; lia).
    split; [reflexivity|]. split.
    { rewrite length_skipn, Hlen. reflexivity. }
    split; reflexivity.
Qed.

(** ** Validation *)

(** C8. A query that is [null], [undefined], empty or made of white space
    only is refused with an invalid-query error: a validation error of
    status 400 whose message starts with the words Search query. The client
    is left as it was, with no cache entry created and no provider call
    logged, whatever providers are registered and whatever the options. *)
Theorem blank_query_rejected (c : Client A) query options :
  blank query ->
  exists e,
    searchNews stringify c query options = (Throw e, c)
    /\ isValidationError e = true
    /\ statusCode e = Some 400
    /\ exists rest, message e = lit "Search query" ++ rest.
Proof.
  intros Hq.
  exists (InvalidQueryError (or_else query (JStr []))
            (lit "Search query is required and must be non-empty")).
  split; [|split; [reflexivity|split; [reflexivity|]]].
  - rewrite searchNews_prepare. unfold prepare, check_query.
    destruct Hq as [->|[->|(s & -> & Hs)]]; [reflexivity|reflexivity|].
    by rewrite (trim_blank s Hs).
  - exists (lit " is required and must be non-empty" ++ lit ": '"
            ++ shown (or_else query (JStr [])) ++ lit "'").
    simpl message. rewrite (app_assoc (lit "Search query")). reflexivity.
Qed.

Lemma check_query_ok s : trim s <> [] -> check_query (JStr s) = Ok (trim s).
Proof. intros H. unfold check_query. destruct (trim s); [done|reflexivity]. Qed.

Lemma parse_option_ok v parsed : parseInt v = Some parsed -> parse_option v = Ok parsed.
Proof. intros H. unfold parse_option. by rewrite H. Qed.

Lemma check_positive_reject parsed v reason :
  (forall n, parsed = Some n -> n < 1) ->
  check_positive parsed v reason = Throw (InvalidQueryError v (lit reason)).
Proof.
  intros H. unfold check_positive. destruct parsed as [n|]; [|reflexivity].
  specialize (H n eq_refl). by rewrite (proj2 (Z.ltb_lt n 1) H).
Qed.

Lemma check_positive_accept v reason n :
  1 <= n -> check_positive (Some n) v reason = Ok n.
Proof. intros Hn. unfold check_positive. by rewrite (proj2 (Z.ltb_ge n 1) Hn). Qed.

(** C9, amended. With a valid query, [searchNews] accepts page and limit
    exactly when [parseInt] of each is an integer at least 1. When the page
    parses to NaN or below 1 the call fails with an invalid-query error
    built on the page value; when the page passes and the limit does not, on
    the limit value. In both cases the client is untouched. Otherwise the
    call goes on to resolve the provider with the parsed numbers. The error
    has status 400 and its message ends with the offending value in quotes. *)
Theorem page_and_limit_validated (c : Client A) s options pageParsed limitParsed :
  trim s <> [] ->
  parseInt (opt_page options) = Some pageParsed ->
  parseInt (opt_limit options) = Some limitParsed ->
  ((forall n, pageParsed = Some n -> n < 1) ->
   searchNews stringify c (JStr s) options
   = (Throw (InvalidQueryError (opt_page options)
               (lit "Page must be a positive integer")), c))
  /\ (forall np, pageParsed = Some np -> 1 <= np ->
      (forall n, limitParsed = Some n -> n < 1) ->
      searchNews stringify c (JStr s) options
      = (Throw (InvalidQueryError (opt_limit options)
                  (lit "Limit must be between 1 or more")), c))
  /\ (forall np nl,
      pageParsed = Some np -> 1 <= np ->
      limitParsed = Some nl -> 1 <= nl ->
      searchNews stringify c (JStr s) options
      = match _getProvider c (assoc (lit "provider") options) with
        | Throw e => (Throw e, c)
        | Ok p =>
            serve c {| q_query := trim s; q_page := np; q_limit := nl;
                       q_provider := p; q_options := rest_of options;
                       q_key := stringify (trim s) (name p) (rest_of options) |}
        end)
  /\ (forall v text reason,
      to_string v = Some text ->
      statusCode (InvalidQueryError v reason) = Some 400
      /\ isValidationError (InvalidQueryError v reason) = true
      /\ message (InvalidQueryError v reason) = reason ++ lit ": '" ++ text ++ lit "'").
Proof.
  intros Hq Hpp Hlp. pose proof (check_query_ok s Hq) as Hcq.
  split; [|split; [|split]].
  - intros Hp. rewrite searchNews_prepare. unfold prepare.
    rewrite Hcq, (parse_option_ok _ _ Hpp), (parse_option_ok _ _ Hlp). cbn [bind].
    by rewrite (check_positive_reject _ _ _ Hp).
  - intros np -> Hnp Hl. rewrite searchNews_prepare. unfold prepare.
    rewrite Hcq, (parse_option_ok _ _ Hpp), (parse_option_ok _ _ Hlp). cbn [bind].
    rewrite (check_positive_accept _ _ _ Hnp). cbn [bind].
    by rewrite (check_positive_reject _ _ _ Hl).
  - intros np nl -> Hnp -> Hnl. rewrite searchNews_prepare. unfold prepare.
    rewrite Hcq, (parse_option_ok _ _ Hpp), (parse_option_ok _ _ Hlp). cbn [bind].
    rewrite (check_positive_accept _ _ _ Hnp). cbn [bind].
    rewrite (check_positive_accept _ _ _ Hnl). cbn [bind].
    by destruct (_getProvider _ _).
  - intros v text reason Hv. repeat split. simpl. unfold shown. by rewrite Hv.
Qed.
End Props.
End ClientProps.

(* ===================================================================== *)
(** * The theorems at the sample objects                                  *)
(* ===================================================================== *)

Module Examples.
Import NewsClient Samples ClientProps ArticleProps JsFacts.

Lemma populated_key_never_refetched_witness :
  exists e,
    articleCache first_page.2 !! q_key request0 = Some e
    /\ forall ops, forallb (fun op => negb (is_clear op)) ops = true ->
       let c2 := run stringify first_page.2 ops in
       fetches (q_key request0) c2 = fetches (q_key request0) first_page.2
       /\ articleCache c2 !! q_key request0 = Some e
       /\ forall query' options' r',
            prepare stringify c2 query' options' = Ok r' ->
            q_key r' = q_key request0 ->
            exists env',
              searchNews stringify c2 query' options' = (Ok env', c2)
              /\ env_articles env'
                 = slice ((q_page r' - 1) * q_limit r')
                         ((q_page r' - 1) * q_limit r' + q_limit r') (articles e).
Proof.
  apply (populated_key_never_refetched nat stringify client0
           (JStr (lit "climate")) [(lit "limit", JNum 5)] request0
           (page_of request0
              {| articles := eight; totalArticles := 1000;
                 lastFetchSize := 10; hasMore := false |})
           first_page.2).
  - reflexivity.
  - vm_compute. reflexivity.
Defined.

Lemma gnews_pages_from_cache_witness :
  exists env1 c1,
    searchNews stringify client0 (JStr (lit "climate")) [(lit "limit", JNum 5)]
    = (Ok env1, c1)
    /\ env_articles env1 = [1; 2; 3; 4; 5]%nat
    /\ hasNextPage (pagination env1) = true
    /\ env_totalResults env1 = 8
    /\ exists env2,
         searchNews stringify c1 (JStr (lit "climate"))
           [(lit "limit", JNum 5); (lit "page", JNum 2)] = (Ok env2, c1)
         /\ env_articles env2 = [6; 7; 8]%nat
         /\ hasNextPage (pagination env2) = false
         /\ env_totalResults env2 = 8.
Proof.
  destruct (proj2 (gnews_pages_from_cache nat stringify) client0
              (JStr (lit "climate")) [(lit "limit", JNum 5)] request0
              {| r_provider := lit "gnews"; r_articles := eight;
                 r_totalResults := 1000; r_actualResults := Some 8 |}
              eq_refl eq_refl eq_refl eq_refl eq_refl eq_refl eq_refl)
    as (env1 & c1 & Hs & Ha & _ & Hn & Ht & _ & Hnext).
  exists env1, c1. split; [exact Hs|]. split; [exact Ha|].
  split; [exact Hn|]. split; [exact Ht|].
  assert (Hc1 : c1 = first_page.2).
  { change (searchNews stringify client0 (JStr (lit "climate")) [(lit "limit", JNum 5)])
      with first_page in Hs.
    rewrite (surjective_pairing first_page) in Hs. by injection Hs. }
  destruct (Hnext (JStr (lit "climate")) [(lit "limit", JNum 5); (lit "page", JNum 2)]
              {| q_query := lit "climate"; q_page := 2; q_limit := 5;
                 q_provider := gnews8; q_options := [];
                 q_key := stringify (lit "climate") (lit "gnews") [] |})
    as (env2 & Hs2 & Ha2 & _ & Hn2 & Ht2); try reflexivity.
  { rewrite Hc1. vm_compute. reflexivity. }
  exists env2. auto.
Defined.

Lemma pagination_metadata_consistent_witness :
  (exists env, first_page.1 = Ok env /\ consistent (pagination env))
  /\ (exists env, (getTopHeadlines client0 [(lit "page", JNum 2)]).1 = Ok env
                  /\ consistent (pagination env)).
Proof.
  destruct (pagination_metadata_consistent nat stringify) as [Hsearch Htop]. split.
  - eexists. split; [vm_compute; reflexivity|].
    apply (Hsearch client0 (JStr (lit "climate")) [(lit "limit", JNum 5)] _ first_page.2).
    vm_compute. reflexivity.
  - eexists. split; [vm_compute; reflexivity|].
    apply (Htop client0 [(lit "page", JNum 2)] _
             (getTopHeadlines client0 [(lit "page", JNum 2)]).2).
    vm_compute. reflexivity.
Defined.

Lemma normalize_never_throws_witness :
  exists a, ArticleData.new http_only (lit "t0")
              (JObj [(lit "title", JNum 7); (lit "url", JStr (lit "not a url"));
                     (lit "source", JStr (lit "Reuters"))]) = Ok a
            /\ ArticleData.url a = None
            /\ ArticleData.title a = lit "No title available"
            /\ ArticleData.source a
               = {| ArticleData.name := lit "Unknown"; ArticleData.src_url := None |}.
Proof.
  destruct (normalize_never_throws http_only (lit "t0")
              (JObj [(lit "title", JNum 7); (lit "url", JStr (lit "not a url"));
                     (lit "source", JStr (lit "Reuters"))]) eq_refl eq_refl)
    as (a & Ha & Hu & _ & _ & _ & Hs & Ht & _).
  exists a. split; [exact Ha|]. split; [apply Hu; reflexivity|].
  split; [apply Ht; reflexivity|apply Hs; reflexivity].
Defined.

Lemma id_deterministic_witness :
  exists a, ArticleData.new http_only (lit "t0") raw2 = Ok a
            /\ ArticleData.id a = lit "gnews_991485430".
Proof.
  exists (ArticleData.toJSON
            match ArticleData.new http_only (lit "t0") raw2 with
            | Ok a => a
            | Throw _ =>
                {| ArticleData.title := []; ArticleData.description := [];
                   ArticleData.content := []; ArticleData.url := None;
                   ArticleData.urlToImage := None; ArticleData.publishedAt := None;
                   ArticleData.source :=
                     {| ArticleData.name := []; ArticleData.src_url := None |};
                   ArticleData.provider := JNull; ArticleData.id := [];
                   ArticleData.createdAt := [] |}
            end).
  split; [reflexivity|].
  refine (eq_trans (proj1 (proj2 (id_deterministic http_only) (lit "t0") raw2 _
                             (lit "gnews") eq_refl eq_refl)) _).
  vm_compute. reflexivity.
Defined.

Lemma id_ignores_title_whitespace_witness :
  exists a1 a2,
    ArticleData.new http_only (lit "t0") raw1 = Ok a1
    /\ ArticleData.new http_only (lit "t1") raw2 = Ok a2
    /\ ArticleData.title a1 = ArticleData.title a2
    /\ ArticleData.id a1 = ArticleData.id a2.
Proof.
  destruct (new_ok http_only (lit "t0") raw1 eq_refl eq_refl) as [a1 H1].
  destruct (new_ok http_only (lit "t1") raw2 eq_refl eq_refl) as [a2 H2].
  exists a1, a2. split; [exact H1|]. split; [exact H2|].
  apply (id_ignores_title_whitespace http_only (lit "t0") (lit "t1") raw1 raw2
           (lit "  Hello   world ") (lit "Hello world") a1 a2);
    try reflexivity; try assumption.
  apply (wv_trans _ (lit "Hello   world "));
    [exact (wv_leading (lit "  ") (lit "Hello   world ") eq_refl)|].
  apply (wv_trans _ (lit "Hello   world"));
    [exact (wv_trailing (lit " ") (lit "Hello   world") eq_refl)|].
  apply (wv_internal (lit "Hello") (lit "   ") (lit " ") (lit "world")); done.
Defined.

(** The page "2.5" is not an integer, and is accepted as page 2: the
    provider is called. *)
Lemma fractional_page_accepted :
  let out := searchNews stringify client0 (JStr (lit "climate"))
               [(lit "page", JStr (lit "2.5"))] in
  (exists env, out.1 = Ok env /\ currentPage (pagination env) = 2)
  /\ length (calls out.2) = 1%nat.
Proof. vm_compute. split; [eexists; split; reflexivity | reflexivity]. Qed.

Lemma page_and_limit_validated_witness :
  searchNews stringify client0 (JStr (lit "climate")) [(lit "page", JStr (lit "0"))]
  = (Throw (InvalidQueryError (JStr (lit "0")) (lit "Page must be a positive integer")),
     client0).
Proof.
  refine (proj1 (page_and_limit_validated nat stringify client0 (lit "climate")
                   [(lit "page", JStr (lit "0"))] (Some 0) (Some 10) _ eq_refl eq_refl) _).
  - vm_compute. discriminate.
  - intros n [= <-]. reflexivity.
Defined.

Lemma blank_query_rejected_witness :
  exists e, searchNews stringify client0 (JStr (lit "   ")) [] = (Throw e, client0)
            /\ isValidationError e = true /\ statusCode e = Some 400
            /\ exists rest, message e = lit "Search query" ++ rest.
Proof.
  apply (blank_query_rejected nat stringify client0 (JStr (lit "   ")) []).
  right. right. exists (lit "   "). split; reflexivity.
Defined.
End Examples.

(* ===================================================================== *)
(** * Numbers and their decimal text                                      *)
(* ===================================================================== *)

Module NumberFacts.

Lemma lit_cons a s : lit (String a s) = Z.of_N (N_of_ascii a) :: lit s.
Proof. reflexivity. Qed.

Lemma digits_of_uint d :
  forallb is_digit (lit (NilEmpty.string_of_uint d)) = true.
Proof. induction d; simpl NilEmpty.string_of_uint; rewrite ?lit_cons; simpl; auto. Qed.

Lemma read_digits_uint d : forall acc,
  read_digits 10 (Some acc) (lit (NilEmpty.string_of_uint d)) = Some (uint_val acc d).
Proof.
  induction d; intros acc; simpl NilEmpty.string_of_uint; rewrite ?lit_cons;
    [reflexivity | ..]; simpl; apply IHd.
Qed.

Lemma read_digits_uint_start d :
  d <> Nil ->
  read_digits 10 None (lit (NilEmpty.string_of_uint d)) = Some (uint_val 0 d).
Proof.
  destruct d; [done | ..]; intros _; simpl NilEmpty.string_of_uint;
    rewrite lit_cons; simpl; apply read_digits_uint.
Qed.

Lemma uint_val_acc d : forall acc,
  Z.pos (Pos.of_uint_acc d acc) = uint_val (Z.pos acc) d.
Proof.
  induction d; intros acc; simpl; [reflexivity | ..];
    rewrite IHd; f_equal; lia.
Qed.

Lemma uint_val_of_uint d : Z.of_N (Pos.of_uint d) = uint_val 0 d.
Proof.
  induction d; simpl; [reflexivity | exact IHd | ..]; apply uint_val_acc.
Qed.

Lemma uint_val_to_uint p : uint_val 0 (Pos.to_uint p) = Z.pos p.
Proof. by rewrite <- uint_val_of_uint, DecimalPos.Unsigned.of_to. Qed.

Lemma digit_not_ws c : is_digit c = true -> is_ws c = false.
Proof.
  unfold is_digit. intros H. apply andb_prop in H as [H1 H2].
  apply Z.leb_le in H1, H2.
  assert (Hc : c = 48 \/ c = 49 \/ c = 50 \/ c = 51 \/ c = 52 \/ c = 53 \/ c = 54
               \/ c = 55 \/ c = 56 \/ c = 57) by lia.
  destruct Hc as [->|[->|[->|[->|[->|[->|[->|[->|[->| ->]]]]]]]]]; reflexivity.
Qed.

Lemma sign_plus (x : option Z) :
  match x with Some n => Some (1 * n) | None => None end = x.
Proof. destruct x as [n|]; [f_equal; lia|reflexivity]. Qed.

Lemma sign_minus (x : option Z) v :
  x = Some v -> match x with Some n => Some (-1 * n) | None => None end = Some (- v).
Proof. intros ->; f_equal; lia. Qed.

(** On a non-empty run of digits [parseInt] reads all of it in base 10. *)
Lemma parseInt_digits s :
  s <> [] -> forallb is_digit s = true ->
  parseInt_string s = read_digits 10 None s.
Proof.
  destruct s as [|c s]; [done|]. intros _ H. simpl in H.
  apply andb_prop in H as [Hc Hs].
  unfold parseInt_string. cbn [drop_ws]. rewrite (digit_not_ws c Hc).
  assert (Hrange : 48 <= c <= 57)
    by (unfold is_digit in Hc; apply andb_prop in Hc as [?%Z.leb_le ?%Z.leb_le]; lia).
  assert (Hsign : c <> 45 /\ c <> 43) by lia.
  destruct (decide (c = 48)) as [->|Hne].
  - destruct s as [|c2 s].
    + apply sign_plus.
    + simpl in Hs. apply andb_prop in Hs as [Hc2 _].
      assert (48 <= c2 <= 57)
        by (unfold is_digit in Hc2;
            apply andb_prop in Hc2 as [?%Z.leb_le ?%Z.leb_le]; lia).
      assert (Hc2' : c2 = 48 \/ c2 = 49 \/ c2 = 50 \/ c2 = 51 \/ c2 = 52 \/ c2 = 53
                     \/ c2 = 54 \/ c2 = 55 \/ c2 = 56 \/ c2 = 57) by lia.
      destruct Hc2' as [->|[->|[->|[->|[->|[->|[->|[->|[->| ->]]]]]]]]];
        apply sign_plus.
  - assert (Hc' : c = 49 \/ c = 50 \/ c = 51 \/ c = 52 \/ c = 53
                  \/ c = 54 \/ c = 55 \/ c = 56 \/ c = 57) by lia.
    destruct Hc' as [->|[->|[->|[->|[->|[->|[->|[->| ->]]]]]]]];
      apply sign_plus.
Qed.

Lemma parseInt_minus c s v :
  forallb is_digit (c :: s) = true ->
  read_digits 10 None (c :: s) = Some v ->
  parseInt_string (45 :: c :: s) = Some (- v).
Proof.
  intros H Hread. simpl in H. apply andb_prop in H as [Hc Hs].
  unfold parseInt_string. cbn [drop_ws]. change (is_ws 45) with false. cbv iota.
  assert (Hrange : 48 <= c <= 57)
    by (unfold is_digit in Hc; apply andb_prop in Hc as [?%Z.leb_le ?%Z.leb_le]; lia).
  destruct (decide (c = 48)) as [->|Hne].
  - destruct s as [|c2 s].
    + by apply sign_minus.
    + simpl in Hs. apply andb_prop in Hs as [Hc2 _].
      assert (48 <= c2 <= 57)
        by (unfold is_digit in Hc2;
            apply andb_prop in Hc2 as [?%Z.leb_le ?%Z.leb_le]; lia).
      assert (Hc2' : c2 = 48 \/ c2 = 49 \/ c2 = 50 \/ c2 = 51 \/ c2 = 52 \/ c2 = 53
                     \/ c2 = 54 \/ c2 = 55 \/ c2 = 56 \/ c2 = 57) by lia.
      destruct Hc2' as [->|[->|[->|[->|[->|[->|[->|[->|[->| ->]]]]]]]]];
        by apply sign_minus.
  - assert (Hc' : c = 49 \/ c = 50 \/ c = 51 \/ c = 52 \/ c = 53
                  \/ c = 54 \/ c = 55 \/ c = 56 \/ c = 57) by lia.
    destruct Hc' as [->|[->|[->|[->|[->|[->|[->|[->| ->]]]]]]]];
      by apply sign_minus.
Qed.

Lemma decimal_pos p :
  decimal (Z.pos p) = lit (NilEmpty.string_of_uint (Pos.to_uint p)).
Proof.
  unfold decimal. simpl. unfold NilZero.string_of_uint.
  pose proof (DecimalPos.Unsigned.to_uint_nonnil p).
  by destruct (Pos.to_uint p).
Qed.

Lemma lit_nonempty_uint d : d <> Nil -> lit (NilEmpty.string_of_uint d) <> [].
Proof. by destruct d. Qed.

Lemma parseInt_decimal_pos p : parseInt_string (decimal (Z.pos p)) = Some (Z.pos p).
Proof.
  rewrite decimal_pos.
  pose proof (DecimalPos.Unsigned.to_uint_nonnil p) as Hnil.
  rewrite parseInt_digits by (by apply lit_nonempty_uint || apply digits_of_uint).
  rewrite read_digits_uint_start by done. by rewrite uint_val_to_uint.
Qed.

(** [parseInt(String(n))] is [n]. *)
Lemma parseInt_decimal n : parseInt_string (decimal n) = Some n.
Proof.
  destruct n as [|p|p].
  - reflexivity.
  - apply parseInt_decimal_pos.
  - pose proof (DecimalPos.Unsigned.to_uint_nonnil p) as Hnil.
    assert (Hd : decimal (Z.neg p) = 45 :: lit (NilEmpty.string_of_uint (Pos.to_uint p))).
    { unfold decimal. simpl. unfold NilZero.string_of_uint.
      by destruct (Pos.to_uint p). }
    rewrite Hd.
    pose proof (digits_of_uint (Pos.to_uint p)) as Hdig.
    pose proof (read_digits_uint_start (Pos.to_uint p) Hnil) as Hread.
    rewrite uint_val_to_uint in Hread.
    destruct (lit (NilEmpty.string_of_uint (Pos.to_uint p))) as [|c s] eqn:Hs.
    { by apply lit_nonempty_uint in Hs. }
    apply (parseInt_minus c s (Z.pos p) Hdig Hread).
Qed.


End NumberFacts.

(* ===================================================================== *)
(** * More on the aggregation client                                      *)
(* ===================================================================== *)

Module ClientMore.
Import NewsClient JsFacts ClientProps.

Lemma assoc_obj_set_eq k v (fields : Fields) : assoc k (obj_set k v fields) = v.
Proof.
  induction fields as [|[k' v'] rest IH]; simpl.
  - unfold jsstring_eqb. by rewrite bool_decide_eq_true_2.
  - destruct (jsstring_eqb k k') eqn:Hk; simpl.
    + unfold jsstring_eqb. by rewrite bool_decide_eq_true_2.
    + by rewrite Hk.
Qed.

Lemma assoc_obj_set_ne k k' v (fields : Fields) :
  k <> k' -> assoc k (obj_set k' v fields) = assoc k fields.
Proof.
  intros Hne.
  assert (Hf : jsstring_eqb k k' = false)
    by (unfold jsstring_eqb; by apply bool_decide_eq_false_2).
  induction fields as [|[k2 v2] rest IH]; simpl.
  - by rewrite Hf.
  - destruct (jsstring_eqb k' k2) eqn:Hk; simpl.
    + unfold jsstring_eqb in Hk. apply bool_decide_eq_true_1 in Hk. subst k2.
      by rewrite Hf.
    + destruct (jsstring_eqb k k2); [reflexivity|exact IH].
Qed.

Lemma assoc_rest_of k (options : Fields) :
  assoc k (rest_of options)
  = if jsstring_eqb k (lit "provider") || jsstring_eqb k (lit "page")
       || jsstring_eqb k (lit "limit")
    then JUndefined else assoc k options.
Proof.
  unfold rest_of. induction options as [|[k' v'] rest IH]; simpl.
  - by destruct (_ || _).
  - destruct (jsstring_eqb k k') eqn:Hk.
    + unfold jsstring_eqb in Hk. apply bool_decide_eq_true_1 in Hk. subst k'.
      destruct (_ || _) eqn:Hr; simpl.
      * rewrite IH. reflexivity.
      * unfold jsstring_eqb at 1. by rewrite bool_decide_eq_true_2.
    + destruct (jsstring_eqb k' (lit "provider") || jsstring_eqb k' (lit "page")
                || jsstring_eqb k' (lit "limit")); simpl.
      * exact IH.
      * rewrite Hk. exact IH.
Qed.

Section More.
Variable A : Type.
Variable stringify : jsstring -> jsstring -> Fields -> jsstring.

Lemma prepare_valid (c : Client A) s options pageN limitN :
  trim s <> [] ->
  parseInt (opt_page options) = Some (Some pageN) -> 1 <= pageN ->
  parseInt (opt_limit options) = Some (Some limitN) -> 1 <= limitN ->
  prepare stringify c (JStr s) options
  = match _getProvider c (assoc (lit "provider") options) with
    | Throw e => Throw e
    | Ok p =>
        Ok {| q_query := trim s; q_page := pageN; q_limit := limitN;
              q_provider := p; q_options := rest_of options;
              q_key := stringify (trim s) (name p) (rest_of options) |}
    end.
Proof.
  intros Hq Hp Hpn Hl Hln. unfold prepare.
  rewrite (check_query_ok s Hq), (parse_option_ok _ _ Hp), (parse_option_ok _ _ Hl).
  cbn [bind]. rewrite (check_positive_accept _ _ _ Hpn). cbn [bind].
  rewrite (check_positive_accept _ _ _ Hln). cbn [bind].
  by destruct (_getProvider _ _).
Qed.

Lemma headlines_valid (c : Client A) options pageN limitN :
  parseInt (opt_page options) = Some (Some pageN) -> 1 <= pageN ->
  parseInt (opt_limit options) = Some (Some limitN) -> 1 <= limitN ->
  getTopHeadlines c options
  = match _getProvider c (assoc (lit "provider") options) with
    | Throw e => (Throw e, c)
    | Ok p =>
        let opts := obj_set (lit "offset") (JNum ((pageN - 1) * limitN))
                      (obj_set (lit "max") (JNum limitN) (rest_of options)) in
        let c' := with_cache c (articleCache c)
                    (calls c ++ [HeadlinesCall (name p) opts]) in
        match p_getTopHeadlines p (calls c) opts with
        | Throw e => (Throw e, c')
        | Ok result => (Ok (_addPaginationMetadata result pageN limitN), c')
        end
    end.
Proof.
  intros Hp Hpn Hl Hln. unfold getTopHeadlines.
  rewrite (parse_option_ok _ _ Hp), (parse_option_ok _ _ Hl).
  cbn [bind]. rewrite (check_positive_accept _ _ _ Hpn). cbn [bind].
  rewrite (check_positive_accept _ _ _ Hln). cbn [bind].
  by destruct (_getProvider _ _).
Qed.

Lemma getProvider_unknown (c : Client A) n :
  n <> [] -> providers_get n (providers c) = None ->
  _getProvider c (JStr n)
  = Throw (ProviderNotFoundError (JStr n) (getAvailableProviders c)).
Proof.
  intros Hn Hget. unfold _getProvider, or_else.
  destruct n as [|ch n]; [done|]. simpl. by rewrite Hget.
Qed.

(** X1. A search or a headlines request that names a provider absent from
    the registry fails with a provider-not-found error of status 404 that
    carries the requested name and lists exactly the registered names; the
    client is left as it was. *)
Theorem unknown_provider_rejected (c : Client A) s options pageN limitN n :
  trim s <> [] ->
  parseInt (opt_page options) = Some (Some pageN) -> 1 <= pageN ->
  parseInt (opt_limit options) = Some (Some limitN) -> 1 <= limitN ->
  assoc (lit "provider") options = JStr n -> n <> [] ->
  providers_get n (providers c) = None ->
  let e := ProviderNotFoundError (JStr n) (getAvailableProviders c) in
  searchNews stringify c (JStr s) options = (Throw e, c)
  /\ getTopHeadlines c options = (Throw e, c)
  /\ statusCode e = Some 404
  /\ exists rest, message e = lit "Provider '" ++ n ++ lit "' not found" ++ rest.
Proof.
  intros Hq Hp Hpn Hl Hln Hprov Hn Hget e.
  pose proof (getProvider_unknown c n Hn Hget) as Hg.
  split; [|split; [|split]].
  - rewrite searchNews_prepare, (prepare_valid c s options pageN limitN) by done.
    by rewrite Hprov, Hg.
  - rewrite (headlines_valid c options pageN limitN) by done. by rewrite Hprov, Hg.
  - reflexivity.
  - unfold e. cbn [message]. change (shown (JStr n)) with n.
    destruct (getAvailableProviders c) as [|a l].
    + exists []. by rewrite app_nil_r.
    + exists (lit ". Available providers: " ++ join (lit ", ") (a :: l)).
      do 2 f_equal.
Qed.

(** X2. With no provider named in the request and no default provider in
    the client, a search or a headlines request fails with the
    no-providers error, of status 503, and the client is left as it was. *)
Theorem no_provider_configured (c : Client A) s options pageN limitN :
  trim s <> [] ->
  parseInt (opt_page options) = Some (Some pageN) -> 1 <= pageN ->
  parseInt (opt_limit options) = Some (Some limitN) -> 1 <= limitN ->
  truthy (assoc (lit "provider") options) = false ->
  defaultProvider c = None ->
  searchNews stringify c (JStr s) options = (Throw NoProvidersAvailableError, c)
  /\ getTopHeadlines c options = (Throw NoProvidersAvailableError, c)
  /\ statusCode NoProvidersAvailableError = Some 503.
Proof.
  intros Hq Hp Hpn Hl Hln Hprov Hdef.
  assert (Hg : _getProvider c (assoc (lit "provider") options)
               = Throw NoProvidersAvailableError).
  { unfold _getProvider, or_else. by rewrite Hprov, Hdef. }
  split; [|split; [|reflexivity]].
  - rewrite searchNews_prepare, (prepare_valid c s options pageN limitN) by done.
    by rewrite Hg.
  - rewrite (headlines_valid c options pageN limitN) by done. by rewrite Hg.
Qed.


Lemma getProvider_default (c : Client A) n v p :
  truthy v = false -> n <> [] ->
  defaultProvider c = Some n -> providers_get n (providers c) = Some p ->
  _getProvider c v = Ok p.
Proof.
  intros Hv Hn Hd Hg. unfold _getProvider, or_else. rewrite Hv, Hd.
  destruct n as [|ch n]; [done|]. simpl. by rewrite Hg.
Qed.

(** X3. [setDefaultProvider] on a name absent from the registry fails with
    a provider-not-found error listing the registered names and changes
    nothing. On a registered, non-empty name it changes the default only:
    requests that name no provider now resolve to that provider, requests
    that name one resolve as before, and the registry, the cache and the
    call log are untouched. *)
Theorem setDefaultProvider_effect (c : Client A) n :
  (providers_get n (providers c) = None ->
   setDefaultProvider c n
   = (Throw (ProviderNotFoundError (JStr n) (getAvailableProviders c)), c))
  /\ (forall p, providers_get n (providers c) = Some p -> n <> [] ->
      let c' := (setDefaultProvider c n).2 in
      (setDefaultProvider c n).1 = Ok tt
      /\ (forall v, truthy v = false -> _getProvider c' v = Ok p)
      /\ (forall v, truthy v = true -> _getProvider c' v = _getProvider c v)
      /\ providers c' = providers c
      /\ articleCache c' = articleCache c
      /\ calls c' = calls c).
Proof.
  split.
  - intros Hg. unfold setDefaultProvider. by rewrite Hg.
  - intros p Hg Hn. unfold setDefaultProvider. rewrite Hg. simpl.
    split; [reflexivity|]. split; [|split; [|auto]].
    + intros v Hv. by apply (getProvider_default _ n).
    + intros v Hv. unfold _getProvider, or_else. rewrite Hv. reflexivity.
Qed.

Lemma providers_get_set_eq n (p : Provider A) ps :
  providers_get n (providers_set A n p ps) = Some p.
Proof.
  induction ps as [|[n' p'] ps IH]; simpl.
  - unfold jsstring_eqb. by rewrite bool_decide_eq_true_2.
  - destruct (jsstring_eqb n n') eqn:Hn; simpl.
    + unfold jsstring_eqb. by rewrite bool_decide_eq_true_2.
    + by rewrite Hn.
Qed.

Lemma providers_get_set_ne m n (p : Provider A) ps :
  m <> n -> providers_get m (providers_set A n p ps) = providers_get m ps.
Proof.
  intros Hne.
  assert (Hf : jsstring_eqb m n = false)
    by (unfold jsstring_eqb; by apply bool_decide_eq_false_2).
  induction ps as [|[n' p'] ps IH]; simpl.
  - by rewrite Hf.
  - destruct (jsstring_eqb n n') eqn:Hn; simpl.
    + unfold jsstring_eqb in Hn. apply bool_decide_eq_true_1 in Hn. subst n'.
      by rewrite Hf.
    + destruct (jsstring_eqb m n'); [reflexivity|exact IH].
Qed.

Lemma providers_set_names n (p : Provider A) ps :
  List.map fst (providers_set A n p ps)
  = if bool_decide (n ∈ List.map fst ps) then List.map fst ps
    else List.map fst ps ++ [n].
Proof.
  induction ps as [|[n' p'] ps IH].
  - reflexivity.
  - cbn [providers_set List.map fst]. destruct (jsstring_eqb n n') eqn:Hn.
    + unfold jsstring_eqb in Hn. apply bool_decide_eq_true_1 in Hn. subst n'.
      cbn [List.map fst]. rewrite bool_decide_eq_true_2; [reflexivity|]. by left.
    + unfold jsstring_eqb in Hn. apply bool_decide_eq_false_1 in Hn.
      cbn [List.map fst]. rewrite IH.
      destruct (bool_decide (n ∈ List.map fst ps)) eqn:Hin.
      * apply bool_decide_eq_true_1 in Hin.
        rewrite bool_decide_eq_true_2; [reflexivity|]. by right.
      * apply bool_decide_eq_false_1 in Hin.
        rewrite bool_decide_eq_false_2; [reflexivity|].
        intros Hc. apply elem_of_cons in Hc as [?|?]; congruence.
Qed.

(** X4. [_registerProvider] skips a provider without an API key and leaves
    the client as it was. Otherwise the provider becomes the one found under
    its name, the other names keep their provider, the list of names gains
    the name at its end unless it was there already, a default that was set
    stays and a missing default becomes this name; the cache and the call
    log are untouched. *)
Theorem registerProvider_effect (c : Client A) (p : Provider A) :
  (apiKey p = [] -> _registerProvider c p = c)
  /\ (apiKey p <> [] ->
      let c' := _registerProvider c p in
      providers_get (name p) (providers c') = Some p
      /\ (forall m, m <> name p ->
          providers_get m (providers c') = providers_get m (providers c))
      /\ getAvailableProviders c'
         = (if bool_decide (name p ∈ getAvailableProviders c)
            then getAvailableProviders c
            else getAvailableProviders c ++ [name p])
      /\ (forall d, defaultProvider c = Some d -> d <> [] ->
          defaultProvider c' = Some d)
      /\ (defaultProvider c = None -> defaultProvider c' = Some (name p))
      /\ articleCache c' = articleCache c
      /\ calls c' = calls c).
Proof.
  unfold _registerProvider. split.
  - intros ->. reflexivity.
  - intros Hk. destruct (apiKey p) as [|ch key]; [done|]. simpl.
    split; [apply providers_get_set_eq|].
    split; [intros m Hm; by apply providers_get_set_ne|].
    split; [apply providers_set_names|].
    split; [|split; [|auto]].
    + intros d -> Hd. by destruct d.
    + intros ->. reflexivity.
Qed.

(** X5. A new client holds gnews when GNEWS_API_KEY is set and newsapi when
    NEWSAPI_KEY is set, in that order and nothing else: guardian is never
    registered. Its default is gnews when that key is set, newsapi when only
    that one is, and there is none when neither is; its cache and its call
    log are empty. *)
Theorem constructor_registry G N (gnews newsapi : jsstring -> Methods A) :
  let c := constructor G N gnews newsapi in
  getAvailableProviders c
  = (if truthy (JStr G) then [lit "gnews"] else [])
    ++ (if truthy (JStr N) then [lit "newsapi"] else [])
  /\ defaultProvider c
     = (if truthy (JStr G) then Some (lit "gnews")
        else if truthy (JStr N) then Some (lit "newsapi") else None)
  /\ (truthy (JStr G) = true ->
      providers_get (lit "gnews") (providers c) = Some (new_GNewsProvider G (gnews G)))
  /\ (truthy (JStr N) = true ->
      providers_get (lit "newsapi") (providers c)
      = Some (new_NewsAPIProvider N (newsapi N)))
  /\ providers_get (lit "guardian") (providers c) = None
  /\ articleCache c = ∅
  /\ calls c = [].
Proof.
  unfold constructor, _autoRegisterProviders, _registerProvider.
  destruct G as [|g G], N as [|n N]; simpl; repeat split; try done.
Qed.

(** What a request sends upstream when it has to fetch. *)
Lemma serve_fetching (c : Client A) r :
  needs_fetch (default (empty_entry A) (articleCache c !! q_key r)) = true ->
  calls (serve c r).2
  = calls c ++ [SearchCall (q_key r) (name (q_provider r)) (q_query r)
                  (obj_set (lit "max") (JNum (fetchSize_of r)) (q_options r))].
Proof.
  intros Hn. unfold serve.
  assert (Hn' : needs_fetch
    (default (empty_entry A)
       ((match articleCache c !! q_key r with
         | Some _ => articleCache c
         | None => <[q_key r := empty_entry A]> (articleCache c)
         end) !! q_key r)) = true).
  { destruct (articleCache c !! q_key r) as [e|] eqn:He.
    - by rewrite He.
    - by rewrite lookup_insert_eq. }
  rewrite Hn'. by destruct (p_searchNews _ _ _ _).
Qed.

Lemma prepare_clearCache (c : Client A) query options :
  prepare stringify (clearCache c) query options = prepare stringify c query options.
Proof. reflexivity. Qed.

(** X6. [clearCache] empties the cache and touches nothing else, and the
    next search after it, whatever its key, goes to the provider again: one
    call is added to the log, for that key. *)
Theorem clearCache_forces_refetch (c : Client A) query options r :
  prepare stringify c query options = Ok r ->
  articleCache (clearCache c) = ∅
  /\ providers (clearCache c) = providers c
  /\ defaultProvider (clearCache c) = defaultProvider c
  /\ calls (clearCache c) = calls c
  /\ calls (searchNews stringify (clearCache c) query options).2
     = calls c ++ [SearchCall (q_key r) (name (q_provider r)) (q_query r)
                     (obj_set (lit "max") (JNum (fetchSize_of r)) (q_options r))].
Proof.
  intros Hprep. repeat split.
  rewrite searchNews_prepare, prepare_clearCache, Hprep.
  apply (serve_fetching (clearCache c) r). simpl. by rewrite lookup_empty.
Qed.

(** X7. When the provider throws during the fetch, [searchNews] throws the
    same error; the key is left with an empty entry, and the next request
    for that key asks the provider again. *)
Theorem failed_fetch_is_retried (c : Client A) query options r e :
  prepare stringify c query options = Ok r ->
  articleCache c !! q_key r = None ->
  p_searchNews (q_provider r) (calls c) (q_query r)
    (obj_set (lit "max") (JNum (fetchSize_of r)) (q_options r)) = Throw e ->
  let out := searchNews stringify c query options in
  out.1 = Throw e
  /\ articleCache out.2 !! q_key r = Some (empty_entry A)
  /\ length (calls out.2) = S (length (calls c))
  /\ forall query' options' r',
       prepare stringify out.2 query' options' = Ok r' ->
       q_key r' = q_key r ->
       calls (searchNews stringify out.2 query' options').2
       = calls out.2
         ++ [SearchCall (q_key r') (name (q_provider r')) (q_query r')
               (obj_set (lit "max") (JNum (fetchSize_of r')) (q_options r'))].
Proof.
  intros Hprep Hnone Hthrow out.
  assert (Hout : out = (Throw e,
            with_cache c (<[q_key r := empty_entry A]> (articleCache c))
              (calls c ++ [SearchCall (q_key r) (name (q_provider r)) (q_query r)
                 (obj_set (lit "max") (JNum (fetchSize_of r)) (q_options r))]))).
  { unfold out. rewrite searchNews_prepare, Hprep. unfold serve.
    rewrite Hnone. simpl. rewrite lookup_insert_eq. simpl. by rewrite Hthrow. }
  rewrite Hout. simpl. split; [reflexivity|].
  split; [apply lookup_insert_eq|]. split; [rewrite length_app; simpl; lia|].
  intros query' options' r' Hprep' Hk.
  rewrite searchNews_prepare, Hprep'.
  rewrite (serve_fetching _ r'); [reflexivity|].
  simpl. rewrite Hk, lookup_insert_eq. reflexivity.
Qed.





Lemma ceil_div_gt a b p : 0 < b -> (p < ceil_div a b <-> p * b < a).
Proof.
  intros Hb. pose proof (ceil_div_spec a b Hb). split; intros; nia.
Qed.

(** X9. In every envelope a search returns, [hasNextPage] says exactly that
    the current page is below [totalPages], for the capped provider, for a
    provider that reported a total and for one that did not. *)
Theorem next_page_iff_more_pages (c : Client A) query options env c' :
  searchNews stringify c query options = (Ok env, c') ->
  hasNextPage (pagination env)
  = (currentPage (pagination env) <? totalPages (pagination env)).
Proof.
  rewrite searchNews_prepare.
  destruct (prepare stringify c query options) as [r|] eqn:Hprep; [|discriminate].
  intros Hs. destruct (prepare_ok _ _ _ _ _ _ Hprep) as [Hpg Hl].
  destruct (serve_ok_populates _ c r env c' Hpg Hl Hs) as (e & _ & Hpop & ->).
  unfold page_of.
  set (n := Z.of_nat (length (articles e))).
  assert (Hn : 0 <= n) by (unfold n; lia).
  assert (Hcd : forall t, 0 < t ->
            ((q_page r - 1) * q_limit r + q_limit r <? t)
            = (q_page r <? ceil_div t (q_limit r))).
  { intros t Ht. apply eq_iff_eq_true. rewrite !Z.ltb_lt.
    rewrite (ceil_div_gt t (q_limit r) (q_page r)) by lia. split; intros; nia. }
  assert (Hsmall : forall t, t <= (q_page r - 1) * q_limit r + q_limit r ->
            (q_page r <? (if 0 <? t then ceil_div t (q_limit r) else 1)) = false).
  { intros t Ht. apply Z.ltb_ge. destruct (Z.ltb_spec 0 t); [|lia].
    destruct (Z.lt_ge_cases (q_page r) (ceil_div t (q_limit r))) as [Hlt|]; [|lia].
    apply (ceil_div_gt t (q_limit r)) in Hlt; nia. }
  destruct (is_gnews (q_provider r)).
  - simpl. destruct (Z.ltb_spec ((q_page r - 1) * q_limit r + q_limit r) n) as [Hlt|Hge].
    + assert (0 < n) by nia. rewrite (proj2 (Z.ltb_lt 0 n)) by done.
      rewrite <- Hcd by done. symmetry. by apply Z.ltb_lt.
    + symmetry. by apply Hsmall.
  - destruct (Z.ltb_spec 0 (totalArticles e)) as [Hpos|Hnon]; simpl.
    + rewrite (proj2 (Z.ltb_lt 0 _) Hpos). by apply Hcd.
    + destruct (((q_page r - 1) * q_limit r + q_limit r <? n) || hasMore e) eqn:Hmore;
        simpl.
      * set (t := Z.max (n * 2) ((q_page r - 1) * q_limit r + q_limit r + q_limit r)).
        assert (Ht : 0 < t) by (unfold t; nia).
        rewrite (proj2 (Z.ltb_lt 0 t) Ht). symmetry. apply Z.ltb_lt.
        apply (ceil_div_gt t (q_limit r)); [lia|]. unfold t. nia.
      * apply orb_false_iff in Hmore as [Hlt _]. apply Z.ltb_ge in Hlt.
        symmetry. by apply Hsmall.
Qed.

Lemma prepare_fields (c : Client A) query options r :
  prepare stringify c query options = Ok r ->
  q_options r = rest_of options
  /\ _getProvider c (assoc (lit "provider") options) = Ok (q_provider r)
  /\ q_key r = stringify (q_query r) (name (q_provider r)) (rest_of options).
Proof.
  unfold prepare, bind.
  destruct (check_query query); [|discriminate].
  destruct (parse_option (opt_page options)) as [pp|]; [|discriminate].
  destruct (parse_option (opt_limit options)) as [lp|]; [|discriminate].
  destruct (check_positive pp _ _) as [pg|]; [|discriminate].
  destruct (check_positive lp _ _) as [lm|]; [|discriminate].
  destruct (_getProvider _ _) as [p|]; [|discriminate].
  intros [= <-]. simpl. auto.
Qed.

Lemma assoc_rest_of_forwarded k (options : Fields) :
  k <> lit "provider" -> k <> lit "page" -> k <> lit "limit" ->
  assoc k (rest_of options) = assoc k options.
Proof.
  intros H1 H2 H3. rewrite assoc_rest_of. unfold jsstring_eqb.
  by rewrite !bool_decide_eq_false_2.
Qed.

Lemma assoc_rest_of_dropped k (options : Fields) :
  k = lit "provider" \/ k = lit "page" \/ k = lit "limit" ->
  assoc k (rest_of options) = JUndefined.
Proof.
  intros H. rewrite assoc_rest_of. destruct H as [->|[->| ->]]; reflexivity.
Qed.

(** X10. When a search has to fetch, the provider is asked for the trimmed
    query with [max] set to 10 for gnews and to the larger of the page's end
    index and twice the limit otherwise, whatever [max] the caller gave.
    The [page], [limit] and [provider] options are never passed on; every
    other option is passed on as given. *)
Theorem search_fetch_request (c : Client A) query options r :
  prepare stringify c query options = Ok r ->
  articleCache c !! q_key r = None ->
  exists opts,
    calls (searchNews stringify c query options).2
    = calls c ++ [SearchCall (q_key r) (name (q_provider r)) (q_query r) opts]
    /\ assoc (lit "max") opts
       = JNum (if is_gnews (q_provider r) then 10
               else Z.max (q_page r * q_limit r) (2 * q_limit r))
    /\ assoc (lit "page") opts = JUndefined
    /\ assoc (lit "limit") opts = JUndefined
    /\ assoc (lit "provider") opts = JUndefined
    /\ forall k, k <> lit "max" -> k <> lit "provider" -> k <> lit "page" ->
                 k <> lit "limit" -> assoc k opts = assoc k options.
Proof.
  intros Hprep Hnone. destruct (prepare_fields c query options r Hprep) as (Ho & _ & _).
  exists (obj_set (lit "max") (JNum (fetchSize_of r)) (q_options r)).
  split.
  { rewrite searchNews_prepare, Hprep. apply serve_fetching. by rewrite Hnone. }
  rewrite assoc_obj_set_eq, !assoc_obj_set_ne by done. rewrite Ho.
  split.
  { f_equal. unfold fetchSize_of. destruct (is_gnews _); [reflexivity|]. f_equal; lia. }
  rewrite !assoc_rest_of_dropped by auto. repeat split.
  intros k Hmax Hp Hpg Hl. rewrite assoc_obj_set_ne by done.
  by apply assoc_rest_of_forwarded.
Qed.

(** X11. A headlines request never reads or writes the search cache. With
    valid page and limit and a provider that resolves, it makes exactly one
    provider call, with [max] set to the limit and [offset] to
    [(page-1)*limit]; [page], [limit] and [provider] are not passed on and
    the other options are passed on as given. An error of the provider is
    thrown unchanged. *)
Theorem headlines_forwarding (c : Client A) options pageN limitN p :
  parseInt (opt_page options) = Some (Some pageN) -> 1 <= pageN ->
  parseInt (opt_limit options) = Some (Some limitN) -> 1 <= limitN ->
  _getProvider c (assoc (lit "provider") options) = Ok p ->
  exists opts,
    articleCache (getTopHeadlines c options).2 = articleCache c
    /\ calls (getTopHeadlines c options).2 = calls c ++ [HeadlinesCall (name p) opts]
    /\ assoc (lit "max") opts = JNum limitN
    /\ assoc (lit "offset") opts = JNum ((pageN - 1) * limitN)
    /\ assoc (lit "page") opts = JUndefined
    /\ assoc (lit "limit") opts = JUndefined
    /\ assoc (lit "provider") opts = JUndefined
    /\ (forall k, forwarded k -> assoc k opts = assoc k options)
    /\ (getTopHeadlines c options).1
       = match p_getTopHeadlines p (calls c) opts with
         | Throw e => Throw e
         | Ok result => Ok (_addPaginationMetadata result pageN limitN)
         end.
Proof.
  intros Hp Hpn Hl Hln Hg.
  exists (obj_set (lit "offset") (JNum ((pageN - 1) * limitN))
            (obj_set (lit "max") (JNum limitN) (rest_of options))).
  rewrite (headlines_valid c options pageN limitN) by done. rewrite Hg.
  rewrite assoc_obj_set_eq, !assoc_obj_set_ne by done.
  rewrite assoc_obj_set_eq, !assoc_obj_set_ne by done.
  rewrite !assoc_rest_of_dropped by auto.
  assert (Hfw : forall k, forwarded k ->
            assoc k (obj_set (lit "offset") (JNum ((pageN - 1) * limitN))
                       (obj_set (lit "max") (JNum limitN) (rest_of options)))
            = assoc k options).
  { intros k (Hmax & Hoff & Hprov & Hpg & Hlim).
    rewrite !assoc_obj_set_ne by done. by apply assoc_rest_of_forwarded. }
  cbv zeta.
  destruct (p_getTopHeadlines p (calls c) _) as [res|e]; simpl; repeat split; exact Hfw.
Qed.


End More.
End ClientMore.

(* ===================================================================== *)
(** * More on the article normalizer                                      *)
(* ===================================================================== *)

Module ArticleMore.
Import ArticleData JsFacts ArticleProps NumberFacts.

Lemma space_is_ws c : (c =? 32) = true -> is_ws c = true.
Proof. intros ->%Z.eqb_eq. reflexivity. Qed.

Lemma collapse_single_spaced s : forall b,
  single_spaced b (collapse_from b s) = true.
Proof.
  induction s as [|c s IH]; intros b; [reflexivity|]. simpl.
  destruct (is_ws c) eqn:Hc.
  - destruct b; [apply IH|]. simpl. apply IH.
  - simpl. destruct (c =? 32) eqn:H32.
    + apply space_is_ws in H32. congruence.
    + rewrite Hc. simpl. apply IH.
Qed.

Lemma rtrim_head c r : is_ws c = false -> exists r', rtrim (c :: r) = c :: r'.
Proof.
  intros Hc. destruct (forallb is_ws r) eqn:Hr.
  - exists []. change (c :: r) with ([c] ++ r). rewrite rtrim_app_blank by done.
    unfold rtrim. simpl. by rewrite Hc.
  - exists (rtrim r). change (c :: r) with ([c] ++ r). by rewrite rtrim_app_solid.
Qed.

Lemma drop_ws_head s : drop_ws s = [] \/ exists c r, drop_ws s = c :: r /\ is_ws c = false.
Proof.
  induction s as [|c s IH]; [by left|]. simpl.
  destruct (is_ws c) eqn:Hc; [exact IH|]. right. eauto.
Qed.

Lemma trim_head s : trim s = [] \/ exists c r, trim s = c :: r /\ is_ws c = false.
Proof.
  rewrite trim_rtrim. destruct (drop_ws_head s) as [->|(c & r & -> & Hc)].
  - by left.
  - right. destruct (rtrim_head c r Hc) as [r' ->]. eauto.
Qed.

Lemma normal_form_single_spaced s :
  single_spaced true (collapse_ws (trim s)) = true.
Proof.
  unfold collapse_ws. destruct (trim_head s) as [->|(c & r & -> & Hc)]; [reflexivity|].
  simpl. rewrite Hc. simpl. destruct (c =? 32) eqn:H32.
  - apply space_is_ws in H32. congruence.
  - rewrite Hc. simpl. apply collapse_single_spaced.
Qed.

(** On a text that holds no white space but spaces, the second [replace] of
    [_sanitizeString] changes nothing. *)
Lemma replace_crlftab_single_spaced s : forall b,
  single_spaced b s = true -> replace_crlftab s = s.
Proof.
  unfold replace_crlftab.
  induction s as [|c s IH]; intros b H; [reflexivity|]. simpl in *.
  destruct (c =? 32) eqn:H32.
  - apply andb_prop in H as [_ H]. apply Z.eqb_eq in H32. subst c. simpl.
    f_equal. by apply (IH true).
  - apply andb_prop in H as [Hc H]. apply negb_true_iff in Hc.
    assert (Hn : (c =? 13) || (c =? 10) || (c =? 9) = false).
    { destruct (c =? 13) eqn:H13; [apply Z.eqb_eq in H13; subst; discriminate|].
      destruct (c =? 10) eqn:H10; [apply Z.eqb_eq in H10; subst; discriminate|].
      destruct (c =? 9) eqn:H9; [apply Z.eqb_eq in H9; subst; discriminate|].
      reflexivity. }
    rewrite Hn. f_equal. by apply (IH false).
Qed.

Lemma firstn_single_spaced n : forall s b,
  single_spaced b s = true -> single_spaced b (firstn n s) = true.
Proof.
  induction n as [|n IH]; intros s b H; [reflexivity|].
  destruct s as [|c s]; [reflexivity|]. simpl in *.
  destruct (c =? 32).
  - apply andb_prop in H as [-> H]. simpl. by apply IH.
  - apply andb_prop in H as [-> H]. simpl. by apply IH.
Qed.

Lemma sanitize_length v : (length (_sanitizeString v) <= 5000)%nat.
Proof.
  destruct v as [| | | |s| |]; try (cbn; lia).
  rewrite sanitize_pipeline. unfold substring0. rewrite length_firstn. lia.
Qed.

(** X13. Whatever it is given, [_sanitizeString] returns at most 5000 code
    units, in which the only white space is the single space: no tab, no
    line break, no two spaces in a row and no space in front. After the
    collapse of white space runs, the replacement of tabs and line breaks
    has nothing left to do. *)
Theorem sanitize_shape v :
  (length (_sanitizeString v) <= 5000)%nat
  /\ single_spaced true (_sanitizeString v) = true
  /\ forall s, replace_crlftab (collapse_ws (trim s)) = collapse_ws (trim s).
Proof.
  assert (Hrep : forall s, replace_crlftab (collapse_ws (trim s)) = collapse_ws (trim s)).
  { intros s. apply (replace_crlftab_single_spaced _ true), normal_form_single_spaced. }
  split; [|split; [|exact Hrep]].
  - apply sanitize_length.
  - destruct v as [| | | |s| |]; try reflexivity.
    rewrite sanitize_pipeline, Hrep. unfold substring0.
    apply firstn_single_spaced, normal_form_single_spaced.
Qed.

Section WithUrlParser.
Variable url_parses : jsstring -> bool.

Lemma validateUrl_some v s :
  _validateUrl url_parses v = Some s -> v = JStr s /\ s <> [] /\ url_parses s = true.
Proof.
  destruct v as [| | | |t| |]; try discriminate. simpl.
  destruct t as [|ch t]; [discriminate|]. simpl.
  destruct (url_parses (ch :: t)) eqn:Hu; [|discriminate].
  intros [= <-]. auto.
Qed.

Lemma str_or_length s d n :
  (length s <= n)%nat -> (length d <= n)%nat -> (length (str_or s d) <= n)%nat.
Proof. by destruct s. Qed.

(** X14. Every article the normalizer returns has a non-empty title and a
    non-empty source name, at most 5000 code units in its title, its
    description and its content, and the creation time it was built at; a
    url or urlToImage that is not null is the raw string itself, unchanged,
    and one the URL parser accepts. *)
Theorem normalized_article_invariants now data a :
  new url_parses now data = Ok a ->
  title a <> []
  /\ name (source a) <> []
  /\ (length (title a) <= 5000)%nat
  /\ (length (description a) <= 5000)%nat
  /\ (length (content a) <= 5000)%nat
  /\ createdAt a = now
  /\ (forall s, url a = Some s ->
      get data "url" = JStr s /\ s <> [] /\ url_parses s = true)
  /\ (forall s, urlToImage a = Some s ->
      get data "urlToImage" = JStr s /\ s <> [] /\ url_parses s = true).
Proof.
  unfold new. destruct (nullish data); [discriminate|].
  destruct (negb _); [discriminate|]. intros [= <-]. simpl.
  split. { by destruct (_sanitizeString (get data "title")). }
  split.
  { unfold _normalizeSource. destruct (_ || _); simpl; [done|].
    by destruct (_sanitizeString (get (get data "source") "name")). }
  split.
  { apply str_or_length; [apply sanitize_length|].
    assert (length (lit "No title available") = 18%nat) by reflexivity. lia. }
  split. { apply str_or_length; [apply sanitize_length|simpl; lia]. }
  split. { apply str_or_length; [apply sanitize_length|simpl; lia]. }
  split; [reflexivity|]. split.
  - intros s Hs. by apply validateUrl_some.
  - intros s Hs. apply validateUrl_some.
    destruct (_validateUrl url_parses (get data "urlToImage")) as [[|ch t]|]; done.
Qed.

Lemma decimal_nonneg_digits n :
  0 <= n -> decimal n <> [] /\ forallb is_digit (decimal n) = true.
Proof.
  intros Hn. destruct n as [|p|p]; [by split|..|lia].
  rewrite decimal_pos. split.
  - apply lit_nonempty_uint, DecimalPos.Unsigned.to_uint_nonnil.
  - apply digits_of_uint.
Qed.

(** X15. The id of an article tagged with a provider name is that name, an
    underscore and a non-empty run of decimal digits, with no sign;
    [parseInt] reads the digits back as a number between 0 and 2^31, the
    absolute value of the 32-bit hash. *)
Theorem id_number_reads_back now data a p :
  new url_parses now data = Ok a ->
  provider a = JStr p ->
  exists digits n,
    id a = p ++ lit "_" ++ digits
    /\ digits <> []
    /\ forallb is_digit digits = true
    /\ parseInt_string digits = Some n
    /\ 0 <= n <= 2 ^ 31
    /\ n = Z.abs (hash (url_text (url a) ++ p ++ title a)).
Proof.
  intros Hnew Hp. apply new_fields in Hnew as (_ & _ & _ & Hid & _).
  assert (Htext : id_text (url a) (provider a) (title a)
                  = url_text (url a) ++ p ++ title a).
  { unfold id_text. rewrite Hp.
    destruct (url a); simpl; rewrite <- ?app_assoc; reflexivity. }
  set (h := hash (url_text (url a) ++ p ++ title a)).
  assert (Hrange : - 2 ^ 31 <= h < 2 ^ 31)
    by (unfold h; rewrite hash_poly31; apply to_int32_range).
  exists (decimal (Z.abs h)), (Z.abs h).
  destruct (decimal_nonneg_digits (Z.abs h) ltac:(lia)) as [Hne Hdig].
  split; [|split; [exact Hne|split; [exact Hdig|split; [apply parseInt_decimal|]]]].
  - rewrite Hid. unfold _generateId. rewrite Htext, Hp. reflexivity.
  - split; [lia|reflexivity].
Qed.

End WithUrlParser.

(** X16. The summary of an article is its content, or its description when
    the content is empty, cut to 150 code units with three dots added when
    it is longer: it is never longer than 153 code units, it agrees with the
    text on the first 150, and it is empty exactly when both are empty. *)
Theorem getSummary_shape a :
  let text := str_or (content a) (description a) in
  (length (getSummary a) <= 153)%nat
  /\ firstn 150 (getSummary a) = firstn 150 text
  /\ ((length text <= 150)%nat -> getSummary a = text)
  /\ (getSummary a = [] <-> content a = [] /\ description a = []).
Proof.
  intros text.
  assert (Hempty : text = [] <-> content a = [] /\ description a = []).
  { unfold text, str_or. destruct (content a) as [|c t]; [tauto|].
    split; [discriminate|]. intros [Hc _]. discriminate. }
  assert (Hsum : getSummary a
                 = match text with
                   | [] => []
                   | _ => if (150 <? length text)%nat
                          then firstn 150 text ++ lit "..." else text
                   end) by reflexivity.
  rewrite Hsum. clear Hsum.
  destruct text as [|c t]; [simpl; repeat split; try lia; tauto|].
  set (txt := c :: t) in *.
  assert (Hne : txt <> []) by done.
  destruct (Nat.ltb_spec 150 (length txt)) as [Hlong|Hshort].
  - split; [|split; [|split]].
    + rewrite length_app, length_firstn. simpl (length (lit "...")). lia.
    + rewrite firstn_app, firstn_firstn, length_firstn.
      replace (150 - Nat.min 150 (length txt))%nat with 0%nat by lia.
      replace (Nat.min 150 150) with 150%nat by lia.
      change (firstn 0 (lit "...")) with (@nil Z). by rewrite app_nil_r.
    + intros Hl. lia.
    + split.
      * intros Hnil. apply (f_equal (@length Z)) in Hnil.
        rewrite length_app in Hnil. simpl in Hnil. lia.
      * intros Hboth. apply Hempty in Hboth. done.
  - split; [lia|]. split; [reflexivity|]. split; [reflexivity|].
    split; [done|]. intros Hboth. apply Hempty in Hboth. done.
Qed.

End ArticleMore.

(* ===================================================================== *)
(** * More on the errors and the providers                                *)
(* ===================================================================== *)

Module ErrorsMore.
Import Samples.

Lemma createNewsError_cases msg d :
  createNewsError msg d = ValidationError msg
  \/ createNewsError msg d = ProviderConfigurationError msg
  \/ (exists n, createNewsError msg d = ProviderNotFoundError (JStr n) [])
  \/ createNewsError msg d = RateLimitError (lit "unknown provider") None
  \/ createNewsError msg d = NewsError msg d.
Proof.
  unfold createNewsError.
  destruct (_ || _); [auto|]. destruct (_ || _); [auto|].
  destruct (includes_str (lit "not found") msg).
  - destruct (capture _ _ msg) as [n|]; [eauto 6|].
    destruct (_ || _); auto.
  - destruct (_ || _); auto.
Qed.

(** X17. Whatever error reaches [newsErrorHandler], the HTTP status it sets
    is the [statusCode] written in the body, and the body says
    [success: false]. A news error is sent with its own status, message and
    class name; any other error is first converted, and is then sent with
    status 400, 404, 429, 500 or 503. *)
Theorem handler_status_matches_body e :
  (newsErrorHandler e).1 = eb_statusCode (newsErrorHandler e).2
  /\ success (newsErrorHandler e).2 = false
  /\ (isNewsError e = true ->
      (newsErrorHandler e).1 = statusCode e
      /\ error (newsErrorHandler e).2 = message e
      /\ type (newsErrorHandler e).2 = name e)
  /\ (isNewsError e = false ->
      exists s, (newsErrorHandler e).1 = Some s
                /\ (s = 400 \/ s = 404 \/ s = 429 \/ s = 500 \/ s = 503)).
Proof.
  unfold newsErrorHandler. destruct (isNewsError e) eqn:Hn; simpl.
  - repeat split. discriminate.
  - split; [reflexivity|]. split; [reflexivity|]. split; [discriminate|]. intros _.
    destruct (createNewsError_cases (message e) 500)
      as [->|[->|[[n ->]|[->| ->]]]]; simpl; eauto 10.
Qed.

Section Any.
Variable url_parses : jsstring -> bool.
Variable now : jsstring.

Lemma invalid_sortBy_newsapi sortBy :
  truthy sortBy = true -> Enums.includes Enums.SortBy sortBy = false ->
  NewsAPIProvider._validateOptions sortBy JUndefined
  = Throw (Error (lit "Invalid sortBy option. Must be one of: relevance, date, publishedAt")).
Proof using Type.
  intros Ht Hi. unfold NewsAPIProvider._validateOptions. by rewrite Ht, Hi.
Qed.

Lemma invalid_sortBy_guardian sortBy :
  truthy sortBy = true -> Enums.includes Enums.SortBy sortBy = false ->
  GuardianProvider._validateOptions sortBy JUndefined
  = Throw (Error (lit "Invalid sortBy option. Must be one of: relevance, date, publishedAt")).
Proof using Type.
  intros Ht Hi. unfold GuardianProvider._validateOptions. by rewrite Ht, Hi.
Qed.

Lemma default_to_truthy v d : truthy v = true -> default_to v d = v.
Proof using Type. by destruct v. Qed.

(** X18. The plain errors that NewsAPI and Guardian raise before any
    request still reach the HTTP client with a fitting status, through the
    keywords [createNewsError] looks for: a provider without an API key is
    answered 503 as a provider-configuration error, and a sortBy outside the
    vocabulary 400 as a validation error, with the provider's message. *)
Theorem legacy_errors_at_boundary fetch query options :
  (let e := Error (lit "NewsAPI provider is not properly configured") in
   NewsAPIProvider.searchNews url_parses now [] fetch query options = Throw e
   /\ newsErrorHandler e
      = (Some 503, {| success := false; error := message e;
                      type := lit "ProviderConfigurationError";
                      eb_statusCode := Some 503 |}))
  /\ (let e := Error (lit "Guardian provider is not properly configured") in
      GuardianProvider.searchNews url_parses now [] fetch query options = Throw e
      /\ newsErrorHandler e
         = (Some 503, {| success := false; error := message e;
                         type := lit "ProviderConfigurationError";
                         eb_statusCode := Some 503 |}))
  /\ (forall apiKey,
      apiKey <> [] ->
      truthy (assoc (lit "sortBy") options) = true ->
      Enums.includes Enums.SortBy (assoc (lit "sortBy") options) = false ->
      let e := Error (lit "Invalid sortBy option. Must be one of: relevance, date, publishedAt") in
      NewsAPIProvider.searchNews url_parses now apiKey fetch query options = Throw e
      /\ GuardianProvider.searchNews url_parses now apiKey fetch query options = Throw e
      /\ newsErrorHandler e
         = (Some 400, {| success := false; error := message e;
                         type := lit "ValidationError";
                         eb_statusCode := Some 400 |})).
Proof using Type.
  split; [split; reflexivity|]. split; [split; reflexivity|].
  intros apiKey Hk Ht Hi e.
  assert (Hd : default_to (assoc (lit "sortBy") options) (JStr (lit "relevance"))
               = assoc (lit "sortBy") options) by by apply default_to_truthy.
  split; [|split; [|reflexivity]].
  - unfold NewsAPIProvider.searchNews, NewsAPIProvider.isReady.
    destruct apiKey; [done|]. simpl negb. cbv iota. cbv zeta.
    rewrite Hd, (invalid_sortBy_newsapi _ Ht Hi). reflexivity.
  - unfold GuardianProvider.searchNews, GuardianProvider.isReady.
    destruct apiKey; [done|]. simpl negb. cbv iota. cbv zeta.
    rewrite Hd, (invalid_sortBy_guardian _ Ht Hi). reflexivity.
Qed.

(** X19. When the gnews library rejects, or answers with a body that cannot
    be normalized, [GNewsProvider.searchNews] raises an external-API error
    that holds the original error, and [newsErrorHandler] answers 502 with
    the class name ExternalAPIError and a message that names GNews and ends
    with the original message. *)
Theorem gnews_failure_at_boundary apiKey client_search query options original :
  apiKey <> [] ->
  GNewsProvider._validateOptions (assoc (lit "sortBy") options)
    (assoc (lit "searchIn") options) JUndefined = Ok tt ->
  ((forall params, client_search query params = Throw original)
   \/ ((forall params, client_search query params = Ok JNull)
       /\ original = TypeError (lit "Cannot read properties of null (reading 'articles')"))) ->
  GNewsProvider.searchNews url_parses now apiKey client_search query options
  = Throw (ExternalAPIError (lit "GNews") original)
  /\ newsErrorHandler (ExternalAPIError (lit "GNews") original)
     = (Some 502,
        {| success := false;
           error := lit "External API error from GNews: " ++ message original;
           type := lit "ExternalAPIError";
           eb_statusCode := Some 502 |}).
Proof using Type.
  intros Hk Hv Hc. split; [|reflexivity].
  unfold GNewsProvider.searchNews. destruct apiKey; [done|]. simpl negb. cbv iota.
  rewrite Hv. cbn [bind]. destruct Hc as [Hc|[Hc ->]]; rewrite Hc; reflexivity.
Qed.

End Any.
End ErrorsMore.

Module ProviderMore.
Import Samples ProviderProps.

Lemma mapM_all {X Y} (f : X -> Result Y) (P : X -> Prop) (l : list X) :
  (forall x, P x -> exists y, f x = Ok y) ->
  Forall P l ->
  exists out, mapM f l = Ok out /\ Forall2 (fun x y => f x = Ok y) l out.
Proof.
  intros Hf Hl. induction Hl as [|x l Hx Hl IH].
  - exists []. split; [reflexivity|constructor].
  - destruct (Hf x Hx) as [y Hy]. destruct IH as (out & Hout & Hall).
    exists (y :: out). simpl. rewrite Hy. simpl. rewrite Hout. simpl.
    split; [reflexivity|]. by constructor.
Qed.

Lemma lookup_List_map {X Y} (f : X -> Y) (l : list X) : forall i,
  List.map f l !! i = f <$> l !! i.
Proof. induction l as [|x l IH]; intros [|i]; simpl; auto. Qed.

Section Any.
Variable url_parses : jsstring -> bool.
Variable now : jsstring.
Variable apiKey : jsstring.

Lemma gnews_article_ok article :
  nullish article = false ->
  exists a,
    (let! _ := read article "title" in
     ArticleData.new url_parses now (GNewsProvider.raw_of article))%result = Ok a.
Proof using Type.
  intros Hn. unfold read. rewrite Hn. cbn [bind].
  apply ArticleProps.new_ok; vm_compute; reflexivity.
Qed.

(** X20. On a response whose [articles] is an array of values none of which
    is [null] or [undefined], [GNewsProvider.normalizeResponse] returns one
    article per raw article, in the same order and without dropping any:
    the i-th one carries the provider gnews, the sanitized title of the i-th
    raw article (or the placeholder), its url if it parses, and its [image]
    as urlToImage. [actualResults] is their number, and [totalResults] is
    the [totalArticles] of the response, or 0. *)
Theorem gnews_normalize_keeps_all response raws :
  nullish response = false ->
  get response "articles" = JArr raws ->
  Forall (fun raw => nullish raw = false) raws ->
  exists res,
    GNewsProvider.normalizeResponse url_parses now response = Ok res
    /\ length (pr_articles res) = length raws
    /\ pr_actualResults res = Some (Z.of_nat (length raws))
    /\ pr_totalResults res = or_else (get response "totalArticles") (JNum 0)
    /\ pr_provider res = lit "gnews"
    /\ forall i raw, raws !! i = Some raw ->
         exists a, pr_articles res !! i = Some a
           /\ ArticleData.provider a = JStr (lit "gnews")
           /\ ArticleData.title a
              = ArticleData.str_or (ArticleData._sanitizeString (get raw "title"))
                  (lit "No title available")
           /\ ArticleData.url a = ArticleData._validateUrl url_parses (get raw "url")
           /\ ArticleData.urlToImage a
              = ArticleData.or_null
                  (ArticleData._validateUrl url_parses (get raw "image")).
Proof using Type.
  intros Hresp Harts Hall.
  destruct (mapM_all
              (fun article =>
                 (let! _ := read article "title" in
                  ArticleData.new url_parses now (GNewsProvider.raw_of article))%result)
              (fun raw => nullish raw = false) raws gnews_article_ok Hall)
    as (out & Hout & Hrel).
  assert (Hread : read response "articles" = Ok (get response "articles"))
    by (unfold read; by rewrite Hresp).
  unfold GNewsProvider.normalizeResponse. rewrite Hread. cbn [bind].
  rewrite Harts. unfold or_else. cbn [truthy map_array]. rewrite Hout. cbn [bind].
  eexists. split; [reflexivity|]. cbn [pr_articles pr_actualResults pr_totalResults pr_provider].
  pose proof (Forall2_length _ _ _ Hrel) as Hlen.
  split; [by rewrite length_map|]. split; [by rewrite Hlen|].
  split; [reflexivity|]. split; [reflexivity|].
  intros i raw Hi.
  destruct (Forall2_lookup_l _ _ _ _ _ Hrel Hi) as (a & Ha & Hnew).
  exists (ArticleData.toJSON a). split.
  { by rewrite lookup_List_map, Ha. }
  unfold read in Hnew. destruct (nullish raw); [discriminate|]. cbn [bind] in Hnew.
  unfold ArticleData.new in Hnew. simpl in Hnew. injection Hnew as <-.
  repeat split.
Qed.

(** X21. [GNewsProvider.searchNews] and [getTopHeadlines] refuse before any
    request goes out, whatever the gnews library would answer: without an
    API key with a provider-configuration error (503), and with a sortBy,
    searchIn or category outside the vocabulary with a validation error
    (400) that lists the vocabulary. *)
Theorem gnews_rejects_before_network client_search client_topHeadlines query options :
  (apiKey = [] ->
   GNewsProvider.searchNews url_parses now apiKey client_search query options
   = Throw (ProviderConfigurationError (lit "GNews provider is not properly configured"))
   /\ GNewsProvider.getTopHeadlines url_parses now apiKey client_topHeadlines options
   = Throw (ProviderConfigurationError (lit "GNews provider is not properly configured")))
  /\ (apiKey <> [] ->
      truthy (assoc (lit "sortBy") options) = true ->
      Enums.includes Enums.SortBy (assoc (lit "sortBy") options) = false ->
      GNewsProvider.searchNews url_parses now apiKey client_search query options
      = Throw (ValidationError
                 (lit "Invalid sortBy option. Must be one of: relevance, date, publishedAt")))
  /\ (apiKey <> [] ->
      Enums.includes Enums.SortBy (assoc (lit "sortBy") options) = true
      \/ truthy (assoc (lit "sortBy") options) = false ->
      truthy (assoc (lit "searchIn") options) = true ->
      Enums.includes Enums.SearchInOptions (assoc (lit "searchIn") options) = false ->
      GNewsProvider.searchNews url_parses now apiKey client_search query options
      = Throw (ValidationError
                 (lit "Invalid searchIn option. Must be one of: title, description, content")))
  /\ (apiKey <> [] ->
      truthy (assoc (lit "category") options) = true ->
      Enums.includes Enums.NewsCategory (assoc (lit "category") options) = false ->
      GNewsProvider.getTopHeadlines url_parses now apiKey client_topHeadlines options
      = Throw (ValidationError
                 (lit "Invalid category option. Must be one of: general, business, entertainment, health, science, sports, technology"))).
Proof using Type.
  unfold GNewsProvider.searchNews, GNewsProvider.getTopHeadlines.
  split; [intros ->; split; reflexivity|].
  split; [|split].
  - intros Hk Ht Hi. destruct apiKey; [done|]. simpl negb. cbv iota.
    unfold GNewsProvider._validateOptions. rewrite Ht, Hi. reflexivity.
  - intros Hk Hs Ht Hi. destruct apiKey; [done|]. simpl negb. cbv iota.
    unfold GNewsProvider._validateOptions. rewrite Ht, Hi.
    destruct Hs as [-> | ->]; [rewrite andb_false_r|]; reflexivity.
  - intros Hk Ht Hi. destruct apiKey; [done|]. simpl negb. cbv iota.
    unfold GNewsProvider._validateOptions. rewrite Ht, Hi. reflexivity.
Qed.

Lemma gnews_headlines_wraps client_topHeadlines options e :
  GNewsProvider.getTopHeadlines url_parses now apiKey client_topHeadlines options = Throw e ->
  (exists m, e = ProviderConfigurationError m)
  \/ (exists m, e = ValidationError m)
  \/ (exists original, e = ExternalAPIError (lit "GNews") original).
Proof using Type.
  unfold GNewsProvider.getTopHeadlines.
  destruct (negb _); [intros [= <-]; eauto|].
  unfold bind at 1.
  destruct (GNewsProvider._validateOptions _ _ _) as [[]|e'] eqn:Hv.
  - unfold try_catch. destruct (bind _ _); [discriminate|].
    intros [= <-]. right; right. eauto.
  - intros [= <-]. right; left. revert Hv. unfold GNewsProvider._validateOptions.
    repeat (destruct (_ && _); [intros [= <-]; eauto|]). discriminate.
Qed.

(** X22. Every error that [GNewsProvider.searchNews] or [getTopHeadlines]
    raises is a news error with a status code: a provider-configuration
    error (503), a validation error (400), or an external-API error (502)
    that names GNews and holds the error it wraps. No plain error and no
    runtime TypeError gets out. *)
Theorem gnews_errors_are_typed client_search client_topHeadlines query options e :
  GNewsProvider.searchNews url_parses now apiKey client_search query options = Throw e
  \/ GNewsProvider.getTopHeadlines url_parses now apiKey client_topHeadlines options
     = Throw e ->
  isNewsError e = true
  /\ (statusCode e = Some 503 \/ statusCode e = Some 400
      \/ (statusCode e = Some 502
          /\ exists original, e = ExternalAPIError (lit "GNews") original
             /\ message e = lit "External API error from GNews: " ++ message original)).
Proof using Type.
  intros [H|H].
  - apply gnews_search_wraps in H as [[m ->]|[[m ->]|(o & -> & _)]]; simpl; eauto 10.
  - apply gnews_headlines_wraps in H as [[m ->]|[[m ->]|(o & ->)]]; simpl; eauto 10.
Qed.

(** X23. GNews reads seven options for a search (max, lang, country, from,
    to, sortBy, searchIn) and four for headlines (category, max, lang,
    country), and nothing else: two option objects that agree on these give
    the same result. In particular the [offset] the client computes for a
    headlines page has no effect. *)
Theorem gnews_reads_only_its_options client_search client_topHeadlines query
    (options options' : Fields) :
  ((forall k, In k ["max"; "lang"; "country"; "from"; "to"; "sortBy"; "searchIn"]%string ->
      assoc (lit k) options = assoc (lit k) options') ->
   GNewsProvider.searchNews url_parses now apiKey client_search query options
   = GNewsProvider.searchNews url_parses now apiKey client_search query options')
  /\ ((forall k, In k ["category"; "max"; "lang"; "country"]%string ->
         assoc (lit k) options = assoc (lit k) options') ->
      GNewsProvider.getTopHeadlines url_parses now apiKey client_topHeadlines options
      = GNewsProvider.getTopHeadlines url_parses now apiKey client_topHeadlines options')
  /\ (forall v,
      GNewsProvider.getTopHeadlines url_parses now apiKey client_topHeadlines
        (NewsClient.obj_set (lit "offset") v options)
      = GNewsProvider.getTopHeadlines url_parses now apiKey client_topHeadlines options).
Proof using Type.
  assert (Hhead : (forall k, In k ["category"; "max"; "lang"; "country"]%string ->
                     assoc (lit k) options = assoc (lit k) options') ->
     GNewsProvider.getTopHeadlines url_parses now apiKey client_topHeadlines options
     = GNewsProvider.getTopHeadlines url_parses now apiKey client_topHeadlines options').
  { intros H. unfold GNewsProvider.getTopHeadlines.
    rewrite <- (H "category"%string), <- (H "max"%string), <- (H "lang"%string),
      <- (H "country"%string) by (simpl; tauto).
    reflexivity. }
  split; [|split; [exact Hhead|]].
  - intros H. unfold GNewsProvider.searchNews.
    rewrite <- (H "max"%string), <- (H "lang"%string), <- (H "country"%string),
      <- (H "from"%string), <- (H "to"%string), <- (H "sortBy"%string),
      <- (H "searchIn"%string) by (simpl; tauto).
    reflexivity.
  - intros v. unfold GNewsProvider.getTopHeadlines.
    rewrite !ClientMore.assoc_obj_set_ne by done. reflexivity.
Qed.

Lemma legacy_empty_total (res : ProviderResponse) l :
  pr_articles res = List.map ArticleData.toJSON l -> l = [] -> pr_articles res = [].
Proof using Type. by intros -> ->. Qed.

Lemma newsapi_normalize_total response res :
  NewsAPIProvider.normalizeResponse url_parses now response = Ok res ->
  pr_articles res = [] /\ pr_totalResults res = JNum 0.
Proof using Type.
  unfold NewsAPIProvider.normalizeResponse, bind.
  destruct (read _ _); [|discriminate].
  destruct (map_array _ _ _) as [mapped|]; [|discriminate].
  destruct (filterM _ mapped) as [kept|] eqn:Hf; [|discriminate].
  apply filterM_isValid in Hf as [_ ->]. by intros [= <-].
Qed.

Lemma guardian_normalize_total response res :
  GuardianProvider.normalizeResponse url_parses now response = Ok res ->
  pr_articles res = [] /\ pr_totalResults res = JNum 0.
Proof using Type.
  unfold GuardianProvider.normalizeResponse, bind.
  destruct (read _ _); [|discriminate].
  destruct (map_array _ _ _) as [mapped|]; [|discriminate].
  destruct (filterM _ mapped) as [kept|] eqn:Hf; [|discriminate].
  apply filterM_isValid in Hf as [_ ->]. by intros [= <-].
Qed.

(** X24. NewsAPI and Guardian never deliver an article: whenever their
    [searchNews] or [getTopHeadlines] returns, the article list is empty and
    [totalResults] is 0. *)
Theorem legacy_providers_deliver_nothing fetch query options res :
  NewsAPIProvider.searchNews url_parses now apiKey fetch query options = Ok res
  \/ NewsAPIProvider.getTopHeadlines url_parses now apiKey fetch options = Ok res
  \/ GuardianProvider.searchNews url_parses now apiKey fetch query options = Ok res
  \/ GuardianProvider.getTopHeadlines url_parses now apiKey fetch options = Ok res ->
  pr_articles res = [] /\ pr_totalResults res = JNum 0.
Proof using Type.
  intros [H|[H|[H|H]]]; revert H.
  - unfold NewsAPIProvider.searchNews. destruct (negb _); [discriminate|].
    unfold bind at 1. destruct (NewsAPIProvider._validateOptions _ _); [|discriminate].
    unfold try_catch, bind. destruct (response_data _ _) as [data|]; [|discriminate].
    destruct (NewsAPIProvider.normalizeResponse _ _ data) as [r|] eqn:Hn; [|discriminate].
    intros [= <-]. by apply newsapi_normalize_total in Hn.
  - unfold NewsAPIProvider.getTopHeadlines. destruct (negb _); [discriminate|].
    unfold bind at 1. destruct (NewsAPIProvider._validateOptions _ _); [|discriminate].
    unfold try_catch, bind. destruct (response_data _ _) as [data|]; [|discriminate].
    destruct (NewsAPIProvider.normalizeResponse _ _ data) as [r|] eqn:Hn; [|discriminate].
    intros [= <-]. by apply newsapi_normalize_total in Hn.
  - unfold GuardianProvider.searchNews. destruct (negb _); [discriminate|].
    unfold bind at 1. destruct (GuardianProvider._validateOptions _ _); [|discriminate].
    unfold try_catch, bind. destruct (response_data _ _) as [data|]; [|discriminate].
    destruct (GuardianProvider.normalizeResponse _ _ data) as [r|] eqn:Hn; [|discriminate].
    intros [= <-]. by apply guardian_normalize_total in Hn.
  - unfold GuardianProvider.getTopHeadlines. destruct (negb _); [discriminate|].
    unfold bind at 1. destruct (GuardianProvider._validateOptions _ _); [|discriminate].
    unfold try_catch, bind. destruct (response_data _ _) as [data|]; [|discriminate].
    destruct (GuardianProvider.normalizeResponse _ _ data) as [r|] eqn:Hn; [|discriminate].
    intros [= <-]. by apply guardian_normalize_total in Hn.
Qed.

End Any.
End ProviderMore.

(* ===================================================================== *)
(** * The routes                                                          *)
(* ===================================================================== *)

Module RoutesProps.
Import NewsClient NewsRoutes JsFacts ClientProps.

Lemma drop_ws_idem s : drop_ws (drop_ws s) = drop_ws s.
Proof.
  induction s as [|c s IH]; [reflexivity|]. simpl.
  destruct (is_ws c) eqn:Hc; [exact IH|]. simpl. by rewrite Hc.
Qed.

Lemma rtrim_idem s : rtrim (rtrim s) = rtrim s.
Proof. unfold rtrim. by rewrite rev_involutive, drop_ws_idem. Qed.

(** Trimming twice is trimming once. *)
Lemma trim_idem s : trim (trim s) = trim s.
Proof.
  rewrite (trim_rtrim (trim s)).
  assert (Hd : drop_ws (trim s) = trim s).
  { destruct (ArticleMore.trim_head s) as [->|(c & r & -> & Hc)]; [reflexivity|].
    simpl. by rewrite Hc. }
  rewrite Hd, trim_rtrim. apply rtrim_idem.
Qed.

Lemma assoc_pick_truthy k names (query : Fields) :
  assoc k (pick_truthy names query)
  = if existsb (fun n => jsstring_eqb k (lit n)) names && truthy (assoc k query)
    then assoc k query else JUndefined.
Proof.
  induction names as [|n names IH]; [reflexivity|].
  cbn [pick_truthy existsb]. cbv zeta.
  destruct (jsstring_eqb k (lit n)) eqn:Hk.
  - assert (k = lit n) as ->
      by (unfold jsstring_eqb in Hk; by apply bool_decide_eq_true_1 in Hk).
    cbn [orb andb].
    destruct (truthy (assoc (lit n) query)) eqn:Ht.
    + cbn [assoc]. by rewrite Hk.
    + rewrite IH. by rewrite andb_false_r.
  - cbn [orb]. destruct (truthy (assoc (lit n) query)).
    + cbn [assoc]. rewrite Hk. exact IH.
    + exact IH.
Qed.

Lemma pick_truthy_entries names (query : Fields) k v :
  In (k, v) (pick_truthy names query) ->
  truthy v = true /\ v = assoc k query /\ exists n, In n names /\ k = lit n.
Proof.
  induction names as [|n names IH]; [done|].
  cbn [pick_truthy]. cbv zeta.
  destruct (truthy (assoc (lit n) query)) eqn:Ht.
  - intros [Heq|Hin].
    + injection Heq as <- <-. split; [exact Ht|]. split; [reflexivity|].
      exists n. split; [by left|reflexivity].
    + destruct (IH Hin) as (? & ? & m & ? & ?).
      split; [done|]. split; [done|]. exists m. split; [by right|done].
  - intros Hin. destruct (IH Hin) as (? & ? & m & ? & ?).
    split; [done|]. split; [done|]. exists m. split; [by right|done].
Qed.

Section Routes.
Variable A : Type.
Variable stringify : jsstring -> jsstring -> Fields -> jsstring.

(** The options object the search route builds. *)
Lemma search_options_page (query : Fields) :
  let options :=
    pick_truthy ["page"; "limit"; "country"; "lang"; "from"; "to";
                 "provider"; "sortBy"; "searchIn"]%string query in
  opt_page options
  = (if truthy (assoc (lit "page") query) then assoc (lit "page") query else JNum 1)
  /\ opt_limit options
     = (if truthy (assoc (lit "limit") query) then assoc (lit "limit") query
        else JNum 10).
Proof.
  unfold opt_page, opt_limit. rewrite !assoc_pick_truthy.
  change (existsb _ _) with true at 1. change (existsb _ _) with true at 1.
  cbn [andb].
  split.
  - destruct (truthy (assoc (lit "page") query)) eqn:Ht; [|reflexivity].
    by destruct (assoc (lit "page") query).
  - destruct (truthy (assoc (lit "limit") query)) eqn:Ht; [|reflexivity].
    by destruct (assoc (lit "limit") query).
Qed.

(** X25. The search route answers 400, with the message that the query is
    required, when [q] is absent, empty or made of white space only; the
    client is not called and stays as it was. *)
Theorem route_rejects_missing_query (c : Client A) (query : Fields) :
  truthy (assoc (lit "q") query) = false
  \/ (exists s, assoc (lit "q") query = JStr s /\ blank_string s) ->
  search stringify c query
  = ((Some 400, MissingQuery (lit "Search query (q) is required")), c).
Proof.
  intros [Hq|(s & Hq & Hs)]; unfold search; rewrite Hq.
  - reflexivity.
  - destruct s as [|ch s]; [reflexivity|]. cbn [truthy negb].
    by rewrite (trim_blank _ Hs).
Qed.

(** X26. A search request whose [page] parameter is present but does not
    parse to an integer at least 1 is answered 400 with the body of an
    invalid-query error: class name InvalidQueryError, status code 400 and a
    message that quotes the parameter as it was sent. The client stays as it
    was. *)
Theorem route_invalid_page (c : Client A) (query : Fields) s page text parsed limitParsed :
  assoc (lit "q") query = JStr s -> trim s <> [] ->
  assoc (lit "page") query = page -> truthy page = true ->
  to_string page = Some text ->
  parseInt_string text = parsed ->
  (forall n, parsed = Some n -> n < 1) ->
  parseInt (if truthy (assoc (lit "limit") query) then assoc (lit "limit") query
            else JNum 10) = Some limitParsed ->
  search stringify c query
  = ((Some 400,
      Failure {| success := false;
                 error := lit "Page must be a positive integer: '" ++ text ++ lit "'";
                 type := lit "InvalidQueryError";
                 eb_statusCode := Some 400 |}), c).
Proof.
  intros Hq Hs Hpage Ht Htext Hparsed Hbad Hlimit.
  destruct (search_options_page query) as [Hop Hol]. cbv zeta in Hop, Hol.
  rewrite Hpage, Ht in Hop.
  unfold search. rewrite Hq.
  assert (Htr : truthy (JStr s) = true) by (destruct s; [done|reflexivity]).
  rewrite Htr. cbn [negb].
  destruct (trim s) as [|ch t] eqn:Htrim; [done|]. rewrite <- Htrim.
  set (options := pick_truthy _ query) in *.
  assert (Hpp : parseInt (opt_page options) = Some parsed).
  { rewrite Hop. unfold parseInt. rewrite Htext. cbn [option_map]. by rewrite Hparsed. }
  assert (Hlp : parseInt (opt_limit options) = Some limitParsed) by by rewrite Hol.
  assert (Hsearch : searchNews stringify c (JStr (trim s)) options
                    = (Throw (InvalidQueryError page
                                (lit "Page must be a positive integer")), c)).
  { rewrite searchNews_prepare. unfold prepare.
    rewrite (check_query_ok (trim s)) by (rewrite trim_idem; by rewrite Htrim).
    rewrite (parse_option_ok _ _ Hpp), (parse_option_ok _ _ Hlp). cbn [bind].
    rewrite (check_positive_reject _ _ _ Hbad). by rewrite Hop. }
  rewrite Hsearch. unfold failed, newsErrorHandler, isNewsError, toJSON.
  cbn [statusCode message NewsErrors.name]. unfold shown. rewrite Htext.
  reflexivity.
Qed.

(** X27. The options the search route hands to the client hold only
    parameters among its nine names, each with the value that was sent, and
    only when that value is truthy; [q] itself is never among them. An
    absent or empty [page] or [limit] therefore falls back to the defaults 1
    and 10, and the query the client receives, and the one echoed in the
    answer, is the trimmed [q]. *)
Theorem route_forwards_truthy_options (c : Client A) (query : Fields) s :
  assoc (lit "q") query = JStr s -> trim s <> [] ->
  let options :=
    pick_truthy ["page"; "limit"; "country"; "lang"; "from"; "to";
                 "provider"; "sortBy"; "searchIn"]%string query in
  (forall k v, In (k, v) options ->
     truthy v = true /\ v = assoc k query
     /\ exists n, In n ["page"; "limit"; "country"; "lang"; "from"; "to";
                        "provider"; "sortBy"; "searchIn"]%string /\ k = lit n)
  /\ assoc (lit "q") options = JUndefined
  /\ (truthy (assoc (lit "page") query) = false -> opt_page options = JNum 1)
  /\ (truthy (assoc (lit "limit") query) = false -> opt_limit options = JNum 10)
  /\ search stringify c query
     = (match searchNews stringify c (JStr (trim s)) options with
        | (Ok result, c') => ((Some 200, SearchResults (trim s) options result), c')
        | (Throw e, c') => (failed e, c')
        end)
  /\ (forall r, prepare stringify c (JStr (trim s)) options = Ok r -> q_query r = trim s).
Proof.
  intros Hq Hs options.
  destruct (search_options_page query) as [Hop Hol]. cbv zeta in Hop, Hol.
  fold options in Hop, Hol.
  split; [intros k v; apply pick_truthy_entries|].
  split. { unfold options. rewrite assoc_pick_truthy. reflexivity. }
  split; [intros Hp; by rewrite Hop, Hp|].
  split; [intros Hl; by rewrite Hol, Hl|].
  split.
  - unfold search. rewrite Hq.
    assert (Htr : truthy (JStr s) = true) by (destruct s; [done|reflexivity]).
    rewrite Htr. cbn [negb].
    destruct (trim s) as [|ch t] eqn:Htrim; [done|]. reflexivity.
  - intros r. unfold prepare.
    rewrite (check_query_ok (trim s)) by by rewrite trim_idem.
    rewrite trim_idem. unfold bind.
    destruct (parse_option (opt_page options)); [|discriminate].
    destruct (parse_option (opt_limit options)); [|discriminate].
    destruct (check_positive _ _ _); [|discriminate].
    destruct (check_positive _ _ _); [|discriminate].
    destruct (_getProvider _ _); [|discriminate].
    by intros [= <-].
Qed.

(** X28. A [q] that is truthy but not a string, as a repeated parameter is,
    makes the search route answer 500 with a generic news error that says
    [q.trim] is not a function; the client is not called. *)
Theorem route_non_string_query (c : Client A) (query : Fields) :
  truthy (assoc (lit "q") query) = true ->
  is_string (assoc (lit "q") query) = false ->
  search stringify c query
  = ((Some 500,
      Failure {| success := false; error := lit "q.trim is not a function";
                 type := lit "NewsError"; eb_statusCode := Some 500 |}), c).
Proof.
  intros Ht Hs. unfold search. rewrite Ht. cbn [negb].
  destruct (assoc (lit "q") query); try discriminate; reflexivity.
Qed.

End Routes.
End RoutesProps.

(* ===================================================================== *)
(** * More examples                                                       *)
(* ===================================================================== *)

Module MoreExamples.
Import NewsClient NewsRoutes Samples MoreSamples.

Lemma unknown_provider_rejected_witness :
  let e := ProviderNotFoundError (JStr (lit "bbc")) [lit "gnews"] in
  searchNews stringify client0 (JStr (lit "climate"))
    [(lit "provider", JStr (lit "bbc"))] = (Throw e, client0)
  /\ getTopHeadlines client0 [(lit "provider", JStr (lit "bbc"))] = (Throw e, client0)
  /\ statusCode e = Some 404
  /\ exists rest, message e = lit "Provider '" ++ lit "bbc" ++ lit "' not found" ++ rest.
Proof.
  assert (Hq : trim (lit "climate") <> []) by (vm_compute; discriminate).
  assert (Hn : lit "bbc" <> []) by (vm_compute; discriminate).
  assert (H1 : 1 <= 1) by lia. assert (H2 : 1 <= 10) by lia.
  exact (ClientMore.unknown_provider_rejected nat stringify client0 (lit "climate")
           [(lit "provider", JStr (lit "bbc"))] 1 10 (lit "bbc")
           Hq eq_refl H1 eq_refl H2 eq_refl Hn eq_refl).
Defined.

Lemma no_provider_configured_witness :
  searchNews stringify fresh (JStr (lit "climate")) []
  = (Throw NoProvidersAvailableError, fresh)
  /\ getTopHeadlines fresh [] = (Throw NoProvidersAvailableError, fresh)
  /\ statusCode NoProvidersAvailableError = Some 503.
Proof.
  assert (Hq : trim (lit "climate") <> []) by (vm_compute; discriminate).
  assert (H1 : 1 <= 1) by lia. assert (H2 : 1 <= 10) by lia.
  exact (ClientMore.no_provider_configured nat stringify fresh (lit "climate") [] 1 10
           Hq eq_refl H1 eq_refl H2 eq_refl eq_refl).
Defined.

Lemma setDefaultProvider_effect_witness :
  setDefaultProvider client0 (lit "bbc")
  = (Throw (ProviderNotFoundError (JStr (lit "bbc")) [lit "gnews"]), client0)
  /\ (setDefaultProvider client0 (lit "gnews")).1 = Ok tt.
Proof.
  destruct (ClientMore.setDefaultProvider_effect nat client0 (lit "bbc")) as [Hno _].
  destruct (ClientMore.setDefaultProvider_effect nat client0 (lit "gnews")) as [_ Hyes].
  split; [apply Hno; reflexivity|].
  apply (Hyes gnews8); [reflexivity|vm_compute; discriminate].
Defined.

Lemma registerProvider_effect_witness :
  providers_get (lit "gnews") (providers (_registerProvider fresh gnews8)) = Some gnews8
  /\ defaultProvider (_registerProvider fresh gnews8) = Some (lit "gnews").
Proof.
  destruct (ClientMore.registerProvider_effect nat fresh gnews8) as [_ H].
  destruct H as (Hget & _ & _ & _ & Hdef & _); [vm_compute; discriminate|].
  split; [exact Hget|apply Hdef; reflexivity].
Defined.

Lemma constructor_registry_witness :
  providers_get (lit "gnews") (providers (constructor (lit "key") [] silent silent))
  = Some (new_GNewsProvider (lit "key") (silent (lit "key")))
  /\ getAvailableProviders (constructor (lit "key") [] silent silent) = [lit "gnews"].
Proof.
  destruct (ClientMore.constructor_registry nat (lit "key") [] silent silent)
    as (Hnames & _ & Hg & _).
  split; [apply Hg; reflexivity|exact Hnames].
Defined.

Lemma clearCache_forces_refetch_witness :
  articleCache (clearCache first_page.2) = ∅
  /\ length (calls (searchNews stringify (clearCache first_page.2)
                      (JStr (lit "climate")) [(lit "limit", JNum 5)]).2) = 2%nat.
Proof.
  destruct (ClientMore.clearCache_forces_refetch nat stringify first_page.2
              (JStr (lit "climate")) [(lit "limit", JNum 5)] request0)
    as (Hc & _ & _ & _ & Hcalls); [vm_compute; reflexivity|].
  split; [exact Hc|]. rewrite Hcalls. reflexivity.
Defined.

Lemma failed_fetch_is_retried_witness :
  let out := searchNews stringify client1 (JStr (lit "climate")) [] in
  out.1 = Throw (Error (lit "socket hang up"))
  /\ length (calls out.2) = 1%nat
  /\ length (calls (searchNews stringify out.2 (JStr (lit "climate")) []).2) = 2%nat.
Proof.
  destruct (ClientMore.failed_fetch_is_retried nat stringify client1
              (JStr (lit "climate")) [] request1 (Error (lit "socket hang up"))
              eq_refl eq_refl eq_refl)
    as (Hthrow & _ & Hlen & Hnext).
  split; [exact Hthrow|]. split; [exact Hlen|].
  rewrite (Hnext (JStr (lit "climate")) [] request1);
    [|vm_compute; reflexivity|reflexivity].
  rewrite length_app, Hlen. reflexivity.
Defined.


Lemma next_page_iff_more_pages_witness :
  exists env, first_page.1 = Ok env
    /\ hasNextPage (pagination env)
       = (currentPage (pagination env) <? totalPages (pagination env)).
Proof.
  eexists. split; [vm_compute; reflexivity|].
  apply (ClientMore.next_page_iff_more_pages nat stringify client0
           (JStr (lit "climate")) [(lit "limit", JNum 5)] _ first_page.2).
  vm_compute. reflexivity.
Defined.

Lemma search_fetch_request_witness :
  exists opts,
    calls first_page.2
    = calls client0 ++ [SearchCall (q_key request0) (lit "gnews") (lit "climate") opts]
    /\ assoc (lit "max") opts = JNum 10.
Proof.
  destruct (ClientMore.search_fetch_request nat stringify client0
              (JStr (lit "climate")) [(lit "limit", JNum 5)] request0
              eq_refl eq_refl)
    as (opts & Hcalls & Hmax & _).
  exists opts. split; [exact Hcalls|exact Hmax].
Defined.

Lemma headlines_forwarding_witness :
  exists opts,
    calls (getTopHeadlines client0 [(lit "page", JNum 2)]).2
    = calls client0 ++ [HeadlinesCall (lit "gnews") opts]
    /\ assoc (lit "max") opts = JNum 10
    /\ assoc (lit "offset") opts = JNum 10.
Proof.
  assert (H1 : 1 <= 2) by lia. assert (H2 : 1 <= 10) by lia.
  destruct (ClientMore.headlines_forwarding nat client0 [(lit "page", JNum 2)] 2 10 gnews8
              eq_refl H1 eq_refl H2 eq_refl)
    as (opts & _ & Hcalls & Hmax & Hoff & _).
  exists opts. split; [exact Hcalls|]. split; [exact Hmax|exact Hoff].
Defined.


Lemma normalized_article_invariants_witness :
  exists a, ArticleData.new http_only (lit "t0") raw2 = Ok a
    /\ ArticleData.title a <> []
    /\ ArticleData.createdAt a = lit "t0"
    /\ (length (ArticleData.title a) <= 5000)%nat.
Proof.
  eexists. split; [vm_compute; reflexivity|].
  destruct (ArticleMore.normalized_article_invariants http_only (lit "t0") raw2 _ eq_refl)
    as (Ht & _ & Hl & _ & _ & Hc & _).
  split; [exact Ht|]. split; [exact Hc|exact Hl].
Defined.

Lemma id_number_reads_back_witness :
  exists a digits n,
    ArticleData.new http_only (lit "t0") raw2 = Ok a
    /\ ArticleData.id a = lit "gnews" ++ lit "_" ++ digits
    /\ parseInt_string digits = Some n
    /\ 0 <= n <= 2 ^ 31.
Proof.
  eexists.
  destruct (ArticleMore.id_number_reads_back http_only (lit "t0") raw2 _ (lit "gnews")
              eq_refl eq_refl)
    as (digits & n & Hid & _ & _ & Hp & Hn & _).
  exists digits, n. split; [vm_compute; reflexivity|].
  split; [exact Hid|]. split; [exact Hp|exact Hn].
Defined.

Lemma getSummary_shape_witness : ArticleData.getSummary brief = lit "Hello world".
Proof.
  destruct (ArticleMore.getSummary_shape brief) as (_ & _ & Hshort & _).
  apply Hshort. vm_compute. lia.
Defined.

Lemma handler_status_matches_body_witness :
  (newsErrorHandler NoProvidersAvailableError).1 = Some 503
  /\ exists s, (newsErrorHandler (Error (lit "socket hang up"))).1 = Some s
               /\ (s = 400 \/ s = 404 \/ s = 429 \/ s = 500 \/ s = 503).
Proof.
  destruct (ErrorsMore.handler_status_matches_body NoProvidersAvailableError)
    as (_ & _ & Hnews & _).
  destruct (ErrorsMore.handler_status_matches_body (Error (lit "socket hang up")))
    as (_ & _ & _ & Hother).
  split; [exact (proj1 (Hnews eq_refl))|exact (Hother eq_refl)].
Defined.

Lemma legacy_errors_at_boundary_witness :
  let e := Error (lit "Invalid sortBy option. Must be one of: relevance, date, publishedAt") in
  NewsAPIProvider.searchNews http_only (lit "t0") (lit "key") nothing (lit "climate")
    [(lit "sortBy", JStr (lit "newest"))] = Throw e
  /\ (newsErrorHandler e).1 = Some 400.
Proof.
  destruct (ErrorsMore.legacy_errors_at_boundary http_only (lit "t0") nothing
              (lit "climate") [(lit "sortBy", JStr (lit "newest"))]) as (_ & _ & H).
  assert (Hk : lit "key" <> []) by (vm_compute; discriminate).
  destruct (H (lit "key") Hk eq_refl eq_refl) as (Hn & _ & Hh).
  split; [exact Hn|]. cbv zeta in Hh. rewrite Hh. reflexivity.
Defined.

Lemma gnews_failure_at_boundary_witness :
  GNewsProvider.searchNews http_only (lit "t0") (lit "key") rejecting (lit "climate") []
  = Throw (ExternalAPIError (lit "GNews") (Error (lit "socket hang up")))
  /\ (newsErrorHandler (ExternalAPIError (lit "GNews") (Error (lit "socket hang up")))).1
     = Some 502.
Proof.
  assert (Hk : lit "key" <> []) by (vm_compute; discriminate).
  destruct (ErrorsMore.gnews_failure_at_boundary http_only (lit "t0") (lit "key")
              rejecting (lit "climate") [] (Error (lit "socket hang up"))
              Hk eq_refl (or_introl (fun _ => eq_refl)))
    as [Hs Hh].
  split; [exact Hs|]. rewrite Hh. reflexivity.
Defined.

Lemma gnews_normalize_keeps_all_witness :
  exists res,
    GNewsProvider.normalizeResponse http_only (lit "t0") gnews_body = Ok res
    /\ length (pr_articles res) = 1%nat
    /\ pr_totalResults res = JNum 1.
Proof.
  assert (Hraws : Forall (fun raw => nullish raw = false) [raw2])
    by (repeat constructor).
  destruct (ProviderMore.gnews_normalize_keeps_all http_only (lit "t0") gnews_body [raw2]
              eq_refl eq_refl Hraws)
    as (res & Hres & Hlen & _ & Htot & _).
  exists res. split; [exact Hres|]. split; [exact Hlen|exact Htot].
Defined.

Lemma gnews_rejects_before_network_witness :
  GNewsProvider.searchNews http_only (lit "t0") [] rejecting (lit "climate") []
  = Throw (ProviderConfigurationError (lit "GNews provider is not properly configured")).
Proof.
  destruct (ProviderMore.gnews_rejects_before_network http_only (lit "t0") []
              rejecting (fun _ => Ok JNull) (lit "climate") []) as [H _].
  exact (proj1 (H eq_refl)).
Defined.

Lemma gnews_errors_are_typed_witness :
  isNewsError (ExternalAPIError (lit "GNews") (Error (lit "socket hang up"))) = true.
Proof.
  apply (ProviderMore.gnews_errors_are_typed http_only (lit "t0") (lit "key")
           rejecting (fun _ => Ok JNull) (lit "climate") []).
  left. reflexivity.
Defined.

Lemma gnews_reads_only_its_options_witness :
  GNewsProvider.searchNews http_only (lit "t0") (lit "key") rejecting (lit "climate")
    [(lit "lang", JStr (lit "fr"))]
  = GNewsProvider.searchNews http_only (lit "t0") (lit "key") rejecting (lit "climate")
      [(lit "page", JNum 2); (lit "lang", JStr (lit "fr"))].
Proof.
  destruct (ProviderMore.gnews_reads_only_its_options http_only (lit "t0") (lit "key")
              rejecting (fun _ => Ok JNull) (lit "climate")
              [(lit "lang", JStr (lit "fr"))]
              [(lit "page", JNum 2); (lit "lang", JStr (lit "fr"))]) as [H _].
  apply H. intros k Hk. simpl in Hk.
  repeat (destruct Hk as [<-|Hk]; [reflexivity|]). destruct Hk.
Defined.

Lemma legacy_providers_deliver_nothing_witness :
  exists res,
    NewsAPIProvider.searchNews http_only (lit "t0") (lit "key") nothing (lit "climate") []
    = Ok res
    /\ pr_articles res = [] /\ pr_totalResults res = JNum 0.
Proof.
  eexists. split; [vm_compute; reflexivity|].
  apply (ProviderMore.legacy_providers_deliver_nothing http_only (lit "t0") (lit "key")
           nothing (lit "climate") []).
  left. reflexivity.
Defined.

Lemma route_rejects_missing_query_witness :
  search stringify client0 [(lit "q", JStr (lit "   "))]
  = ((Some 400, MissingQuery (lit "Search query (q) is required")), client0).
Proof.
  apply (RoutesProps.route_rejects_missing_query nat stringify client0).
  right. exists (lit "   "). split; reflexivity.
Defined.

Lemma route_invalid_page_witness :
  search stringify client0 [(lit "q", JStr (lit "climate")); (lit "page", JStr (lit "abc"))]
  = ((Some 400,
      Failure {| success := false;
                 error := lit "Page must be a positive integer: 'abc'";
                 type := lit "InvalidQueryError";
                 eb_statusCode := Some 400 |}), client0).
Proof.
  assert (Hq : trim (lit "climate") <> []) by (vm_compute; discriminate).
  assert (Hbad : forall n : Z, @None Z = Some n -> n < 1) by discriminate.
  exact (RoutesProps.route_invalid_page nat stringify client0
           [(lit "q", JStr (lit "climate")); (lit "page", JStr (lit "abc"))]
           (lit "climate") (JStr (lit "abc")) (lit "abc") None (Some 10)
           eq_refl Hq eq_refl eq_refl eq_refl eq_refl Hbad eq_refl).
Defined.

Lemma route_forwards_truthy_options_witness :
  let query := [(lit "q", JStr (lit " climate ")); (lit "page", JStr []);
                (lit "max", JStr (lit "50"))] in
  let options := pick_truthy ["page"; "limit"; "country"; "lang"; "from"; "to";
                              "provider"; "sortBy"; "searchIn"]%string query in
  assoc (lit "q") options = JUndefined /\ opt_page options = JNum 1.
Proof.
  intros query options.
  assert (Hq : trim (lit " climate ") <> []) by (vm_compute; discriminate).
  destruct (RoutesProps.route_forwards_truthy_options nat stringify client0 query
              (lit " climate ") eq_refl Hq) as (_ & Hnoq & Hp & _).
  split; [exact Hnoq|apply Hp; reflexivity].
Defined.

Lemma route_non_string_query_witness :
  search stringify client0 [(lit "q", JArr [JStr (lit "a"); JStr (lit "b")])]
  = ((Some 500,
      Failure {| success := false; error := lit "q.trim is not a function";
                 type := lit "NewsError"; eb_statusCode := Some 500 |}), client0).
Proof.
  apply (RoutesProps.route_non_string_query nat stringify client0); reflexivity.
Defined.

End MoreExamples.
